(** * The one-pager crawler of the read-only Notion MCP proxy

    A shallow embedding of [src/openapi-mcp-server/mcp/proxy.ts] (class
    [MCPProxy]): the pagination merge [handleBlockChildrenParallel], the
    recursive crawler [retrievePageRecursively] with its helpers, the
    aggregate tool [handleOnePagerRequest], the two request handlers of
    [setupHandlers] with [updateCacheFromResponse] and [truncateToolName],
    and the base-URL check of the constructor; and of the tool-call handler
    of the earlier revision of the file ([unnamed/part_000]).

    Conventions of the embedding.
    - JavaScript values are the inductive [JsValue]; an object is the list
      of its own fields in insertion order.
    - An [async] function is a computation in the monad [M]: it threads the
      proxy's state (the five caches, the record of remote calls, the state
      of the remote side) and ends in a returned value, a thrown error, or
      [Hang] when its promise is not settled by the time the caller stops
      waiting.
    - [Diverge] is a loop that never gives control back (the batch loop of
      [retrieveBlocksRecursively] with a negative [batchSize]): no timer
      can fire, so no catch and no timeout turns it into a result.
    - The recursive functions take a measure.  For the block recursion it
      is the number of levels left below [maxDepth], and for the batch loop
      the length of the listing, so neither runs out while the loop makes
      progress; for the pagination loop it is a fuel that bounds the
      requests, and running out is [Hang].
    - [Promise.all] over tasks runs the tasks one after the other in array
      order: one schedule of the cooperative scheduler.  The result array
      keeps the array order, as [Promise.all] does for every schedule.  The
      order in which a block's [children], [database] and [page_info]
      fields are attached follows that schedule.
    - Page objects that the code mutates after storing them
      ([enrichedProperties[propName].details = ...]) live in a heap and are
      held by reference.
    - The remote side ([HttpClient.executeOperation]) and the operation
      table ([openApiLookup]) are parameters of the development. *)

From Stdlib Require Import ZArith List String Ascii Bool Lia DecimalString.
Import ListNotations.
Open Scope string_scope.
Open Scope Z_scope.

(** ** JavaScript values *)

Unset Elimination Schemes.
Inductive JsValue : Type :=
| JUndef
| JNull
| JBool (b : bool)
| JNum (z : Z)
| JStr (s : string)
| JArr (items : list JsValue)
| JObj (fields : list (string * JsValue)).
Set Elimination Schemes.

(** [ToBoolean]: what [if (v)], [v || d] and [!v] look at. *)
Definition truthy (v : JsValue) : bool :=
  match v with
  | JUndef | JNull => false
  | JBool b => b
  | JNum z => negb (z =? 0)
  | JStr s => negb (String.eqb s "")
  | JArr _ | JObj _ => true
  end.

(** [v || d] *)
Definition js_or (v d : JsValue) : JsValue := if truthy v then v else d.

(** Structural equality; on primitives it is [===] and the key comparison
    of [Map]. *)
Fixpoint value_eqb (a b : JsValue) {struct a} : bool :=
  match a, b with
  | JUndef, JUndef => true
  | JNull, JNull => true
  | JBool x, JBool y => Bool.eqb x y
  | JNum x, JNum y => x =? y
  | JStr x, JStr y => String.eqb x y
  | JArr xs, JArr ys =>
      (fix go (l : list JsValue) (r : list JsValue) {struct l} : bool :=
         match l, r with
         | [], [] => true
         | x :: l', y :: r' => value_eqb x y && go l' r'
         | _, _ => false
         end) xs ys
  | JObj xs, JObj ys =>
      (fix go (l : list (string * JsValue)) (r : list (string * JsValue))
           {struct l} : bool :=
         match l, r with
         | [], [] => true
         | (k, x) :: l', (k', y) :: r' =>
             String.eqb k k' && value_eqb x y && go l' r'
         | _, _ => false
         end) xs ys
  | _, _ => false
  end.

(** Decimal text of an integer, as [String(n)] and template literals give. *)
Definition dec (z : Z) : string := NilZero.string_of_int (Z.to_int z).

Fixpoint lookup_field (k : string) (fs : list (string * JsValue)) : option JsValue :=
  match fs with
  | [] => None
  | (k', v) :: fs' => if String.eqb k k' then Some v else lookup_field k fs'
  end.

(** [obj[k] = v] and the effect of a later [k: v] in an object literal: an
    existing key keeps its place, a new key goes last. *)
Fixpoint set_field (k : string) (v : JsValue) (fs : list (string * JsValue))
  : list (string * JsValue) :=
  match fs with
  | [] => [(k, v)]
  | (k', v') :: fs' =>
      if String.eqb k k' then (k, v) :: fs' else (k', v') :: set_field k v fs'
  end.

Fixpoint index_entries (i : nat) (l : list JsValue) : list (string * JsValue) :=
  match l with
  | [] => []
  | x :: l' => (dec (Z.of_nat i), x) :: index_entries (S i) l'
  end.

Fixpoint chars_of (s : string) : list JsValue :=
  match s with
  | EmptyString => []
  | String c s' => JStr (String c EmptyString) :: chars_of s'
  end.

(** Own enumerable properties: what [{...v}] copies and [Object.entries(v)]
    lists.  Arrays and strings contribute their indices. *)
Definition js_entries (v : JsValue) : list (string * JsValue) :=
  match v with
  | JObj fs => fs
  | JArr l => index_entries 0 l
  | JStr s => index_entries 0 (chars_of s)
  | _ => []
  end.

(** [v.k] on a value that is neither [null] nor [undefined]; [length] of
    arrays and strings is the only inherited property the code reads. *)
Definition prop (v : JsValue) (k : string) : JsValue :=
  match v with
  | JObj fs => match lookup_field k fs with Some x => x | None => JUndef end
  | JArr l =>
      if String.eqb k "length" then JNum (Z.of_nat (List.length l))
      else match lookup_field k (index_entries 0 l) with Some x => x | None => JUndef end
  | JStr s =>
      if String.eqb k "length" then JNum (Z.of_nat (String.length s))
      else match lookup_field k (index_entries 0 (chars_of s)) with
           | Some x => x | None => JUndef end
  | _ => JUndef
  end.

Definition nullish (v : JsValue) : bool :=
  match v with JUndef | JNull => true | _ => false end.

(** [{...v, k: x}] *)
Definition spread_set (v : JsValue) (k : string) (x : JsValue) : JsValue :=
  JObj (set_field k x (js_entries v)).

(** [JSON.stringify] followed by reading the text back: fields holding
    [undefined] are dropped, [undefined] array items become [null]. *)
Fixpoint json_norm (v : JsValue) : JsValue :=
  match v with
  | JArr l =>
      JArr ((fix go (l : list JsValue) : list JsValue :=
               match l with
               | [] => []
               | x :: l' =>
                   (match x with JUndef => JNull | _ => json_norm x end) :: go l'
               end) l)
  | JObj fs =>
      JObj ((fix go (fs : list (string * JsValue)) : list (string * JsValue) :=
               match fs with
               | [] => []
               | (k, x) :: fs' =>
                   match x with
                   | JUndef => go fs'
                   | _ => (k, json_norm x) :: go fs'
                   end
               end) fs)
  | _ => v
  end.

(** A JSON text is represented by the value it denotes; [None] is the
    [undefined] that [JSON.stringify(undefined)] returns. *)
Definition JSON_stringify (v : JsValue) : option JsValue :=
  match v with
  | JUndef => None
  | _ => Some (json_norm v)
  end.

(** [s.includes(needle)] on strings. *)
Fixpoint str_includes (needle hay : string) : bool :=
  String.prefix needle hay ||
  match hay with
  | EmptyString => false
  | String _ hay' => str_includes needle hay'
  end.

(** [String(v)], as a template literal applies it. *)
Fixpoint js_to_string (v : JsValue) : string :=
  match v with
  | JUndef => "undefined"
  | JNull => "null"
  | JBool true => "true"
  | JBool false => "false"
  | JNum z => dec z
  | JStr s => s
  | JArr l =>
      String.concat ","
        ((fix go (l : list JsValue) : list string :=
            match l with
            | [] => []
            | x :: l' => (if nullish x then "" else js_to_string x) :: go l'
            end) l)
  | JObj _ => "[object Object]"
  end.

(** [Array.prototype.slice(start, end)] on the items of an array. *)
Definition js_slice {A} (l : list A) (i j : Z) : list A :=
  let n := Z.of_nat (List.length l) in
  let rel k := if k <? 0 then Z.max (n + k) 0 else Z.min k n in
  let from := rel i in
  let upto := rel j in
  firstn (Z.to_nat (upto - from)) (skipn (Z.to_nat from) l).

(** [n || d] on numbers. *)
Definition or_num (n d : Z) : Z := if n =? 0 then d else n.

(** ** Errors *)

Inductive JsError : Type :=
| PlainError (name message : string)
| HttpClientError (message : string) (status : Z) (data : JsValue).

Definition err_message (e : JsError) : string :=
  match e with
  | PlainError _ m => m
  | HttpClientError m _ _ => m
  end.

Definition err_name (e : JsError) : string :=
  match e with
  | PlainError n _ => n
  | HttpClientError _ _ _ => "HttpClientError"
  end.

(** [String(error)], that is [Error.prototype.toString]. *)
Definition err_to_string (e : JsError) : string :=
  if String.eqb (err_name e) "" then err_message e
  else if String.eqb (err_message e) "" then err_name e
  else err_name e ++ ": " ++ err_message e.

Definition new_Error (m : string) : JsError := PlainError "Error" m.

(** The engine's [TypeError]s; the texts are V8's. *)
Definition TypeError_read (v : JsValue) (k : string) : JsError :=
  PlainError "TypeError"
    ("Cannot read properties of "
       ++ (match v with JNull => "null" | _ => "undefined" end)
       ++ " (reading '" ++ k ++ "')").

Definition TypeError_not_function (what : string) : JsError :=
  PlainError "TypeError" (what ++ " is not a function").

Definition TypeError_not_iterable : JsError :=
  PlainError "TypeError"
    "Spread syntax requires ...iterable[Symbol.iterator] to be a function".

Definition dquote : string := String (ascii_of_nat 34) EmptyString.

Definition SyntaxError_undefined_json : JsError :=
  PlainError "SyntaxError" (dquote ++ "undefined" ++ dquote ++ " is not valid JSON").

(** ** Outcome of a computation *)

(** [Ret]: the promise is fulfilled; [Throw]: it is rejected; [Hang]: it is
    still pending when the caller stops waiting (a timer can fire
    meanwhile); [Diverge]: the code runs a loop that never ends and never
    waits for the remote side, so that no timer gets to fire. *)
Inductive Result (A : Type) : Type :=
| Ret (a : A)
| Throw (e : JsError)
| Hang
| Diverge.
Arguments Ret {A} a.
Arguments Throw {A} e.
Arguments Hang {A}.
Arguments Diverge {A}.

(** [v.k], which throws on [null] and [undefined]. *)
Definition get_prop (v : JsValue) (k : string) : Result JsValue :=
  if nullish v then Throw (TypeError_read v k) else Ret (prop v k).

(** [v?.k] *)
Definition opt_prop (v : JsValue) (k : string) : JsValue :=
  if nullish v then JUndef else prop v k.

(** [JSON.parse(text)] of a text produced by [JSON_stringify]. *)
Definition JSON_parse (t : option JsValue) : Result JsValue :=
  match t with
  | Some v => Ret v
  | None => Throw SyntaxError_undefined_json
  end.

(** [await Promise.all(tasks)] once every task has run as far as it goes:
    the first rejection in array order, else pending if a task is pending,
    else the values in array order.  A task that diverges stalls all. *)
Fixpoint Promise_all {A} (tasks : list (Result A)) : Result (list A) :=
  match tasks with
  | [] => Ret []
  | t :: tasks' =>
      match t, Promise_all tasks' with
      | Diverge, _ => Diverge
      | _, Diverge => Diverge
      | Throw e, _ => Throw e
      | _, Throw e => Throw e
      | Hang, _ => Hang
      | _, Hang => Hang
      | Ret a, Ret l => Ret (a :: l)
      end
  end.

(** ** Caches: [Map] objects, keys compared as [Map] does *)

Definition Cache (V : Type) : Type := list (JsValue * V).

Fixpoint cache_get {V} (c : Cache V) (k : JsValue) : option V :=
  match c with
  | [] => None
  | (k', v) :: c' => if value_eqb k k' then Some v else cache_get c' k
  end.

Definition cache_has {V} (c : Cache V) (k : JsValue) : bool :=
  match cache_get c k with Some _ => true | None => false end.

Fixpoint cache_set {V} (c : Cache V) (k : JsValue) (v : V) : Cache V :=
  match c with
  | [] => [(k, v)]
  | (k', v') :: c' =>
      if value_eqb k k' then (k, v) :: c' else (k', v') :: cache_set c' k v
  end.

(** ** The remote side *)

Record Operation : Type := mkOperation {
  operationId : string;
  method : string;
  path : string
}.

Record Response : Type := mkResponse {
  status : Z;
  data : JsValue
}.

(** What the promise of one [executeOperation] call does: it resolves with
    a response, rejects with an error, or is still pending when the caller
    stops waiting. *)
Inductive Outcome : Type :=
| Resolved (r : Response)
| Rejected (e : JsError)
| Pending.

(** One remote call, as the arguments [executeOperation] received. *)
Record Call : Type := mkCall {
  call_op : Operation;
  call_params : JsValue
}.

(** A tool result [{content: [{type: 'text', text}]}], reduced to its text. *)
Record ToolResult : Type := mkToolResult {
  text : option JsValue
}.

(** ** The proxy *)

(** What the proxy is given.  [W] is the state of the world outside it.
    - [executeOperation]: [HttpClient.executeOperation] acting on the world;
    - [openApiLookup]: [this.openApiLookup], filled by the OpenAPI converter;
    - [clock], [isoString]: [Date.now()] and [Date.prototype.toISOString];
    - [JSON_text]: the text [JSON.stringify] writes for a value;
    - [js_zero_lt]: the comparison [0 < v] for a [v] that is not a number
      ([ToNumber] on strings, arrays and objects). *)
Record Collaborators (W : Type) : Type := mkCollaborators {
  executeOperation : Operation -> JsValue -> W -> Outcome * W;
  openApiLookup : string -> option Operation;
  clock : W -> Z;
  isoString : Z -> string;
  JSON_text : JsValue -> string;
  js_zero_lt : JsValue -> bool
}.
Arguments executeOperation {W} _ _ _ _.
Arguments openApiLookup {W} _ _.
Arguments clock {W} _ _.
Arguments isoString {W} _ _.
Arguments JSON_text {W} _ _.
Arguments js_zero_lt {W} _ _.

Section Proxy.

Context {W : Type}.
Variable env : Collaborators W.

(** The fields of [MCPProxy] that change, the remote side and the log of
    calls.  Page objects live in [heap]: [pageCache] and the crawler hold
    references to them, because [enrichPageProperties] writes into the
    page object it was given. *)
Record State : Type := mkState {
  world : W;
  heap : list JsValue;
  pageCache : Cache nat;
  blockCache : Cache JsValue;
  databaseCache : Cache JsValue;
  commentCache : Cache JsValue;
  propertyCache : Cache JsValue;
  calls : list Call
}.

Definition M (A : Type) : Type := State -> Result A * State.

Definition ret {A} (a : A) : M A := fun s => (Ret a, s).
Definition throw {A} (e : JsError) : M A := fun s => (Throw e, s).
Definition hang {A} : M A := fun s => (Hang, s).
Definition diverge {A} : M A := fun s => (Diverge, s).

Definition bind {A B} (m : M A) (k : A -> M B) : M B :=
  fun s =>
    match m s with
    | (Ret a, s') => k a s'
    | (Throw e, s') => (Throw e, s')
    | (Hang, s') => (Hang, s')
    | (Diverge, s') => (Diverge, s')
    end.

Definition lift {A} (r : Result A) : M A := fun s => (r, s).

(** [try { m } catch (error) { h error }] *)
Definition try_catch {A} (m : M A) (h : JsError -> M A) : M A :=
  fun s =>
    match m s with
    | (Throw e, s') => h e s'
    | r => r
    end.

Definition get_state : M State := fun s => (Ret s, s).

(** Calling [this.httpClient.executeOperation(operation, params)]: the
    request goes out and is logged; the promise is the [Outcome]. *)
Definition call_executeOperation (op : Operation) (params : JsValue)
  : M Outcome :=
  fun s =>
    let (o, w') := executeOperation env op params (world s) in
    (Ret o,
     mkState w' (heap s) (pageCache s) (blockCache s) (databaseCache s)
             (commentCache s) (propertyCache s)
             (calls s ++ [mkCall op params])%list).

(** [await] of such a promise. *)
Definition await (o : Outcome) : M Response :=
  match o with
  | Resolved r => ret r
  | Rejected e => throw e
  | Pending => hang
  end.

(** [this.findOperation(operationId)] *)
Definition findOperation (operationId : string) : option Operation :=
  openApiLookup env operationId.

Notation "x <- m ;; k" := (bind m (fun x => k))
  (at level 61, m at next level, right associativity).

(** ** [handleBlockChildrenParallel]: the pagination merge *)

(** A later-page request after its [.then(...).catch(...)]: the object
    [{results, next_cursor}] as a pair, or [None] while still pending.  A
    status other than 200, a rejection, and a [TypeError] on a missing body
    inside [.then] all end in [{results: [], next_cursor: null}]. *)
Definition page_of_outcome (o : Outcome) : option (JsValue * JsValue) :=
  match o with
  | Resolved r =>
      if status r =? 200 then
        if nullish (data r) then Some (JArr [], JNull)
        else Some (js_or (prop (data r) "results") (JArr []),
                   prop (data r) "next_cursor")
      else Some (JArr [], JNull)
  | Rejected _ => Some (JArr [], JNull)
  | Pending => None
  end.

(** The items [...v] spreads into an argument list. *)
Definition js_spread_items (v : JsValue) : Result (list JsValue) :=
  match v with
  | JArr l => Ret l
  | JStr s => Ret (chars_of s)
  | _ => Throw TypeError_not_iterable
  end.

(** [results.push(...items)]; the argument list is evaluated before the
    call is attempted. *)
Definition js_push (results items : JsValue) : Result JsValue :=
  match js_spread_items items with
  | Ret l =>
      match results with
      | JArr r => Ret (JArr (r ++ l)%list)
      | _ => Throw (TypeError_not_function "results.push")
      end
  | Throw e => Throw e
  | Hang => Hang
  | Diverge => Diverge
  end.

(** [await Promise.all(pageRequests)] *)
Fixpoint all_pages (reqs : list (option (JsValue * JsValue)))
  : option (list (JsValue * JsValue)) :=
  match reqs with
  | [] => Some []
  | None :: _ => None
  | Some p :: reqs' =>
      match all_pages reqs' with
      | Some ps => Some (p :: ps)
      | None => None
      end
  end.

(** [for (const response of pageResponses) { ... }] *)
Fixpoint merge_pages (results nextCursor : JsValue)
         (responses : list (JsValue * JsValue)) : Result (JsValue * JsValue) :=
  match responses with
  | [] => Ret (results, nextCursor)
  | (r, c) :: rest =>
      match js_push results r with
      | Ret results' =>
          merge_pages results' (if truthy c then c else JNull) rest
      | Throw e => Throw e
      | Hang => Hang
      | Diverge => Diverge
      end
  end.

Definition maxParallelRequests_pages : nat := 5.

(** [while (nextCursor) { ... }].  [fuel] bounds the number of iterations
    the caller waits for; a loop that needs more is a promise that does
    not settle. *)
Fixpoint pagination_loop (fuel : nat) (operation : Operation) (params : JsValue)
         (results nextCursor : JsValue)
         (pageRequests : list (option (JsValue * JsValue)))
  : M JsValue :=
  if negb (truthy nextCursor) then ret results else
  match fuel with
  | O => hang
  | S fuel' =>
      let nextPageParams := spread_set params "start_cursor" nextCursor in
      o <- call_executeOperation operation nextPageParams ;;
      let pageRequests := (pageRequests ++ [page_of_outcome o])%list in
      if (maxParallelRequests_pages <=? List.length pageRequests)%nat
         || negb (truthy nextCursor)
      then
        match all_pages pageRequests with
        | None => hang
        | Some pageResponses =>
            rc <- lift (merge_pages results nextCursor pageResponses) ;;
            let (results', nextCursor') := rc : JsValue * JsValue in
            if negb (truthy nextCursor') then ret results'
            else pagination_loop fuel' operation params results' nextCursor' []
        end
      else
        if negb (truthy nextCursor) then ret results
        else pagination_loop fuel' operation params results nextCursor pageRequests
  end.

(** [{...initialResponse.data, results, has_more: false, next_cursor: null}] *)
Definition mergedResponse (initialData results : JsValue) : JsValue :=
  JObj (set_field "next_cursor" JNull
          (set_field "has_more" (JBool false)
             (set_field "results" results (js_entries initialData)))).

Definition handleBlockChildrenParallel (fuel : nat) (operation : Operation)
           (params : JsValue) : M ToolResult :=
  o <- call_executeOperation operation params ;;
  initialResponse <- await o ;;
  if negb (status initialResponse =? 200) then
    ret (mkToolResult (JSON_stringify (data initialResponse)))
  else
    let d := data initialResponse in
    if nullish d then throw (TypeError_read d "results") else
    let results := js_or (prop d "results") (JArr []) in
    let nextCursor := prop d "next_cursor" in
    results' <- pagination_loop fuel operation params results nextCursor [] ;;
    ret (mkToolResult (JSON_stringify (mergedResponse d results'))).

(** ** State accessors *)

Definition heap_get (s : State) (ref : nat) : JsValue := nth ref (heap s) JUndef.

(** [this.pageCache.get(pageId)] *)
Definition pageCache_get (s : State) (pageId : JsValue) : JsValue :=
  match cache_get (pageCache s) pageId with
  | Some ref => heap_get s ref
  | None => JUndef
  end.

(** [this.pageCache.set(pageId, pageData)]; the stored object gets a
    reference of its own. *)
Definition pageCache_set (pageId pageData : JsValue) : M nat :=
  fun s =>
    let ref := List.length (heap s) in
    (Ret ref,
     mkState (world s) (heap s ++ [pageData])%list
             (cache_set (pageCache s) pageId ref)
             (blockCache s) (databaseCache s) (commentCache s)
             (propertyCache s) (calls s)).

Definition blockCache_set (k v : JsValue) : M unit :=
  fun s =>
    (Ret tt,
     mkState (world s) (heap s) (pageCache s) (cache_set (blockCache s) k v)
             (databaseCache s) (commentCache s) (propertyCache s) (calls s)).

Definition databaseCache_set (k v : JsValue) : M unit :=
  fun s =>
    (Ret tt,
     mkState (world s) (heap s) (pageCache s) (blockCache s)
             (cache_set (databaseCache s) k v) (commentCache s)
             (propertyCache s) (calls s)).

Definition commentCache_set (k v : JsValue) : M unit :=
  fun s =>
    (Ret tt,
     mkState (world s) (heap s) (pageCache s) (blockCache s) (databaseCache s)
             (cache_set (commentCache s) k v) (propertyCache s) (calls s)).

Definition propertyCache_set (k v : JsValue) : M unit :=
  fun s =>
    (Ret tt,
     mkState (world s) (heap s) (pageCache s) (blockCache s) (databaseCache s)
             (commentCache s) (cache_set (propertyCache s) k v) (calls s)).

(** Writing into the page object behind [ref]. *)
Definition heap_update (ref : nat) (f : JsValue -> JsValue) : M unit :=
  fun s =>
    (Ret tt,
     mkState (world s)
             (firstn ref (heap s) ++
              match skipn ref (heap s) with
              | [] => []
              | v :: rest => f v :: rest
              end)%list
             (pageCache s) (blockCache s) (databaseCache s) (commentCache s)
             (propertyCache s) (calls s)).

(** A started task, run as far as it goes; its promise is the result. *)
Definition spawn {A} (m : M A) : M (Result A) :=
  fun s => let (r, s') := m s in (Ret r, s').

(** ** Options *)

Record RecursiveExplorationOptions : Type := mkOptions {
  maxDepth : Z;
  includeDatabases : bool;
  includeComments : bool;
  includeProperties : bool;
  maxParallelRequests : Z;
  skipCache : bool;
  batchSize : Z;
  timeoutMs : Z
}.

(** ** [retrievePageBasicInfo] *)

Definition basic_title (pageData : JsValue) : JsValue :=
  js_or (opt_prop (prop pageData "properties") "title") (JObj [("text", JNull)]).

Definition retrievePageBasicInfo (pageId : JsValue)
           (options : RecursiveExplorationOptions) : M JsValue :=
  s <- get_state ;;
  if negb (skipCache options) && cache_has (pageCache s) pageId then
    let cachedData := pageCache_get s pageId in
    if nullish cachedData then throw (TypeError_read cachedData "id") else
    ret (JObj [("id", prop cachedData "id");
               ("title", basic_title cachedData);
               ("icon", prop cachedData "icon");
               ("cover", prop cachedData "cover");
               ("url", prop cachedData "url");
               ("fromCache", JBool true)])
  else
    match findOperation "API-retrieve-a-page" with
    | None =>
        ret (JObj [("id", pageId);
                   ("note", JStr "API-retrieve-a-page method not found")])
    | Some operation =>
        try_catch
          (o <- call_executeOperation operation (JObj [("page_id", pageId)]) ;;
           response <- await o ;;
           if negb (status response =? 200) then
             ret (JObj [("id", pageId);
                        ("error", JStr "Failed to retrieve page");
                        ("status", JNum (status response))])
           else
             let pageData := data response in
             _ <- pageCache_set pageId pageData ;;
             if nullish pageData then throw (TypeError_read pageData "id") else
             ret (JObj [("id", prop pageData "id");
                        ("title", basic_title pageData);
                        ("icon", prop pageData "icon");
                        ("cover", prop pageData "cover");
                        ("url", prop pageData "url");
                        ("created_time", prop pageData "created_time");
                        ("last_edited_time", prop pageData "last_edited_time")]))
          (fun error =>
             ret (JObj [("id", pageId); ("error", JStr (err_message error))]))
    end.

(** ** [retrieveDatabase] *)

Definition retrieveDatabase (databaseId : JsValue)
           (options : RecursiveExplorationOptions) : M JsValue :=
  s <- get_state ;;
  if negb (skipCache options) && cache_has (databaseCache s) databaseId then
    ret (match cache_get (databaseCache s) databaseId with
         | Some v => v
         | None => JUndef
         end)
  else
    match findOperation "API-retrieve-a-database" with
    | None =>
        ret (JObj [("id", databaseId);
                   ("note", JStr "Database details not available")])
    | Some operation =>
        try_catch
          (o <- call_executeOperation operation
                  (JObj [("database_id", databaseId)]) ;;
           response <- await o ;;
           if negb (status response =? 200) then
             ret (JObj [("id", databaseId);
                        ("error", JStr "Failed to retrieve database")])
           else
             let databaseData := data response in
             _ <- databaseCache_set databaseId databaseData ;;
             ret databaseData)
          (fun _ =>
             ret (JObj [("id", databaseId);
                        ("error", JStr "Failed to retrieve database")]))
    end.

(** ** [retrieveComments] *)

(** [commentsData.results.forEach(comment => ...)] on an array. *)
Fixpoint cache_comments (comments : list JsValue) : M unit :=
  match comments with
  | [] => ret tt
  | comment :: rest =>
      if nullish comment then throw (TypeError_read comment "id") else
      _ <- (if truthy (prop comment "id")
            then commentCache_set (prop comment "id") comment
            else ret tt) ;;
      cache_comments rest
  end.

Definition no_comments : JsValue := JObj [("results", JArr [])].

Definition retrieveComments (blockId : JsValue)
           (options : RecursiveExplorationOptions) : M JsValue :=
  match findOperation "API-retrieve-a-comment" with
  | None => ret no_comments
  | Some operation =>
      try_catch
        (o <- call_executeOperation operation (JObj [("block_id", blockId)]) ;;
         response <- await o ;;
         if negb (status response =? 200) then ret no_comments else
         let commentsData := data response in
         results <- lift (get_prop commentsData "results") ;;
         _ <- (if truthy results then
                 match results with
                 | JArr l => cache_comments l
                 | _ => throw (TypeError_not_function
                                 "commentsData.results.forEach")
                 end
               else ret tt) ;;
         ret commentsData)
        (fun _ => ret no_comments)
  end.

(** ** [enrichPageProperties] *)

Definition err_status (e : JsError) : Z :=
  match e with
  | HttpClientError _ st _ => st
  | PlainError _ _ => 0
  end.

(** [propId.includes(needle)]: strings and arrays have the method. *)
Definition propId_includes (propId : JsValue) (needle : string) : Result bool :=
  match propId with
  | JStr s => Ret (str_includes needle s)
  | JArr l => Ret (existsb (value_eqb (JStr needle)) l)
  | _ => Throw (TypeError_not_function "propId.includes")
  end.

Definition update_nth {A} (i : nat) (f : A -> A) (l : list A) : list A :=
  (firstn i l ++ match skipn i l with [] => [] | x :: r => f x :: r end)%list.

(** The [i]-th entry of [Object.entries(container)], rewritten in place. *)
Definition update_entry (i : nat) (f : JsValue -> JsValue) (container : JsValue)
  : JsValue :=
  match container with
  | JObj fs => JObj (update_nth i (fun kv => (fst kv, f (snd kv))) fs)
  | JArr l => JArr (update_nth i f l)
  | v => v
  end.

(** [enrichedProperties[propName].details = details]: the property object
    is the one inside the page object, which is what changes. *)
Definition decorate (i : nat) (details : JsValue) (page : JsValue) : JsValue :=
  match page with
  | JObj fs =>
      JObj (set_field "properties"
              (update_entry i
                 (fun propData => JObj (set_field "details" details (js_entries propData)))
                 (prop page "properties"))
              fs)
  | v => v
  end.

Definition set_details (ref i : nat) (details : JsValue) : M unit :=
  heap_update ref (decorate i details).

Definition unsupported_details : JsValue :=
  JObj [("object", JStr "property_item");
        ("type", JStr "unsupported");
        ("unsupported", JObj [("type", JStr "special_url_format")])].

Definition error_details (err : JsValue) : JsValue :=
  JObj [("object", JStr "property_item"); ("type", JStr "error"); ("error", err)].

(** The [.catch] on the property request: a rejection becomes a response. *)
Definition property_response (o : Outcome) : Outcome :=
  match o with
  | Rejected error =>
      Resolved (mkResponse (or_num (err_status error) 500)
                  (error_details (JObj [("message", JStr (err_message error))])))
  | _ => o
  end.

(** [JSON.stringify(v)] used as a string value. *)
Definition stringify_text (v : JsValue) : JsValue :=
  match JSON_stringify v with
  | Some n => JStr (JSON_text env n)
  | None => JUndef
  end.

(** The [async] task of one property. *)
Definition property_task (ref : nat) (pageId : string)
           (options : RecursiveExplorationOptions)
           (i : nat) (propName : string) (propId : JsValue) : M unit :=
  let cacheKey := JStr (pageId ++ ":" ++ js_to_string propId) in
  try_catch
    (s <- get_state ;;
     if negb (skipCache options) && cache_has (propertyCache s) cacheKey then
       set_details ref i
         (match cache_get (propertyCache s) cacheKey with
          | Some v => v
          | None => JUndef
          end)
     else
       raw <- lift (propId_includes propId "notion://") ;;
       encoded <- (if raw : bool then ret true
                   else lift (propId_includes propId "%3A%2F%2F")) ;;
       if encoded : bool then set_details ref i unsupported_details else
       match findOperation "API-retrieve-a-page-property" with
       | None => ret tt
       | Some operation =>
           o <- call_executeOperation operation
                  (JObj [("page_id", JStr pageId); ("property_id", propId)]) ;;
           response <- await (property_response o) ;;
           if status response =? 200 then
             _ <- set_details ref i (data response) ;;
             propertyCache_set cacheKey (data response)
           else
             set_details ref i
               (error_details
                  (JObj [("status", JNum (status response));
                         ("message", stringify_text (data response))]))
       end)
    (fun error =>
       set_details ref i
         (error_details (JObj [("message", JStr (err_message error))]))).

(** [for (const [propName, propData] of Object.entries(properties))]: every
    task is started; the list holds their promises. *)
Fixpoint property_tasks (ref : nat) (pageId : string)
         (options : RecursiveExplorationOptions)
         (i : nat) (entries : list (string * JsValue)) : M (list (Result unit)) :=
  match entries with
  | [] => ret []
  | (propName, propData) :: rest =>
      if nullish propData then throw (TypeError_read propData "id") else
      let propId := prop propData "id" in
      if negb (truthy propId) then property_tasks ref pageId options (S i) rest
      else
        r <- spawn (property_task ref pageId options i propName propId) ;;
        rs <- property_tasks ref pageId options (S i) rest ;;
        ret (r :: rs)
  end.

(** [ref] is the page object that [properties] was read from. *)
Definition enrichPageProperties (ref : nat) (pageId : string)
           (properties : JsValue) (options : RecursiveExplorationOptions)
  : M JsValue :=
  rs <- property_tasks ref pageId options 0 (js_entries properties) ;;
  _ <- lift (Promise_all rs) ;;
  s <- get_state ;;
  ret (JObj (js_entries (prop (heap_get s ref) "properties"))).

(** ** [retrieveBlocksRecursively] *)

Definition effectiveMaxDepth (options : RecursiveExplorationOptions) : Z :=
  or_num (maxDepth options) 5.

Definition depth_note : JsValue :=
  JObj [("note", JStr "Maximum recursion depth reached")].

(** [0 < v] *)
Definition zero_lt (v : JsValue) : bool :=
  match v with
  | JNum z => 0 <? z
  | JBool b => b
  | JUndef | JNull => false
  | _ => js_zero_lt env v
  end.

Definition list_result (r : Result (list JsValue)) : Result JsValue :=
  match r with
  | Ret l => Ret (JArr l)
  | Throw e => Throw e
  | Hang => Hang
  | Diverge => Diverge
  end.

(** What [.then(v => { enrichedBlock[okKey] = v }).catch(error => {
    enrichedBlock[errKey] = { message: String(error) } })] leaves in the
    block once the task has settled. *)
Definition attach (okKey errKey : string) (task : option (Result JsValue))
           (enrichedBlock : list (string * JsValue)) : list (string * JsValue) :=
  match task with
  | Some (Ret v) => set_field okKey v enrichedBlock
  | Some (Throw error) =>
      set_field errKey (JObj [("message", JStr (err_to_string error))]) enrichedBlock
  | _ => enrichedBlock
  end.

Definition is_pending {A} (task : option (Result A)) : bool :=
  match task with
  | Some Hang => true
  | _ => false
  end.

Definition is_diverging {A} (task : option (Result A)) : bool :=
  match task with
  | Some Diverge => true
  | _ => false
  end.

Definition is_database_block (block : JsValue) : bool :=
  value_eqb (prop block "type") (JStr "child_database")
  || value_eqb (prop block "type") (JStr "linked_database").

(** [block[block.type]?.database_id], read when [block.type] is one of the
    two database types. *)
Definition database_id_of (block : JsValue) : JsValue :=
  opt_prop (prop block (js_to_string (prop block "type"))) "database_id".

(** The [async (block) => { ... }] of one batch item; [children] is the
    recursive call for the item's own children. *)
Definition block_task (children : JsValue -> M (list JsValue))
           (options : RecursiveExplorationOptions) (currentDepth : Z)
           (block : JsValue) : M JsValue :=
  if nullish block then throw (TypeError_read block "id") else
  _ <- blockCache_set (prop block "id") block ;;
  let enrichedBlock := js_entries block in
  childTask <-
    (if truthy (prop block "has_children") then
       r <- spawn (children (prop block "id")) ;;
       ret (Some (list_result r))
     else ret None) ;;
  databaseTask <-
    (if includeDatabases options && is_database_block block then
       let databaseId := database_id_of block in
       if truthy databaseId then
         r <- spawn (retrieveDatabase databaseId options) ;; ret (Some r)
       else ret None
     else ret None) ;;
  pageTask <-
    (if value_eqb (prop block "type") (JStr "child_page")
        && (currentDepth <? effectiveMaxDepth options - 1) then
       r <- spawn (retrievePageBasicInfo (prop block "id") options) ;; ret (Some r)
     else ret None) ;;
  if is_diverging childTask || is_diverging databaseTask || is_diverging pageTask
  then diverge
  else if is_pending childTask || is_pending databaseTask || is_pending pageTask
  then hang
  else
    ret (JObj (attach "page_info" "page_info_error" pageTask
                 (attach "database" "database_error" databaseTask
                    (attach "children" "children_error" childTask
                       enrichedBlock)))).

(** [batch.map(async (block) => ...)]: every item's task is started. *)
Fixpoint spawn_all {A B} (task : A -> M B) (items : list A) : M (list (Result B)) :=
  match items with
  | [] => ret []
  | x :: items' =>
      r <- spawn (task x) ;;
      rs <- spawn_all task items' ;;
      ret (r :: rs)
  end.

(** [for (let i = 0; i < blocks.length; i += batchSize) { ... }].  With
    [batchSize >= 1] the loop ends within [blocks.length] iterations, which
    is the [loopFuel] it is started with; with a negative [batchSize] it
    never ends, and its later iterations wait for nothing. *)
Fixpoint batch_loop (task : JsValue -> M JsValue) (loopFuel : nat)
         (blocks : list JsValue) (size i : Z) (enrichedBlocks : list JsValue)
  : M (list JsValue) :=
  if i <? Z.of_nat (List.length blocks) then
    match loopFuel with
    | O => diverge
    | S loopFuel' =>
        let batch := js_slice blocks i (i + size) in
        promises <- spawn_all task batch ;;
        batchResults <- lift (Promise_all promises) ;;
        batch_loop task loopFuel' blocks size (i + size)
                   (enrichedBlocks ++ batchResults)%list
    end
  else ret enrichedBlocks.

(** The part of [retrieveBlocksRecursively] after the listing is parsed. *)
Definition process_blocks (task : JsValue -> M JsValue)
           (options : RecursiveExplorationOptions) (blocks : JsValue)
  : M (list JsValue) :=
  match blocks with
  | JArr l =>
      match l with
      | [] => ret []
      | _ => batch_loop task (List.length l) l (or_num (batchSize options) 10) 0 []
      end
  | JStr _ => throw (TypeError_not_function "batch.map")
  | JObj _ =>
      if value_eqb (prop blocks "length") (JNum 0) then ret []
      else if zero_lt (prop blocks "length")
           then throw (TypeError_not_function "blocks.slice")
           else ret []
  | _ => ret []
  end.

Definition retrieval_failed (id : JsValue) (error : JsError) : JsValue :=
  JObj [("id", id); ("error", JStr (err_message error));
        ("retrievalFailed", JBool true)].

(** [depth] is the recursion measure [maxDepth - currentDepth]; [fuel] is
    handed to every pagination merge. *)
Fixpoint retrieveBlocks (depth : nat) (fuel : nat) (blockId : JsValue)
         (options : RecursiveExplorationOptions) (currentDepth : Z)
  : M (list JsValue) :=
  if currentDepth >=? effectiveMaxDepth options then ret [depth_note] else
  match depth with
  | O => hang
  | S depth' =>
      try_catch
        (match findOperation "API-get-block-children" with
         | None => throw (new_Error "API-get-block-children method not found.")
         | Some operation =>
             blocksResponse <-
               handleBlockChildrenParallel fuel operation
                 (JObj [("block_id", blockId); ("page_size", JNum 100)]) ;;
             blocksData <- lift (JSON_parse (text blocksResponse)) ;;
             results <- lift (get_prop blocksData "results") ;;
             let blocks := js_or results (JArr []) in
             process_blocks
               (block_task
                  (fun id => retrieveBlocks depth' fuel id options (currentDepth + 1))
                  options currentDepth)
               options blocks
         end)
        (fun error => ret [retrieval_failed blockId error])
  end.

Definition retrieveBlocksRecursively (fuel : nat) (blockId : JsValue)
           (options : RecursiveExplorationOptions) (currentDepth : Z)
  : M (list JsValue) :=
  retrieveBlocks (Z.to_nat (effectiveMaxDepth options - currentDepth)) fuel
                 blockId options currentDepth.

(** ** [retrievePageRecursively] *)

Definition timeout_error (options : RecursiveExplorationOptions) : JsError :=
  new_Error ("Operation timed out after " ++ dec (timeoutMs options) ++ "ms").

(** [await Promise.race([m, timeoutPromise])]: when [m] is not settled in
    time the timer rejects. *)
Definition race_timeout {A} (options : RecursiveExplorationOptions) (m : M A)
  : M A :=
  fun s =>
    match m s with
    | (Hang, s') => (Throw (timeout_error options), s')
    | r => r
    end.

Definition depth_stub (pageId : string) : JsValue :=
  JObj [("id", JStr pageId); ("note", JStr "Maximum recursion depth reached")].

Definition timeout_node (pageId : string) (options : RecursiveExplorationOptions)
  : JsValue :=
  JObj [("id", JStr pageId);
        ("error", JStr "Operation timed out");
        ("partial_results", JBool true);
        ("note", JStr ("Processing exceeded timeout limit ("
                         ++ dec (timeoutMs options) ++ "ms)"))].

Definition page_failed (pageId : string) (response : Response) : JsValue :=
  JObj [("id", JStr pageId);
        ("error", JStr "Failed to retrieve page");
        ("status", JNum (status response));
        ("details", data response)].

(** The [catch] block of [retrievePageRecursively]. *)
Definition page_catch (pageId : string) (options : RecursiveExplorationOptions)
           (error : JsError) : JsValue :=
  if str_includes "timed out" (err_message error)
  then timeout_node pageId options
  else retrieval_failed (JStr pageId) error.

(** Step 1: the page object, from the cache or fetched and cached; or the
    node returned at once when the fetch answers with another status. *)
Definition resolve_page (pageId : string) (options : RecursiveExplorationOptions)
  : M (nat + JsValue) :=
  s <- get_state ;;
  match (if skipCache options then None
         else cache_get (pageCache s) (JStr pageId)) with
  | Some ref => ret (inl ref)
  | None =>
      match findOperation "API-retrieve-a-page" with
      | None => throw (new_Error "API-retrieve-a-page method not found.")
      | Some operation =>
          o <- call_executeOperation operation (JObj [("page_id", JStr pageId)]) ;;
          response <- race_timeout options (await o) ;;
          if negb (status response =? 200) then
            ret (inr (page_failed pageId response))
          else
            ref <- pageCache_set (JStr pageId) (data response) ;;
            ret (inl ref)
      end
  end.

(** Steps 2 to 4: the three tasks are started; the triple holds their
    promises and whether the page has properties to enrich. *)
Definition page_tasks (fuel : nat) (ref : nat) (pageId : string)
           (options : RecursiveExplorationOptions) (currentDepth : Z)
  : M (Result (list JsValue) * (bool * Result JsValue) * Result JsValue) :=
  blocksPromise <-
    spawn (retrieveBlocksRecursively fuel (JStr pageId) options (currentDepth + 1)) ;;
  s1 <- get_state ;;
  let pageData := heap_get s1 ref in
  hasProperties <-
    (if includeProperties options then
       properties <- lift (get_prop pageData "properties") ;;
       ret (truthy properties)
     else ret false) ;;
  propertiesPromise <-
    (if hasProperties : bool then
       spawn (enrichPageProperties ref pageId (prop pageData "properties") options)
     else ret (Ret JNull)) ;;
  commentsPromise <-
    (if includeComments options then
       spawn (retrieveComments (JStr pageId) options)
     else ret (Ret JNull)) ;;
  ret (blocksPromise, (hasProperties, propertiesPromise), commentsPromise).

(** "Integrate results into the main page data". *)
Definition integrate (ref : nat) (options : RecursiveExplorationOptions)
           (blocksPromise : Result (list JsValue)) (hasProperties : bool)
           (propertiesPromise commentsPromise : Result JsValue) : M JsValue :=
  s2 <- get_state ;;
  let enrichedPageData := js_entries (heap_get s2 ref) in
  blocksData <- lift blocksPromise ;;
  let enrichedPageData := set_field "content" (JArr blocksData) enrichedPageData in
  enrichedPageData <-
    (if hasProperties then
       enrichedProperties <- lift propertiesPromise ;;
       ret (if truthy enrichedProperties
            then set_field "detailed_properties" enrichedProperties enrichedPageData
            else enrichedPageData)
     else ret enrichedPageData) ;;
  enrichedPageData <-
    (if includeComments options then
       comments <- lift commentsPromise ;;
       ret (if truthy comments
               && truthy (prop comments "results")
               && zero_lt (prop (prop comments "results") "length")
            then set_field "comments" comments enrichedPageData
            else enrichedPageData)
     else ret enrichedPageData) ;;
  ret (JObj enrichedPageData).

Definition expand_page (fuel : nat) (ref : nat) (pageId : string)
           (options : RecursiveExplorationOptions) (currentDepth : Z)
  : M JsValue :=
  tasks <- page_tasks fuel ref pageId options currentDepth ;;
  let '(blocksPromise, (hasProperties, propertiesPromise), commentsPromise) :=
    tasks in
  _ <- race_timeout options
         (lift (Promise_all
                  [list_result blocksPromise; propertiesPromise; commentsPromise])) ;;
  integrate ref options blocksPromise hasProperties propertiesPromise commentsPromise.

Definition retrievePageRecursively (fuel : nat) (pageId : string)
           (options : RecursiveExplorationOptions) (currentDepth : Z)
  : M JsValue :=
  try_catch
    (if currentDepth >=? effectiveMaxDepth options then ret (depth_stub pageId) else
     page <- resolve_page pageId options ;;
     match page with
     | inl ref => expand_page fuel ref pageId options currentDepth
     | inr node => ret node
     end)
    (fun error => ret (page_catch pageId options error)).

(** ** [handleOnePagerRequest] *)

Record OnePagerParams : Type := mkParams {
  page_id : string;
  p_maxDepth : option Z;
  p_includeDatabases : option bool;
  p_includeComments : option bool;
  p_includeProperties : option bool;
  p_maxParallelRequests : option Z;
  p_skipCache : option bool;
  p_batchSize : option Z;
  p_timeoutMs : option Z
}.

(** [params.n || d] *)
Definition num_or (n : option Z) (d : Z) : Z :=
  match n with
  | Some z => or_num z d
  | None => d
  end.

(** [params.b !== false] *)
Definition not_false (b : option bool) : bool :=
  match b with
  | Some false => false
  | _ => true
  end.

(** [params.b || false] *)
Definition or_false (b : option bool) : bool :=
  match b with
  | Some true => true
  | _ => false
  end.

Definition options_of (params : OnePagerParams) : RecursiveExplorationOptions :=
  mkOptions (num_or (p_maxDepth params) 5)
            (not_false (p_includeDatabases params))
            (not_false (p_includeComments params))
            (not_false (p_includeProperties params))
            (num_or (p_maxParallelRequests params) 15)
            (or_false (p_skipCache params))
            (num_or (p_batchSize params) 10)
            (num_or (p_timeoutMs params) 60000).

Definition meta (options : RecursiveExplorationOptions) (duration now : Z)
  : JsValue :=
  JObj [("processingTimeMs", JNum duration);
        ("retrievedAt", JStr (isoString env now));
        ("options",
         JObj [("maxDepth", JNum (maxDepth options));
               ("includeDatabases", JBool (includeDatabases options));
               ("includeComments", JBool (includeComments options));
               ("includeProperties", JBool (includeProperties options))])].

Definition errorResponse (error : JsError) (now : Z) : JsValue :=
  JObj [("status", JStr "error");
        ("message", JStr (err_message error));
        ("code", JNum (match error with
                       | HttpClientError _ st _ => st
                       | PlainError _ _ => 500
                       end));
        ("details", match error with
                    | HttpClientError _ _ d => d
                    | PlainError _ _ => JUndef
                    end);
        ("timestamp", JStr (isoString env now))].

Definition handleOnePagerRequest (fuel : nat) (params : OnePagerParams)
  : M ToolResult :=
  let options := options_of params in
  try_catch
    (s0 <- get_state ;;
     let startTime := clock env (world s0) in
     pageData <- retrievePageRecursively fuel (page_id params) options 0 ;;
     s1 <- get_state ;;
     let duration := clock env (world s1) - startTime in
     ret (mkToolResult
            (JSON_stringify
               (spread_set pageData "_meta"
                  (meta options duration (clock env (world s1)))))))
    (fun error =>
       s <- get_state ;;
       ret (mkToolResult
              (JSON_stringify (errorResponse error (clock env (world s)))))).

(** ** The request handlers of [setupHandlers] *)

(** [truncateToolName].  Tool names are ASCII, so that a character of the
    string is one code unit of the source's string. *)
Definition truncateToolName (name : string) : string :=
  if (String.length name <=? 64)%nat then name else String.substring 0 64 name.

(** One entry of [def.methods], and one entry of the listing. *)
Record ToolMethod : Type := mkToolMethod {
  m_name : string;
  m_description : string;
  m_inputSchema : JsValue
}.

Record Tool : Type := mkTool {
  t_name : string;
  t_description : string;
  t_inputSchema : JsValue
}.

Definition schema_property (type description : string) : JsValue :=
  JObj [("type", JStr type); ("description", JStr description)].

Definition onePagerTool : Tool :=
  mkTool "API-get-one-pager"
    "Recursively retrieve a full Notion page with all its blocks, databases, and related content"
    (JObj
       [("type", JStr "object");
        ("properties",
         JObj
           [("page_id", schema_property "string" "Identifier for a Notion page");
            ("maxDepth",
             schema_property "integer" "Maximum recursion depth (default: 5)");
            ("includeDatabases",
             schema_property "boolean"
               "Whether to include linked databases (default: true)");
            ("includeComments",
             schema_property "boolean" "Whether to include comments (default: true)");
            ("includeProperties",
             schema_property "boolean"
               "Whether to include detailed page properties (default: true)");
            ("maxParallelRequests",
             schema_property "integer"
               "Maximum number of parallel requests (default: 15)");
            ("batchSize",
             schema_property "integer"
               "Batch size for parallel processing (default: 10)");
            ("timeoutMs",
             schema_property "integer" "Timeout in milliseconds (default: 60000)")]);
        ("required", JArr [JStr "page_id"])]).

(** The tools of one entry of [Object.entries(this.tools)]. *)
Definition method_tools (toolName : string) (methods : list ToolMethod) : list Tool :=
  map (fun method =>
         mkTool (truncateToolName (toolName ++ "-" ++ m_name method))
                (m_description method) (m_inputSchema method))
      methods.

(** The handler of [ListToolsRequestSchema]; [tools] is
    [Object.entries(this.tools)]. *)
Definition listTools (tools : list (string * list ToolMethod)) : list Tool :=
  (flat_map (fun entry => method_tools (fst entry) (snd entry)) tools
     ++ [onePagerTool])%list.

(** [typeof v === 'object'] *)
Definition typeof_object (v : JsValue) : bool :=
  match v with
  | JNull | JArr _ | JObj _ => true
  | _ => false
  end.

(** [data.results.forEach(comment => ...)] of [updateCacheFromResponse],
    on an array. *)
Fixpoint cache_listed_comments (comments : list JsValue) : M unit :=
  match comments with
  | [] => ret tt
  | comment :: rest =>
      if nullish comment then throw (TypeError_read comment "object") else
      _ <- (if value_eqb (prop comment "object") (JStr "comment")
               && truthy (prop comment "id")
            then commentCache_set (prop comment "id") comment
            else ret tt) ;;
      cache_listed_comments rest
  end.

Definition updateCacheFromResponse (apiName : string) (data : JsValue) : M unit :=
  if negb (truthy data) || negb (typeof_object data) then ret tt else
  try_catch
    (if String.eqb apiName "API-retrieve-a-page"
        && value_eqb (prop data "object") (JStr "page")
        && truthy (prop data "id")
     then _ <- pageCache_set (prop data "id") data ;; ret tt
     else if String.eqb apiName "API-retrieve-a-block"
             && value_eqb (prop data "object") (JStr "block")
             && truthy (prop data "id")
     then blockCache_set (prop data "id") data
     else if String.eqb apiName "API-retrieve-a-database"
             && value_eqb (prop data "object") (JStr "database")
             && truthy (prop data "id")
     then databaseCache_set (prop data "id") data
     else if String.eqb apiName "API-retrieve-a-comment"
             && truthy (prop data "results")
     then match prop data "results" with
          | JArr l => cache_listed_comments l
          | _ => throw (TypeError_not_function "data.results.forEach")
          end
     else ret tt)
    (fun _ => ret tt).

(** [error.data?.response?.data ?? error.data ?? {}] *)
Definition http_error_data (errorData : JsValue) : JsValue :=
  let inner := opt_prop (opt_prop errorData "response") "data" in
  if negb (nullish inner) then inner
  else if negb (nullish errorData) then errorData
  else JObj [].

Definition method_not_found (name : string) : JsValue :=
  JObj [("status", JStr "error");
        ("message", JStr ("Method " ++ name ++ " not found."));
        ("code", JNum 404)].

(** The body the [catch] of the tool-call handler answers with. *)
Definition tool_error (error : JsError) : JsValue :=
  match error with
  | HttpClientError message st d =>
      let data := http_error_data d in
      JObj [("status", JStr "error");
            ("code", JNum st);
            ("message", JStr message);
            ("details", if typeof_object data then data
                        else JObj [("data", data)])]
  | PlainError _ message =>
      JObj [("status", JStr "error");
            ("message", JStr message);
            ("code", JNum 500)]
  end.

(** The handler of [CallToolRequestSchema].  [onePager] is the call
    [this.handleOnePagerRequest(params)]. *)
Definition callToolHandler (fuel : nat) (onePager : M ToolResult)
           (name : string) (params : JsValue) : M ToolResult :=
  try_catch
    (if String.eqb name "API-get-one-pager" then onePager else
     match findOperation name with
     | None => ret (mkToolResult (JSON_stringify (method_not_found name)))
     | Some operation =>
         if String.eqb name "API-get-block-children"
         then handleBlockChildrenParallel fuel operation params
         else
           o <- call_executeOperation operation params ;;
           response <- await o ;;
           _ <- updateCacheFromResponse name (data response) ;;
           ret (mkToolResult (JSON_stringify (data response)))
     end)
    (fun error => ret (mkToolResult (JSON_stringify (tool_error error)))).

(** ** The head of the constructor *)

(** [openApiSpec.servers?.[0].url], and the check that follows it. *)
Definition constructor_baseUrl (openApiSpec : JsValue) : Result JsValue :=
  match get_prop openApiSpec "servers" with
  | Ret servers =>
      match (if nullish servers then Ret JUndef
             else get_prop (prop servers "0") "url") with
      | Ret baseUrl =>
          if negb (truthy baseUrl)
          then Throw (new_Error "No base URL found in OpenAPI spec")
          else Ret baseUrl
      | r => r
      end
  | r => r
  end.

End Proxy.

Notation "x <- m ;; k" := (bind m (fun x => k))
  (at level 61, m at next level, right associativity).



(** ** The tool-call handler of the earlier revision ([unnamed/part_000]) *)

Module Part000.
Section Handlers.

Context {W : Type}.
Variable env : Collaborators W.

(** [{status: 'error', ...v}]: a field [status] of [v] replaces the first
    one.  (Fields are kept in the order of insertion.) *)
Definition error_with (v : JsValue) : JsValue :=
  JObj (fold_left (fun acc kv => set_field (fst kv) (snd kv) acc)
                  (js_entries v) [("status", JStr "error")]).

Definition not_found_message (name : string) : string :=
  "메서드 " ++ name ++ "를 찾을 수 없습니다.".

Definition callToolHandler (fuel : nat) (name : string) (params : JsValue)
  : M ToolResult :=
  match findOperation env name with
  | None => throw (new_Error (not_found_message name))
  | Some operation =>
      try_catch
        (if String.eqb name "API-get-block-children"
         then handleBlockChildrenParallel env fuel operation params
         else
           o <- call_executeOperation env operation params ;;
           response <- await o ;;
           _ <- (if String.eqb name "API-retrieve-a-page"
                    && truthy (data response)
                    && truthy (prop (data response) "id")
                 then _ <- pageCache_set (prop (data response) "id")
                             (data response) ;;
                      ret tt
                 else ret tt) ;;
           ret (mkToolResult (JSON_stringify (data response))))
        (fun error =>
           match error with
           | HttpClientError _ _ d =>
               let data := http_error_data d in
               ret (mkToolResult
                      (JSON_stringify
                         (error_with (if typeof_object data then data
                                      else JObj [("data", data)]))))
           | PlainError _ _ => throw error
           end)
  end.

End Handlers.
End Part000.

(** ** Concrete settings *)

Module Scenario.

Definition op_page : Operation :=
  mkOperation "retrieve-a-page" "get" "/v1/pages/{page_id}".
Definition op_children : Operation :=
  mkOperation "get-block-children" "get" "/v1/blocks/{block_id}/children".
Definition op_database : Operation :=
  mkOperation "retrieve-a-database" "get" "/v1/databases/{database_id}".
Definition op_comment : Operation :=
  mkOperation "retrieve-a-comment" "get" "/v1/comments".
Definition op_property : Operation :=
  mkOperation "retrieve-a-page-property" "get"
              "/v1/pages/{page_id}/properties/{property_id}".

(** The operation table of the server as shipped. *)
Definition lookup (name : string) : option Operation :=
  if String.eqb name "API-retrieve-a-page" then Some op_page
  else if String.eqb name "API-get-block-children" then Some op_children
  else if String.eqb name "API-retrieve-a-database" then Some op_database
  else if String.eqb name "API-retrieve-a-comment" then Some op_comment
  else if String.eqb name "API-retrieve-a-page-property" then Some op_property
  else None.

(** A table in which nothing is found. *)
Definition lookup_nothing (name : string) : option Operation := None.

(** A remote side whose answer depends on the request alone; the world is
    a clock that ticks once per request. *)
Definition mk_env (lookup : string -> option Operation)
           (answer : Operation -> JsValue -> Outcome) : Collaborators Z :=
  mkCollaborators Z
    (fun op params w => (answer op params, w + 1))
    lookup
    (fun w => w)
    (fun now => "T" ++ dec now)
    (fun _ => "<json>")
    (fun _ => false).

Definition proxy0 : State (W := Z) := mkState 0 [] [] [] [] [] [] [].

Definition list_page (items : list JsValue) (next : JsValue) : Outcome :=
  Resolved (mkResponse 200
              (JObj [("object", JStr "list");
                     ("results", JArr items);
                     ("next_cursor", next);
                     ("has_more", JBool (truthy next));
                     ("type", JStr "block")])).

Definition blk (id : string) : JsValue :=
  JObj [("object", JStr "block"); ("id", JStr id); ("type", JStr "paragraph");
        ("has_children", JBool false)].

(** A listing of three pages of sizes 2, 2 and 1. *)
Definition three_pages (op : Operation) (params : JsValue) : Outcome :=
  match prop params "start_cursor" with
  | JUndef => list_page [blk "a1"; blk "a2"] (JStr "cursor-2")
  | JStr "cursor-2" => list_page [blk "b1"; blk "b2"] (JStr "cursor-3")
  | JStr "cursor-3" => list_page [blk "c1"] JNull
  | _ => Rejected (HttpClientError "Bad cursor" 400 JNull)
  end.

(** A listing of two pages whose second page cannot be fetched. *)
Definition second_page_fails (op : Operation) (params : JsValue) : Outcome :=
  match prop params "start_cursor" with
  | JUndef => list_page [blk "a1"; blk "a2"] (JStr "cursor-2")
  | _ => Rejected (HttpClientError "Service unavailable" 503 JNull)
  end.

(** No page can be fetched at all. *)
Definition always_fails (op : Operation) (params : JsValue) : Outcome :=
  Rejected (HttpClientError "Service unavailable" 503 JNull).

Definition children_params : JsValue :=
  JObj [("block_id", JStr "root"); ("page_size", JNum 100)].

(** A small workspace: a page with two properties, one of them with an
    internal-link identifier, two blocks, a database and a comment. *)
Definition the_page : JsValue :=
  JObj [("object", JStr "page");
        ("id", JStr "test-page-id");
        ("properties",
         JObj [("title", JObj [("id", JStr "title"); ("type", JStr "title")]);
               ("Link", JObj [("id", JStr "notion://link"); ("type", JStr "url")])]);
        ("url", JStr "https://www.notion.so/test-page-id")].

Definition the_blocks : list JsValue :=
  [JObj [("object", JStr "block"); ("id", JStr "block-1");
         ("type", JStr "paragraph"); ("has_children", JBool false)];
   JObj [("object", JStr "block"); ("id", JStr "block-2");
         ("type", JStr "child_database"); ("has_children", JBool false);
         ("child_database", JObj [("database_id", JStr "db-1")])];
   JObj [("object", JStr "block"); ("id", JStr "block-3");
         ("type", JStr "paragraph"); ("has_children", JBool false)]].

Definition the_database : JsValue :=
  JObj [("object", JStr "database"); ("id", JStr "db-1")].

Definition the_comments : JsValue :=
  JObj [("object", JStr "list");
        ("results", JArr [JObj [("object", JStr "comment"); ("id", JStr "comment-1")]]);
        ("has_more", JBool false)].

Definition the_title_item : JsValue :=
  JObj [("object", JStr "property_item"); ("type", JStr "title")].

Definition workspace (page comments : Outcome) (op : Operation) (params : JsValue)
  : Outcome :=
  if String.eqb (operationId op) "retrieve-a-page" then page
  else if String.eqb (operationId op) "get-block-children"
       then list_page the_blocks JNull
  else if String.eqb (operationId op) "retrieve-a-database"
       then Resolved (mkResponse 200 the_database)
  else if String.eqb (operationId op) "retrieve-a-comment" then comments
  else if String.eqb (operationId op) "retrieve-a-page-property"
       then Resolved (mkResponse 200 the_title_item)
  else Rejected (HttpClientError "Not found" 404 JNull).

(** Everything answers. *)
Definition healthy : Operation -> JsValue -> Outcome :=
  workspace (Resolved (mkResponse 200 the_page))
            (Resolved (mkResponse 200 the_comments)).

(** The comment listing does not answer in time. *)
Definition comments_pending : Operation -> JsValue -> Outcome :=
  workspace (Resolved (mkResponse 200 the_page)) Pending.

(** The page itself cannot be retrieved. *)
Definition page_unavailable : Operation -> JsValue -> Outcome :=
  workspace (Rejected (HttpClientError "Service unavailable" 503 JNull))
            (Resolved (mkResponse 200 the_comments)).

Definition request (depth : option Z) (skip : option bool) : OnePagerParams :=
  mkParams "test-page-id" depth None None None None skip None None.

(** The body of a tool result; [undefined] when there is none. *)
Definition body_of (r : Result ToolResult) : JsValue :=
  match r with
  | Ret tr =>
      match text tr with
      | Some body => body
      | None => JUndef
      end
  | _ => JUndef
  end.

(** The proxy once [the_page] has been fetched and cached. *)
Definition page_cached : State (W := Z) :=
  mkState 1 [the_page] [(JStr "test-page-id", 0%nat)] [] [] [] []
          [mkCall op_page (JObj [("page_id", JStr "test-page-id")])].

(** A listing that never ends: every page has one block and a next
    cursor. *)
Definition never_ends (op : Operation) (params : JsValue) : Outcome :=
  list_page [blk "x"] (JStr "more").

(** An error body of the remote side. *)
Definition refused_body : JsValue :=
  JObj [("object", JStr "error"); ("status", JNum 400);
        ("code", JStr "validation_error"); ("message", JStr "Bad request")].

(** Every request is rejected with that body. *)
Definition always_refused (op : Operation) (params : JsValue) : Outcome :=
  Rejected (HttpClientError "Bad request" 400 refused_body).

(** Every request is answered with status 404 and an error body. *)
Definition not_found_body : JsValue :=
  JObj [("object", JStr "error"); ("status", JNum 404)].

Definition answers_404 (op : Operation) (params : JsValue) : Outcome :=
  Resolved (mkResponse 404 not_found_body).

(** A name of 64 characters. *)
Definition name_of_64 : string :=
  "API-retrieve-a-page-property-item-for-a-page-of-a-team-workspace".

(** A tool table with one entry of two methods. *)
Definition tool_table : list (string * list ToolMethod) :=
  [("API",
    [mkToolMethod "retrieve-a-page" "Retrieve a page"
                  (JObj [("type", JStr "object")]);
     mkToolMethod "get-block-children" "Retrieve block children"
                  (JObj [("type", JStr "object")])])].

(** An OpenAPI document with one server, and one with none. *)
Definition spec_with_server : JsValue :=
  JObj [("openapi", JStr "3.0.0");
        ("servers", JArr [JObj [("url", JStr "https://api.notion.com")]])].

Definition spec_with_no_server : JsValue :=
  JObj [("openapi", JStr "3.0.0"); ("servers", JArr [])].

End Scenario.

Import Scenario.


(** ** Vocabulary of the statements *)

(** A fetch that did not bring a page: the request was rejected or
    answered with a status other than 200. *)
Definition fetch_failed (o : Outcome) : Prop :=
  match o with
  | Rejected _ => True
  | Resolved r => status r <> 200
  | Pending => False
  end.

(** No [undefined] anywhere: the values JSON texts denote. *)
Fixpoint is_json (v : JsValue) : bool :=
  match v with
  | JUndef => false
  | JArr l => forallb is_json l
  | JObj fs =>
      (fix go (fs : list (string * JsValue)) : bool :=
         match fs with
         | [] => true
         | (_, x) :: fs' => is_json x && go fs'
         end) fs
  | _ => true
  end.

(** The [results] array in the body of a tool result. *)
Definition results_of (r : Result ToolResult) : JsValue :=
  match r with
  | Ret tr =>
      match text tr with
      | Some body => prop body "results"
      | None => JUndef
      end
  | _ => JUndef
  end.

(** The calls of a log that asked for the page after [cursor]. *)
Definition calls_with_cursor (cursor : string) (log : list Call) : list Call :=
  filter (fun c => value_eqb (prop (call_params c) "start_cursor") (JStr cursor)) log.




(** The document-retrieval calls for [pageId] in a log: the calls whose
    parameters are [{page_id: pageId}].  (The crawler sends this parameter
    object with the operation found under [API-retrieve-a-page] only, see
    [guarded] below.) *)
Definition is_page_call (pageId : string) (c : Call) : bool :=
  value_eqb (call_params c) (JObj [("page_id", JStr pageId)]).

Definition page_calls (pageId : string) (log : list Call) : nat :=
  List.length (filter (is_page_call pageId) log).

(** What every remote call of a crawl obeys when the crawl starts in [s]:
    a call with parameters [{page_id: id}] is a document retrieval, and it
    is made only if the cache is skipped or did not hold [id]. *)
Definition guarded {W} (env : Collaborators W) (skip : bool)
           (s : State (W := W)) (c : Call) : Prop :=
  forall id,
    call_params c = JObj [("page_id", id)] ->
    findOperation env "API-retrieve-a-page" = Some (call_op c)
    /\ (skip = true \/ cache_has (pageCache s) id = false).

(** How a crawl moves the proxy from [s] to [s']: the log grows by guarded
    calls and the page cache keeps its keys. *)
Definition crawl_step {W} (env : Collaborators W) (skip : bool)
           (s s' : State (W := W)) : Prop :=
  (exists l, calls s' = (calls s ++ l)%list /\ Forall (guarded env skip s) l)
  /\ (forall k, cache_has (pageCache s) k = true ->
                cache_has (pageCache s') k = true).

Definition crawls {W A} (env : Collaborators W) (skip : bool)
           (m : M (W := W) A) : Prop :=
  forall s, crawl_step env skip s (snd (m s)).

(** A remote side whose answers of status 200 carry a [results] that is an
    array when it is there at all. *)
Definition lists_arrays {W} (env : Collaborators W) : Prop :=
  forall op params w r,
    fst (executeOperation env op params w) = Resolved r ->
    status r = 200 ->
    nullish (data r) = false ->
    exists l, js_or (prop (data r) "results") (JArr []) = JArr l.

(** A later-page request that is pending or has settled to an array. *)
Definition array_page (p : option (JsValue * JsValue)) : Prop :=
  match p with
  | Some (JArr _, _) => True
  | Some _ => False
  | None => True
  end.

(** Top-level fields of a value, as the list of its entries. *)
Definition own_field (v : JsValue) (k : string) : option JsValue :=
  lookup_field k (js_entries v).


(** The state once [operation] has been called with [params]. *)
Definition called {W} (s : State (W := W)) (operation : Operation)
           (params : JsValue) (w' : W) : State :=
  mkState w' (heap s) (pageCache s) (blockCache s) (databaseCache s)
          (commentCache s) (propertyCache s)
          (calls s ++ [mkCall operation params])%list.

(** A request for a later page of the listing that [params] asks for. *)
Definition later_page_call (op : Operation) (params : JsValue) (c : Call) : Prop :=
  call_op c = op
  /\ exists cursor,
       truthy cursor = true
       /\ call_params c = spread_set params "start_cursor" cursor.

(** A listing that never ends: every page comes with a next cursor. *)
Definition endless {W} (env : Collaborators W) (op : Operation) : Prop :=
  forall params w,
    exists r items,
      fst (executeOperation env op params w) = Resolved r
      /\ status r = 200
      /\ prop (data r) "results" = JArr items
      /\ truthy (prop (data r) "next_cursor") = true.

(** A later-page request that has settled to an array and a cursor to go
    on from. *)
Definition goes_on (q : option (JsValue * JsValue)) : Prop :=
  exists items cursor, q = Some (JArr items, cursor) /\ truthy cursor = true.

(** The node [retrieveDatabase] answers with when the retrieval failed. *)
Definition database_failed (databaseId : JsValue) : JsValue :=
  JObj [("id", databaseId); ("error", JStr "Failed to retrieve database")].

(** The key of a property in the property cache. *)
Definition property_key (pageId id : string) : JsValue :=
  JStr (pageId ++ ":" ++ id).

(** The parameters of the request for a property. *)
Definition property_params (pageId : string) (propId : JsValue) : JsValue :=
  JObj [("page_id", JStr pageId); ("property_id", propId)].

(** The stub written for a property whose request was answered with
    [response], of a status other than 200. *)
Definition status_stub {W} (env : Collaborators W) (response : Response) : JsValue :=
  error_details
    (JObj [("status", JNum (status response));
           ("message", stringify_text env (data response))]).

(** A request for a property of the page [pageId]. *)
Definition is_property_call {W} (env : Collaborators W) (pageId : string)
           (c : Call) : Prop :=
  findOperation env "API-retrieve-a-page-property" = Some (call_op c)
  /\ exists propId, call_params c = property_params pageId propId.

(** What property enrichment of the page object [ref] may do to the proxy:
    at most [n] requests for properties of the page, writes into the page
    object and into the property cache, and nothing else. *)
Definition enriches {W} (env : Collaborators W) (ref : nat) (pageId : string)
           (n : nat) (s s' : State (W := W)) : Prop :=
  pageCache s' = pageCache s
  /\ blockCache s' = blockCache s
  /\ databaseCache s' = databaseCache s
  /\ commentCache s' = commentCache s
  /\ List.length (heap s') = List.length (heap s)
  /\ (forall r, r <> ref -> heap_get s' r = heap_get s r)
  /\ exists l,
       calls s' = (calls s ++ l)%list
       /\ (List.length l <= n)%nat
       /\ Forall (is_property_call env pageId) l.

(** A computation whose remote calls all satisfy [P]. *)
Definition logs {W A} (P : Call -> Prop) (m : M (W := W) A) : Prop :=
  forall s, exists l, calls (snd (m s)) = (calls s ++ l)%list /\ Forall P l.

(** The parameters of a request for the children of [id]. *)
Definition listing_params (id : JsValue) : JsValue :=
  JObj [("block_id", id); ("page_size", JNum 100)].

(** The calls a crawl of the page [root] with [options] may make: the
    retrieval of a page and the listing of the children of a block, which
    it cannot do without, and the three that its options turn on: the
    retrieval of a database, and the comments and the properties of the
    page [root]. *)
Definition reads {W} (env : Collaborators W)
           (options : RecursiveExplorationOptions) (root : string) (c : Call)
  : Prop :=
  (findOperation env "API-retrieve-a-page" = Some (call_op c)
   /\ exists id, call_params c = JObj [("page_id", id)])
  \/ (findOperation env "API-get-block-children" = Some (call_op c)
      /\ exists id,
           call_params c = listing_params id
           \/ exists cursor,
                call_params c
                = spread_set (listing_params id) "start_cursor" cursor)
  \/ (includeDatabases options = true
      /\ findOperation env "API-retrieve-a-database" = Some (call_op c)
      /\ exists id, call_params c = JObj [("database_id", id)])
  \/ (includeComments options = true
      /\ findOperation env "API-retrieve-a-comment" = Some (call_op c)
      /\ call_params c = JObj [("block_id", JStr root)])
  \/ (includeProperties options = true
      /\ findOperation env "API-retrieve-a-page-property" = Some (call_op c)
      /\ exists propId, call_params c = property_params root propId).

(** States that agree on everything but the block cache and the comment
    cache. *)
Definition alike {W} (s1 s2 : State (W := W)) : Prop :=
  world s1 = world s2 /\ heap s1 = heap s2 /\ pageCache s1 = pageCache s2
  /\ databaseCache s1 = databaseCache s2
  /\ propertyCache s1 = propertyCache s2 /\ calls s1 = calls s2.

(** A computation that does not look at the block cache or the comment
    cache. *)
Definition blind {W A} (m : M (W := W) A) : Prop :=
  forall s1 s2,
    alike s1 s2 ->
    fst (m s1) = fst (m s2) /\ alike (snd (m s1)) (snd (m s2)).

(** States that differ in nothing but the comment cache. *)
Definition same_but_comments {W} (s s' : State (W := W)) : Prop :=
  world s' = world s /\ heap s' = heap s /\ pageCache s' = pageCache s
  /\ blockCache s' = blockCache s /\ databaseCache s' = databaseCache s
  /\ propertyCache s' = propertyCache s /\ calls s' = calls s.


(** Computations that do the same in every state. *)
Definition same {W A} (m1 m2 : M (W := W) A) : Prop := forall s, m1 s = m2 s.


(** * Properties *)

(** ** Values, fields and caches *)

Section JsValue_induction.

Variable P : JsValue -> Prop.
Hypothesis HUndef : P JUndef.
Hypothesis HNull : P JNull.
Hypothesis HBool : forall b, P (JBool b).
Hypothesis HNum : forall z, P (JNum z).
Hypothesis HStr : forall s, P (JStr s).
Hypothesis HArr : forall l, Forall P l -> P (JArr l).
Hypothesis HObj : forall fs, Forall (fun kv => P (snd kv)) fs -> P (JObj fs).

Fixpoint JsValue_ind (v : JsValue) : P v :=
  match v with
  | JUndef => HUndef
  | JNull => HNull
  | JBool b => HBool b
  | JNum z => HNum z
  | JStr s => HStr s
  | JArr l =>
      HArr l ((fix go (l : list JsValue) : Forall P l :=
                 match l with
                 | [] => Forall_nil P
                 | x :: l' => Forall_cons x (JsValue_ind x) (go l')
                 end) l)
  | JObj fs =>
      HObj fs ((fix go (fs : list (string * JsValue))
                  : Forall (fun kv => P (snd kv)) fs :=
                  match fs with
                  | [] => Forall_nil _
                  | kv :: fs' => Forall_cons kv (JsValue_ind (snd kv)) (go fs')
                  end) fs)
  end.

End JsValue_induction.

Lemma value_eqb_eq : forall a b, value_eqb a b = true <-> a = b.
Proof.
  intros a.
  induction a as [| |x|x|x|l IHl|fs IHfs] using JsValue_ind; intros c;
    destruct c; simpl;
    try (split; [discriminate | intros E; inversion E]);
    try (split; reflexivity).
  - rewrite Bool.eqb_true_iff. split; congruence.
  - rewrite Z.eqb_eq. split; congruence.
  - rewrite String.eqb_eq. split; congruence.
  - revert items. induction IHl as [|x l Hx Hl IH]; intros [|y r]; simpl;
      try (split; [discriminate | intros E; inversion E]);
      try (split; reflexivity).
    rewrite andb_true_iff, Hx, IH. split.
    + intros [-> E]. inversion E. reflexivity.
    + intros E. inversion E. split; reflexivity.
  - revert fields. induction IHfs as [|[k x] l Hx Hl IH]; intros [|[k' y] r]; simpl;
      try (split; [discriminate | intros E; inversion E]);
      try (split; reflexivity).
    simpl in Hx.
    rewrite !andb_true_iff, String.eqb_eq, Hx, IH. split.
    + intros [[-> ->] E]. inversion E. reflexivity.
    + intros E. inversion E. repeat split; reflexivity.
Qed.

Lemma value_eqb_refl : forall v, value_eqb v v = true.
Proof. intros v. apply value_eqb_eq. reflexivity. Qed.

Lemma value_eqb_neq : forall a b, a <> b -> value_eqb a b = false.
Proof.
  intros a b N. destruct (value_eqb a b) eqn:E; [|reflexivity].
  apply value_eqb_eq in E. contradiction.
Qed.

Lemma lookup_set_same : forall k v fs, lookup_field k (set_field k v fs) = Some v.
Proof.
  intros k v fs. induction fs as [|[k' v'] fs IH]; simpl.
  - rewrite String.eqb_refl. reflexivity.
  - destruct (String.eqb k k') eqn:E; simpl; rewrite ?String.eqb_refl, ?E; auto.
Qed.

Lemma lookup_set_other : forall k k' v fs,
    k <> k' -> lookup_field k (set_field k' v fs) = lookup_field k fs.
Proof.
  intros k k' v fs N. induction fs as [|[k0 v0] fs IH]; simpl.
  - apply String.eqb_neq in N. rewrite N. reflexivity.
  - destruct (String.eqb k' k0) eqn:E; simpl.
    + apply String.eqb_eq in E. subst k0.
      apply String.eqb_neq in N. rewrite N. reflexivity.
    + destruct (String.eqb k k0); auto.
Qed.

Lemma cache_get_set_same : forall V (c : Cache V) k v,
    cache_get (cache_set c k v) k = Some v.
Proof.
  intros V c k v. induction c as [|[k' v'] c IH]; simpl.
  - rewrite value_eqb_refl. reflexivity.
  - destruct (value_eqb k k') eqn:E; simpl; rewrite ?value_eqb_refl, ?E; auto.
Qed.

Lemma cache_get_set_other : forall V (c : Cache V) k k' v,
    k' <> k -> cache_get (cache_set c k v) k' = cache_get c k'.
Proof.
  intros V c k k' v N. induction c as [|[k0 v0] c IH]; simpl.
  - rewrite (value_eqb_neq _ _ N). reflexivity.
  - destruct (value_eqb k k0) eqn:E; simpl.
    + apply value_eqb_eq in E. subst k0.
      rewrite (value_eqb_neq _ _ N). reflexivity.
    + destruct (value_eqb k' k0); auto.
Qed.

Lemma cache_has_set_mono : forall V (c : Cache V) k v k',
    cache_has c k' = true -> cache_has (cache_set c k v) k' = true.
Proof.
  intros V c k v k' H. unfold cache_has in *.
  destruct (value_eqb k' k) eqn:E.
  - apply value_eqb_eq in E. subst. rewrite cache_get_set_same. reflexivity.
  - rewrite cache_get_set_other; [exact H|].
    intros ->. rewrite value_eqb_refl in E. discriminate.
Qed.

Lemma json_norm_id : forall v, is_json v = true -> json_norm v = v.
Proof.
  intros v.
  induction v as [| |x|x|x|l IHl|fs IHfs] using JsValue_ind; simpl; intros H;
    try reflexivity.
  - f_equal. induction IHl as [|x l Hx Hl IH]; simpl in *; [reflexivity|].
    apply andb_true_iff in H. destruct H as [H1 H2].
    rewrite IH by exact H2. rewrite Hx by exact H1.
    destruct x; try reflexivity. discriminate.
  - f_equal. induction IHfs as [|[k x] l Hx Hl IH]; simpl in *; [reflexivity|].
    apply andb_true_iff in H. destruct H as [H1 H2].
    rewrite IH by exact H2. rewrite Hx by exact H1.
    destruct x; try reflexivity. discriminate.
Qed.

(** A field that holds a defined value survives [JSON.stringify]. *)
Lemma prop_json_norm_obj : forall k fs v,
    lookup_field k fs = Some v -> v <> JUndef ->
    prop (json_norm (JObj fs)) k = json_norm v.
Proof.
  intros k fs v. simpl. induction fs as [|[k' x] fs IH]; simpl; [discriminate|].
  destruct (String.eqb k k') eqn:E.
  - intros H N. inversion H. subst x.
    destruct v; try contradiction; simpl; rewrite E; reflexivity.
  - intros H N. specialize (IH H N).
    destruct x; simpl; rewrite ?E; exact IH.
Qed.

(** ** The pagination merge *)

Section PaginationFacts.

Context {W : Type}.
Variable env : Collaborators W.

Ltac munfold :=
  unfold bind, ret, throw, hang, diverge, lift, await, get_state, try_catch,
    spawn, call_executeOperation in *.

Lemma page_of_failed : forall o,
    fetch_failed o -> page_of_outcome o = Some (JArr [], JNull).
Proof.
  intros [r|e|] H; simpl in *; try reflexivity; try contradiction.
  destruct (status r =? 200) eqn:E; [|reflexivity].
  apply Z.eqb_eq in E. contradiction.
Qed.

Lemma all_pages_repeat : forall p n,
    all_pages (repeat (Some p) n) = Some (repeat p n).
Proof.
  intros p n. induction n; simpl; [reflexivity|]. rewrite IHn. reflexivity.
Qed.

Lemma merge_failed_pages : forall gathered c n,
    merge_pages (JArr gathered) c (repeat (JArr [], JNull) n)
    = Ret (JArr gathered, match n with O => c | S _ => JNull end).
Proof.
  intros gathered c n. revert c. induction n; intros c; simpl; [reflexivity|].
  rewrite app_nil_r. rewrite IHn. destruct n; reflexivity.
Qed.

(** One iteration of the loop on a cursor that is set. *)
Lemma pagination_loop_step : forall fuel op params results c reqs (s : State),
    truthy c = true ->
    pagination_loop env (S fuel) op params results c reqs s
    = (o <- call_executeOperation env op (spread_set params "start_cursor" c) ;;
       if (maxParallelRequests_pages
           <=? List.length (reqs ++ [page_of_outcome o]))%nat
       then
         match all_pages (reqs ++ [page_of_outcome o]) with
         | None => hang
         | Some pageResponses =>
             rc <- lift (merge_pages results c pageResponses) ;;
             if negb (truthy (snd rc)) then ret (fst rc)
             else pagination_loop env fuel op params (fst rc) (snd rc) []
         end
       else pagination_loop env fuel op params results c
                            (reqs ++ [page_of_outcome o])) s.
Proof.
  intros fuel op params results c reqs s Hc.
  cbn [pagination_loop]. rewrite Hc. cbn [negb].
  unfold bind.
  destruct (call_executeOperation env op
              (spread_set params "start_cursor" c) s) as [[o| | |] s1];
    try reflexivity.
  rewrite orb_false_r.
  destruct (maxParallelRequests_pages
            <=? List.length (reqs ++ [page_of_outcome o]))%nat; [|reflexivity].
  destruct (all_pages (reqs ++ [page_of_outcome o])); [|reflexivity].
  destruct (lift (merge_pages results c l) s1) as [[[r c']| | |] s2];
    reflexivity.
Qed.

(** A round of five requests that all fail ends the loop with what was
    gathered before it. *)
Lemma loop_failed_round : forall op params gathered c,
    truthy c = true ->
    (forall w, fetch_failed (fst (executeOperation env op
                                    (spread_set params "start_cursor" c) w))) ->
    forall k n fuel (s : State),
      (n + k = 5)%nat -> (1 <= k)%nat -> (k <= fuel)%nat ->
      fst (pagination_loop env fuel op params (JArr gathered) c
             (repeat (Some (JArr [], JNull)) n) s)
      = Ret (JArr gathered).
Proof.
  intros op params gathered c Hc Hfail k.
  induction k as [|k IH]; intros n fuel s Hn Hk Hf; [lia|].
  destruct fuel as [|fuel]; [lia|].
  rewrite pagination_loop_step by exact Hc.
  unfold bind at 1. unfold call_executeOperation.
  destruct (executeOperation env op (spread_set params "start_cursor" c) (world s))
    as [o w'] eqn:Ex.
  pose proof (Hfail (world s)) as Ho. rewrite Ex in Ho. cbn [fst] in Ho.
  rewrite (page_of_failed o Ho).
  replace (repeat (Some (JArr [], JNull)) n ++ [Some (JArr [], JNull)])%list
    with (repeat (Some (JArr [], JNull)) (S n))
    by (rewrite <- repeat_cons; reflexivity).
  rewrite repeat_length.
  unfold maxParallelRequests_pages.
  destruct (5 <=? S n)%nat eqn:E5.
  - rewrite all_pages_repeat. unfold bind, lift.
    rewrite merge_failed_pages. reflexivity.
  - apply Nat.leb_gt in E5.
    apply (IH (S n) fuel); lia.
Qed.

Lemma merge_repeated_page : forall items c' n gathered c,
    merge_pages (JArr gathered) c (repeat (JArr items, c') n)
    = Ret (JArr (gathered ++ List.concat (repeat items n)),
           match n with O => c | S _ => if truthy c' then c' else JNull end).
Proof.
  intros items c' n. induction n as [|n IH]; intros gathered c; simpl.
  - rewrite app_nil_r. reflexivity.
  - rewrite IH. rewrite <- app_assoc. destruct n; reflexivity.
Qed.

(** What one round of the loop does when the remote side answers the
    request for the page after [c] with the items [items] and the cursor
    [c']: the request goes out five times, and the page is appended five
    times. *)
Lemma loop_round_repeats_page : forall op params gathered c items c',
    truthy c = true ->
    (forall w, page_of_outcome
                 (fst (executeOperation env op
                         (spread_set params "start_cursor" c) w))
               = Some (JArr items, c')) ->
    forall k n fuel (s : State),
      (n + k = 5)%nat -> (1 <= k)%nat ->
      exists s',
        pagination_loop env (k + fuel) op params (JArr gathered) c
          (repeat (Some (JArr items, c')) n) s
        = (if truthy c'
           then pagination_loop env fuel op params
                  (JArr (gathered ++ List.concat (repeat items 5))) c' [] s'
           else (Ret (JArr (gathered ++ List.concat (repeat items 5))), s'))
        /\ calls s'
           = (calls s
                ++ repeat (mkCall op (spread_set params "start_cursor" c)) k)%list.
Proof.
  intros op params gathered c items c' Hc Hans k.
  induction k as [|k IH]; intros n fuel s Hn Hk; [lia|].
  cbn [Nat.add]. rewrite pagination_loop_step by exact Hc.
  unfold bind at 1. unfold call_executeOperation.
  pose proof (Hans (world s)) as Ho.
  destruct (executeOperation env op (spread_set params "start_cursor" c) (world s))
    as [o w'].
  cbn [fst] in Ho. rewrite Ho.
  replace (repeat (Some (JArr items, c')) n ++ [Some (JArr items, c')])%list
    with (repeat (Some (JArr items, c')) (S n))
    by (rewrite <- repeat_cons; reflexivity).
  rewrite repeat_length. unfold maxParallelRequests_pages.
  destruct (5 <=? S n)%nat eqn:E5.
  - apply Nat.leb_le in E5. assert (k = 0%nat) by lia. subst k.
    assert (n = 4%nat) by lia. subst n.
    rewrite all_pages_repeat. unfold bind, lift.
    rewrite merge_repeated_page. cbn [fst snd Nat.add].
    eexists. split.
    + destruct (truthy c') eqn:Hc'.
      * rewrite Hc'. cbn [negb]. reflexivity.
      * cbn [truthy negb]. reflexivity.
    + reflexivity.
  - apply Nat.leb_gt in E5.
    match goal with
    | |- context [pagination_loop env (k + fuel) op params (JArr gathered) c _ ?st] =>
        destruct (IH (S n) fuel st ltac:(lia) ltac:(lia)) as (s' & Run & Log)
    end.
    exists s'. split; [exact Run|].
    rewrite Log. cbn [calls repeat]. rewrite <- app_assoc. reflexivity.
Qed.

Lemma handle_first_page_rejected : forall fuel op params (s : State) e,
    fst (executeOperation env op params (world s)) = Rejected e ->
    fst (handleBlockChildrenParallel env fuel op params s) = Throw e.
Proof.
  intros fuel op params s e H.
  unfold handleBlockChildrenParallel, bind, call_executeOperation.
  destruct (executeOperation env op params (world s)) as [o w'].
  cbn [fst] in H. subst o. reflexivity.
Qed.

(** After a first page that came with status 200, the function goes on
    to the loop and wraps what the loop returns. *)
Lemma handle_after_first_page : forall fuel op params (s : State) r w',
    executeOperation env op params (world s) = (Resolved r, w') ->
    status r = 200 ->
    nullish (data r) = false ->
    handleBlockChildrenParallel env fuel op params s
    = (results <- pagination_loop env fuel op params
                    (js_or (prop (data r) "results") (JArr []))
                    (prop (data r) "next_cursor") [] ;;
       ret (mkToolResult (JSON_stringify (mergedResponse (data r) results))))
        (mkState w' (heap s) (pageCache s) (blockCache s) (databaseCache s)
                 (commentCache s) (propertyCache s)
                 (calls s ++ [mkCall op params])%list).
Proof.
  intros fuel op params s r w' Ex Hst Hd.
  unfold handleBlockChildrenParallel.
  unfold bind at 1. unfold call_executeOperation. rewrite Ex.
  unfold bind at 1. unfold await, ret.
  rewrite Hst. cbn [Z.eqb Pos.eqb negb]. rewrite Hd. reflexivity.
Qed.

(** A listing whose second page cannot be fetched is merged to its first
    page. *)
Lemma merge_truncated_at_second_page : forall fuel op params (s : State) r items,
    fst (executeOperation env op params (world s)) = Resolved r ->
    status r = 200 ->
    prop (data r) "results" = JArr items ->
    truthy (prop (data r) "next_cursor") = true ->
    (5 <= fuel)%nat ->
    (forall w, fetch_failed
                 (fst (executeOperation env op
                         (spread_set params "start_cursor"
                            (prop (data r) "next_cursor")) w))) ->
    fst (handleBlockChildrenParallel env fuel op params s)
    = Ret (mkToolResult (JSON_stringify (mergedResponse (data r) (JArr items)))).
Proof.
  intros fuel op params s r items Ex Hst Hres Hc Hf Hfail.
  destruct (executeOperation env op params (world s)) as [o w'] eqn:E.
  cbn [fst] in Ex. subst o.
  assert (Hd : nullish (data r) = false).
  { destruct (data r); try reflexivity; discriminate. }
  rewrite (handle_after_first_page fuel op params s r w' E Hst Hd).
  rewrite Hres. unfold js_or. cbn [truthy].
  unfold bind.
  match goal with
  | |- context [pagination_loop env fuel op params (JArr items) ?c [] ?st] =>
      pose proof (loop_failed_round op params items c Hc Hfail 5 0 fuel st
                    eq_refl ltac:(lia) Hf) as L;
      cbn [repeat] in L;
      destruct (pagination_loop env fuel op params (JArr items) c [] st)
        as [res st'] eqn:EL
  end.
  cbn [fst] in L. subst res. reflexivity.
Qed.

Lemma page_of_outcome_array : forall op params w,
    lists_arrays env ->
    array_page (page_of_outcome (fst (executeOperation env op params w))).
Proof.
  intros op params w WF.
  destruct (fst (executeOperation env op params w)) as [r|e|] eqn:E; simpl;
    try exact I.
  destruct (status r =? 200) eqn:Es; [|exact I].
  destruct (nullish (data r)) eqn:Ed; [exact I|].
  apply Z.eqb_eq in Es.
  destruct (WF op params w r E Es Ed) as [l ->]. exact I.
Qed.

Lemma merge_array_pages : forall responses gathered c,
    Forall (fun p => array_page (Some p)) responses ->
    exists gathered' c',
      merge_pages (JArr gathered) c responses = Ret (JArr gathered', c').
Proof.
  induction responses as [|[r c0] rest IH]; intros gathered c H; simpl.
  - eexists. eexists. reflexivity.
  - inversion H as [|? ? Hp Hrest]. subst. simpl in Hp.
    destruct r; try contradiction. simpl.
    apply IH. exact Hrest.
Qed.

Lemma all_pages_array : forall reqs responses,
    Forall array_page reqs -> all_pages reqs = Some responses ->
    Forall (fun p => array_page (Some p)) responses.
Proof.
  induction reqs as [|[p|] reqs IH]; intros responses H E; simpl in E.
  - inversion E. constructor.
  - destruct (all_pages reqs) as [ps|] eqn:A; [|discriminate].
    inversion E. subst. inversion H. subst.
    constructor; [assumption|]. apply IH; [assumption|reflexivity].
  - discriminate.
Qed.

(** On such a remote side the loop throws nothing, whatever fails. *)
Lemma loop_never_throws : forall op params,
    lists_arrays env ->
    forall fuel gathered c reqs (s : State) e,
      Forall array_page reqs ->
      fst (pagination_loop env fuel op params (JArr gathered) c reqs s) <> Throw e.
Proof.
  intros op params WF fuel.
  induction fuel as [|fuel IH]; intros gathered c reqs s e Hr.
  - cbn [pagination_loop]. destruct (negb (truthy c)); discriminate.
  - destruct (truthy c) eqn:Hc.
    + rewrite pagination_loop_step by exact Hc.
      unfold bind at 1. unfold call_executeOperation.
      pose proof (page_of_outcome_array op (spread_set params "start_cursor" c)
                    (world s) WF) as Ho.
      destruct (executeOperation env op (spread_set params "start_cursor" c)
                  (world s)) as [o w'].
      cbn [fst] in Ho.
      assert (Hr' : Forall array_page (reqs ++ [page_of_outcome o])).
      { apply Forall_app. split; [exact Hr|]. constructor; [exact Ho|constructor]. }
      destruct (maxParallelRequests_pages
                <=? List.length (reqs ++ [page_of_outcome o]))%nat.
      * destruct (all_pages (reqs ++ [page_of_outcome o])) as [responses|] eqn:A;
          [|discriminate].
        destruct (merge_array_pages responses gathered c
                    (all_pages_array _ _ Hr' A)) as (g' & c' & M).
        unfold bind, lift. rewrite M. cbn [fst snd].
        destruct (negb (truthy c')); [discriminate|].
        apply IH. constructor.
      * apply IH. exact Hr'.
    + cbn [pagination_loop]. rewrite Hc. discriminate.
Qed.

Lemma handle_never_throws : forall fuel op params (s : State) r,
    lists_arrays env ->
    fst (executeOperation env op params (world s)) = Resolved r ->
    status r = 200 ->
    nullish (data r) = false ->
    forall e, fst (handleBlockChildrenParallel env fuel op params s) <> Throw e.
Proof.
  intros fuel op params s r WF Ex Hst Hd e.
  destruct (WF op params (world s) r Ex Hst Hd) as [l Hl].
  destruct (executeOperation env op params (world s)) as [o w'] eqn:E.
  cbn [fst] in Ex. subst o.
  rewrite (handle_after_first_page fuel op params s r w' E Hst Hd).
  rewrite Hl. unfold bind.
  match goal with
  | |- context [pagination_loop env fuel op params (JArr l) ?c [] ?st] =>
      pose proof (loop_never_throws op params WF fuel l c [] st) as NT;
      destruct (pagination_loop env fuel op params (JArr l) c [] st)
        as [[res|e'| |] st']
  end; try discriminate.
  exfalso. apply (NT e' (Forall_nil _)). reflexivity.
Qed.

(** C5: a first page that cannot be fetched makes the merge fail with the
    same error; once the first page is in, a later page that cannot be
    fetched (rejected, or answered with a status other than 200) ends the
    loop, which returns what was gathered before, and nothing is thrown;
    in particular a listing whose second page fails is merged to exactly
    the items of its first page.  On a remote side whose pages carry
    arrays, nothing that happens after the first page makes the merge
    throw. *)
Theorem C5_merge_fails_fast_then_truncates :
  forall fuel op params (s : State),
    (forall e,
        fst (executeOperation env op params (world s)) = Rejected e ->
        fst (handleBlockChildrenParallel env fuel op params s) = Throw e)
    /\
    (forall gathered cursor (s1 : State),
        truthy cursor = true ->
        (5 <= fuel)%nat ->
        (forall w, fetch_failed
                     (fst (executeOperation env op
                             (spread_set params "start_cursor" cursor) w))) ->
        fst (pagination_loop env fuel op params (JArr gathered) cursor [] s1)
        = Ret (JArr gathered))
    /\
    (forall r items,
        fst (executeOperation env op params (world s)) = Resolved r ->
        status r = 200 ->
        prop (data r) "results" = JArr items ->
        truthy (prop (data r) "next_cursor") = true ->
        (5 <= fuel)%nat ->
        (forall w, fetch_failed
                     (fst (executeOperation env op
                             (spread_set params "start_cursor"
                                (prop (data r) "next_cursor")) w))) ->
        fst (handleBlockChildrenParallel env fuel op params s)
        = Ret (mkToolResult
                 (JSON_stringify (mergedResponse (data r) (JArr items)))))
    /\
    (forall r e,
        lists_arrays env ->
        fst (executeOperation env op params (world s)) = Resolved r ->
        status r = 200 ->
        nullish (data r) = false ->
        fst (handleBlockChildrenParallel env fuel op params s) <> Throw e).
Proof.
  intros fuel op params s. split; [|split; [|split]].
  - intros e H. apply handle_first_page_rejected. exact H.
  - intros gathered cursor s1 Hc Hf Hfail.
    apply (loop_failed_round op params gathered cursor Hc Hfail 5 0 fuel s1);
      [reflexivity | lia | exact Hf].
  - intros r items. apply merge_truncated_at_second_page.
  - intros r e WF Ex Hst Hd.
    apply (handle_never_throws fuel op params s r WF Ex Hst Hd).
Qed.

Lemma merged_flags : forall d results,
    prop (json_norm (mergedResponse d results)) "has_more" = JBool false
    /\ prop (json_norm (mergedResponse d results)) "next_cursor" = JNull.
Proof.
  intros d results. unfold mergedResponse. split.
  - apply (prop_json_norm_obj "has_more" _ (JBool false)); [|discriminate].
    rewrite lookup_set_other by discriminate. apply lookup_set_same.
  - apply (prop_json_norm_obj "next_cursor" _ JNull); [|discriminate].
    apply lookup_set_same.
Qed.

Lemma merged_passes_fields : forall d results k v,
    k <> "results" -> k <> "has_more" -> k <> "next_cursor" ->
    own_field d k = Some v -> is_json v = true ->
    prop (json_norm (mergedResponse d results)) k = v.
Proof.
  intros d results k v N1 N2 N3 H J. unfold mergedResponse.
  rewrite (prop_json_norm_obj k _ v).
  - apply json_norm_id. exact J.
  - rewrite !lookup_set_other by assumption. exact H.
  - intros ->. discriminate.
Qed.

(** C10: when the first page came with status 200, every response the
    merge returns has [has_more = false] and [next_cursor = null] at its
    top level and carries every other top-level field of the first page's
    body, [results] apart, as it was; this is so when a later page failed
    and the merge stopped there, in which case the response is returned
    all the same. *)
Theorem C10_merged_response_top_level :
  forall fuel op params (s : State) r,
    fst (executeOperation env op params (world s)) = Resolved r ->
    status r = 200 ->
    (forall tr s',
        handleBlockChildrenParallel env fuel op params s = (Ret tr, s') ->
        exists results body,
          text tr = Some body
          /\ body = json_norm (mergedResponse (data r) results)
          /\ prop body "has_more" = JBool false
          /\ prop body "next_cursor" = JNull
          /\ (forall k v,
                 k <> "results" -> k <> "has_more" -> k <> "next_cursor" ->
                 own_field (data r) k = Some v -> is_json v = true ->
                 prop body k = v))
    /\
    (forall items,
        prop (data r) "results" = JArr items ->
        truthy (prop (data r) "next_cursor") = true ->
        (5 <= fuel)%nat ->
        (forall w, fetch_failed
                     (fst (executeOperation env op
                             (spread_set params "start_cursor"
                                (prop (data r) "next_cursor")) w))) ->
        exists tr, fst (handleBlockChildrenParallel env fuel op params s) = Ret tr).
Proof.
  intros fuel op params s r Ex Hst. split.
  - intros tr s' Run.
    destruct (executeOperation env op params (world s)) as [o w'] eqn:E.
    cbn [fst] in Ex. subst o.
    destruct (nullish (data r)) eqn:Hd.
    + exfalso. revert Run.
      unfold handleBlockChildrenParallel.
      unfold bind at 1. unfold call_executeOperation. rewrite E.
      unfold bind at 1. unfold await, ret.
      rewrite Hst. cbn [Z.eqb Pos.eqb negb]. rewrite Hd.
      unfold throw. discriminate.
    + rewrite (handle_after_first_page fuel op params s r w' E Hst Hd) in Run.
      unfold bind, ret in Run.
      match type of Run with
      | context [pagination_loop env fuel op params ?a ?c [] ?st] =>
          destruct (pagination_loop env fuel op params a c [] st)
            as [[results| | |] st'] eqn:EL
      end; try discriminate.
      inversion Run. subst tr s'. clear Run.
      exists results, (json_norm (mergedResponse (data r) results)).
      split; [reflexivity|]. split; [reflexivity|].
      destruct (merged_flags (data r) results) as [F1 F2].
      split; [exact F1|]. split; [exact F2|].
      intros k v. apply merged_passes_fields.
  - intros items Hres Hc Hf Hfail.
    eexists. apply (merge_truncated_at_second_page fuel op params s r items);
      assumption.
Qed.

End PaginationFacts.

(** ** The crawler: what its results look like *)

Section CrawlerFacts.

Context {W : Type}.
Variable env : Collaborators W.

Lemma timed_out_message : forall options,
    str_includes "timed out" (err_message (timeout_error options)) = true.
Proof. intros options. reflexivity. Qed.

Lemma resolve_page_kinds : forall pageId options (s : State),
    fst (resolve_page env pageId options s) <> Hang
    /\ fst (resolve_page env pageId options s) <> Diverge.
Proof.
  intros pageId options s.
  unfold resolve_page, bind, get_state, ret, throw, race_timeout, await,
    call_executeOperation, pageCache_set.
  destruct (if skipCache options then None else cache_get (pageCache s) (JStr pageId)).
  - split; discriminate.
  - destruct (findOperation env "API-retrieve-a-page"); [|split; discriminate].
    destruct (executeOperation env o (JObj [("page_id", JStr pageId)]) (world s))
      as [[r|e|] w']; cbn; try (split; discriminate).
    destruct (negb (status r =? 200)); split; discriminate.
Qed.

Lemma Promise_all_Ret : forall A (l : list (Result A)) vs,
    Promise_all l = Ret vs -> Forall2 (fun r v => r = Ret v) l vs.
Proof.
  intros A l. induction l as [|r l IH]; intros vs H; simpl in H.
  - inversion H. constructor.
  - destruct r as [a|e| |]; destruct (Promise_all l) as [vs'|e'| |];
      try discriminate.
    inversion H. constructor; [reflexivity|]. apply IH. reflexivity.
Qed.

Lemma page_tasks_kinds : forall fuel ref pageId options d (s : State),
    fst (page_tasks env fuel ref pageId options d s) <> Hang
    /\ fst (page_tasks env fuel ref pageId options d s) <> Diverge.
Proof.
  intros fuel ref pageId options d s.
  unfold page_tasks, bind, spawn, get_state, lift, ret.
  destruct (retrieveBlocksRecursively env fuel (JStr pageId) options (d + 1) s).
  destruct (includeProperties options).
  - unfold get_prop. destruct (nullish (heap_get s0 ref)); [split; discriminate|].
    destruct (truthy (prop (heap_get s0 ref) "properties")).
    + destruct (enrichPageProperties env ref pageId _ options s0).
      destruct (includeComments options); [|split; discriminate].
      destruct (retrieveComments env (JStr pageId) options s1). split; discriminate.
    + destruct (includeComments options); [|split; discriminate].
      destruct (retrieveComments env (JStr pageId) options s0). split; discriminate.
  - destruct (includeComments options); [|split; discriminate].
    destruct (retrieveComments env (JStr pageId) options s0). split; discriminate.
Qed.

(** Once the race is won, every promise is fulfilled and the merge
    returns. *)
Lemma integrate_returns : forall ref options b h p c vs (s : State),
    Promise_all [list_result b; p; c] = Ret vs ->
    exists node, integrate env ref options b h p c s = (Ret (JObj node), s).
Proof.
  intros ref options b h p c vs s PA.
  apply Promise_all_Ret in PA.
  inversion PA as [|? ? ? ? Hb PA1]; subst.
  inversion PA1 as [|? ? ? ? Hp PA2]; subst.
  inversion PA2 as [|? ? ? ? Hc PA3]; subst.
  destruct b; try discriminate.
  unfold integrate, bind, get_state, lift, ret.
  destruct h; destruct (includeComments options); eexists; reflexivity.
Qed.

Lemma expand_page_no_hang : forall fuel ref pageId options d (s : State),
    fst (expand_page env fuel ref pageId options d s) <> Hang.
Proof.
  intros fuel ref pageId options d s.
  pose proof (page_tasks_kinds fuel ref pageId options d s) as [NH ND].
  unfold expand_page. unfold bind at 1.
  destruct (page_tasks env fuel ref pageId options d s)
    as [[[[b [h p]] c]|e| |] s1] eqn:T; try discriminate.
  - unfold bind at 1. unfold race_timeout, lift.
    destruct (Promise_all [list_result b; p; c]) as [vs|e| |] eqn:PA;
      try discriminate.
    destruct (integrate_returns ref options b h p c vs s1 PA) as [node Hn].
    rewrite Hn. discriminate.
  - contradiction.
Qed.

(** [retrievePageRecursively] has no way to reject and none to stay
    pending: it returns a node, unless a loop inside it never ends. *)
Lemma page_returns_or_diverges : forall fuel pageId options d (s : State),
    (exists node, fst (retrievePageRecursively env fuel pageId options d s) = Ret node)
    \/ fst (retrievePageRecursively env fuel pageId options d s) = Diverge.
Proof.
  intros fuel pageId options d s.
  unfold retrievePageRecursively, try_catch.
  destruct (d >=? effectiveMaxDepth options).
  - left. eexists. reflexivity.
  - unfold bind.
    pose proof (resolve_page_kinds pageId options s) as [NH ND].
    destruct (resolve_page env pageId options s) as [[[ref|node]|e| |] s1];
      try contradiction.
    + pose proof (expand_page_no_hang fuel ref pageId options d s1) as NH'.
      destruct (expand_page env fuel ref pageId options d s1) as [[n|e| |] s2];
        try contradiction.
      * left. eexists. reflexivity.
      * left. eexists. reflexivity.
      * right. reflexivity.
    + left. eexists. reflexivity.
    + left. eexists. reflexivity.
Qed.

(** What [handleOnePagerRequest] makes of the crawler's node. *)
Lemma one_pager_wraps : forall fuel params (s s' : State) node,
    retrievePageRecursively env fuel (page_id params) (options_of params) 0 s
    = (Ret node, s') ->
    handleOnePagerRequest env fuel params s
    = (Ret (mkToolResult
              (JSON_stringify
                 (spread_set node "_meta"
                    (meta env (options_of params)
                       (clock env (world s') - clock env (world s))
                       (clock env (world s')))))), s').
Proof.
  intros fuel params s s' node H.
  unfold handleOnePagerRequest, try_catch, bind, get_state, ret.
  rewrite H. reflexivity.
Qed.




(** C3 (amended): when the timer fires while the tasks of a page are
    still running, the node returned is exactly
    [{id, error: "Operation timed out", partial_results: true, note}];
    the page's own payload and whatever the tasks had already produced
    (content, property details, comments) are not in it. *)
Theorem C3_timeout_node_carries_no_data :
  forall fuel pageId options d (s s1 s2 : State) ref
         blocksPromise hasProperties propertiesPromise commentsPromise,
    d < effectiveMaxDepth options ->
    resolve_page env pageId options s = (Ret (inl ref), s1) ->
    page_tasks env fuel ref pageId options d s1
    = (Ret (blocksPromise, (hasProperties, propertiesPromise), commentsPromise), s2) ->
    Promise_all [list_result blocksPromise; propertiesPromise; commentsPromise]
    = Hang ->
    retrievePageRecursively env fuel pageId options d s
    = (Ret (JObj [("id", JStr pageId);
                  ("error", JStr "Operation timed out");
                  ("partial_results", JBool true);
                  ("note", JStr ("Processing exceeded timeout limit ("
                                   ++ dec (timeoutMs options) ++ "ms)"))]), s2).
Proof.
  intros fuel pageId options d s s1 s2 ref b h p c Hd Hres Htasks Hall.
  unfold retrievePageRecursively, try_catch.
  destruct (d >=? effectiveMaxDepth options) eqn:E.
  { apply Z.geb_le in E. lia. }
  unfold bind at 1. rewrite Hres.
  unfold expand_page. unfold bind at 1. rewrite Htasks.
  unfold bind at 1. unfold race_timeout, lift. rewrite Hall.
  unfold ret, page_catch. rewrite timed_out_message. reflexivity.
Qed.

(** C4 (amended): when the page is not served from the cache and the
    operation [API-retrieve-a-page] is not found, the call does not abort:
    the error is caught inside [retrievePageRecursively] and the body is
    the node [{id, error: "API-retrieve-a-page method not found.",
    retrievalFailed: true}] with [_meta] added; no remote call is made.
    Whatever the resolver and the remote side do, a body that is returned
    is the crawler's node with [_meta] added, never the error envelope. *)
Theorem C4_missing_operation_gives_error_node :
  forall fuel params (s : State),
    (findOperation env "API-retrieve-a-page" = None ->
     0 < effectiveMaxDepth (options_of params) ->
     (skipCache (options_of params) = true
      \/ cache_get (pageCache s) (JStr (page_id params)) = None) ->
     handleOnePagerRequest env fuel params s
     = (Ret (mkToolResult
               (Some (JObj [("id", JStr (page_id params));
                            ("error", JStr "API-retrieve-a-page method not found.");
                            ("retrievalFailed", JBool true);
                            ("_meta",
                             meta env (options_of params) 0
                                  (clock env (world s)))]))), s))
    /\
    (forall tr s',
        handleOnePagerRequest env fuel params s = (Ret tr, s') ->
        exists node,
          retrievePageRecursively env fuel (page_id params) (options_of params) 0 s
          = (Ret node, s')
          /\ text tr
             = JSON_stringify
                 (spread_set node "_meta"
                    (meta env (options_of params)
                       (clock env (world s') - clock env (world s))
                       (clock env (world s'))))).
Proof.
  intros fuel params s. split.
  - intros Hop Hd Hc.
    rewrite (one_pager_wraps fuel params s s
               (retrieval_failed (JStr (page_id params))
                  (new_Error "API-retrieve-a-page method not found."))).
    + rewrite Z.sub_diag. reflexivity.
    + unfold retrievePageRecursively, try_catch.
      destruct (0 >=? effectiveMaxDepth (options_of params)) eqn:E.
      { apply Z.geb_le in E. lia. }
      unfold bind at 1. unfold resolve_page.
      unfold bind at 1. unfold get_state.
      assert (Hm : (if skipCache (options_of params) then None
                    else cache_get (pageCache s) (JStr (page_id params))) = None).
      { destruct Hc as [-> | ->]; [reflexivity|].
        destruct (skipCache (options_of params)); reflexivity. }
      rewrite Hm, Hop. reflexivity.
  - intros tr s' Run.
    destruct (retrievePageRecursively env fuel (page_id params)
                (options_of params) 0 s) as [r s1] eqn:P.
    pose proof (page_returns_or_diverges fuel (page_id params)
                  (options_of params) 0 s) as K.
    rewrite P in K. cbn [fst] in K.
    destruct K as [[node ->] | ->].
    + rewrite (one_pager_wraps fuel params s s1 node P) in Run.
      inversion Run. subst. exists node. split; reflexivity.
    + revert Run. unfold handleOnePagerRequest, try_catch, bind, get_state.
      rewrite P. discriminate.
Qed.

End CrawlerFacts.

(** ** Property enrichment *)

Section PropertyFacts.

Context {W : Type}.
Variable env : Collaborators W.

Lemma heap_update_get : forall ref f (s : State (W := W)),
    f JUndef = JUndef ->
    heap_get (snd (heap_update ref f s)) ref = f (heap_get s ref).
Proof.
  intros ref f s Hf. unfold heap_update, heap_get. cbn [snd heap].
  generalize (heap s) as h. induction ref as [|ref IH]; intros [|v h]; simpl;
    try (symmetry; exact Hf); try reflexivity.
  apply IH.
Qed.

Lemma lookup_update_nth : forall (f : JsValue -> JsValue) k v i ps,
    nth_error ps i = Some (k, v) ->
    lookup_field k (firstn i ps) = None ->
    lookup_field k (update_nth i (fun kv => (fst kv, f (snd kv))) ps)
    = Some (f v).
Proof.
  intros f k v i. unfold update_nth.
  induction i as [|i IH]; intros [|[k0 v0] ps] Hn Hl; simpl in *;
    try discriminate.
  - inversion Hn. subst. rewrite String.eqb_refl. reflexivity.
  - destruct (String.eqb k k0); [discriminate|]. apply IH; assumption.
Qed.

(** Where [decorate] puts the details, for a page whose properties are an
    object and whose [i]-th property is named [propName]. *)
Lemma decorate_details : forall i details fs ps propName propData,
    lookup_field "properties" fs = Some (JObj ps) ->
    nth_error ps i = Some (propName, propData) ->
    lookup_field propName (firstn i ps) = None ->
    prop (prop (prop (decorate i details (JObj fs)) "properties") propName)
         "details" = details.
Proof.
  intros i details fs ps propName propData Hp Hn Hl.
  unfold decorate. cbn [prop]. rewrite lookup_set_same.
  rewrite Hp. cbn [update_entry prop].
  pose proof (lookup_update_nth
                (fun pd => JObj (set_field "details" details (js_entries pd)))
                propName propData i ps Hn Hl) as L.
  cbv beta in L. rewrite L.
  cbn [prop]. rewrite lookup_set_same. reflexivity.
Qed.

(** C7: for a property whose identifier contains ["notion://"] or
    ["%3A%2F%2F"], and that is not served from the property cache, the
    task of that property returns normally, writes the stub of type
    ["unsupported"] as the property's [details], makes no remote call and
    caches nothing; the stub is no error stub. *)
Theorem C7_internal_link_property_is_skipped :
  forall ref pageId options i propName id (s : State),
    str_includes "notion://" id || str_includes "%3A%2F%2F" id = true ->
    (skipCache options = true
     \/ cache_get (propertyCache s) (JStr (pageId ++ ":" ++ id)) = None) ->
    exists s',
      property_task env ref pageId options i propName (JStr id) s = (Ret tt, s')
      /\ heap_get s' ref = decorate i unsupported_details (heap_get s ref)
      /\ (forall fs ps propData,
             heap_get s ref = JObj fs ->
             lookup_field "properties" fs = Some (JObj ps) ->
             nth_error ps i = Some (propName, propData) ->
             lookup_field propName (firstn i ps) = None ->
             prop (prop (prop (heap_get s' ref) "properties") propName) "details"
             = unsupported_details)
      /\ calls s' = calls s
      /\ propertyCache s' = propertyCache s
      /\ prop unsupported_details "type" = JStr "unsupported"
      /\ prop unsupported_details "error" = JUndef.
Proof.
  intros ref pageId options i propName id s Hm Hc.
  exists (snd (heap_update ref (decorate i unsupported_details) s)).
  assert (Hcache : negb (skipCache options)
                   && cache_has (propertyCache s) (JStr (pageId ++ ":" ++ id))
                   = false).
  { destruct Hc as [-> | Hn]; [reflexivity|].
    unfold cache_has. rewrite Hn. apply andb_false_r. }
  assert (Hget : heap_get (snd (heap_update ref (decorate i unsupported_details) s)) ref
                 = decorate i unsupported_details (heap_get s ref)).
  { apply heap_update_get. reflexivity. }
  split; [|split; [exact Hget|split; [|repeat split]]].
  - unfold property_task, try_catch, bind, get_state. cbn [js_to_string].
    rewrite Hcache. unfold lift, propId_includes, ret.
    destruct (str_includes "notion://" id) eqn:E1.
    + reflexivity.
    + cbn [orb] in Hm. rewrite Hm. reflexivity.
  - intros fs ps propData Hfs Hp Hn Hl. rewrite Hget, Hfs.
    apply (decorate_details i unsupported_details fs ps propName propData);
      assumption.
Qed.

End PropertyFacts.

(** ** Batches of children *)

Section BatchFacts.

Context {W : Type}.
Variable env : Collaborators W.










End BatchFacts.

(** ** No loop without end when the batch size is not negative *)

Section TerminationFacts.

Context {W : Type}.
Variable env : Collaborators W.

































Section WithOptions.

Variable options : RecursiveExplorationOptions.
Hypothesis batch_ok : 0 <= batchSize options.






End WithOptions.

End TerminationFacts.

(** ** Failures stay inside the result *)

Section ContainmentFacts.

Context {W : Type}.
Variable env : Collaborators W.




End ContainmentFacts.

(** ** The page cache and the log of calls *)

Section CacheFacts.

Context {W : Type}.
Variable env : Collaborators W.
Variable skip : bool.

Lemma step_refl : forall s : State, crawl_step env skip s s.
Proof.
  intros s. split.
  - exists []. rewrite app_nil_r. split; [reflexivity|constructor].
  - auto.
Qed.

Lemma guarded_earlier : forall (s s' : State) c,
    (forall k, cache_has (pageCache s) k = true ->
               cache_has (pageCache s') k = true) ->
    guarded env skip s' c -> guarded env skip s c.
Proof.
  intros s s' c Mono G id Hp. destruct (G id Hp) as [Hop [Hs|Hc]].
  - split; [exact Hop|left; exact Hs].
  - split; [exact Hop|right].
    destruct (cache_has (pageCache s) id) eqn:E; [|reflexivity].
    rewrite (Mono id E) in Hc. discriminate.
Qed.

Lemma step_trans : forall s1 s2 s3 : State,
    crawl_step env skip s1 s2 -> crawl_step env skip s2 s3 ->
    crawl_step env skip s1 s3.
Proof.
  intros s1 s2 s3 [(l1 & E1 & G1) M1] [(l2 & E2 & G2) M2]. split.
  - exists (l1 ++ l2)%list. split.
    + rewrite E2, E1, app_assoc. reflexivity.
    + apply Forall_app. split; [exact G1|].
      eapply Forall_impl; [|exact G2].
      intros c. apply guarded_earlier. exact M1.
  - auto.
Qed.

Lemma crawls_ret : forall A (a : A), crawls env skip (ret a).
Proof. intros A a s. apply step_refl. Qed.

Lemma crawls_throw : forall A e, crawls env skip (throw (A := A) e).
Proof. intros A e s. apply step_refl. Qed.

Lemma crawls_hang : forall A, crawls env skip (hang (A := A)).
Proof. intros A s. apply step_refl. Qed.

Lemma crawls_diverge : forall A, crawls env skip (diverge (A := A)).
Proof. intros A s. apply step_refl. Qed.

Lemma crawls_lift : forall A (r : Result A), crawls env skip (lift r).
Proof. intros A r s. apply step_refl. Qed.

Lemma crawls_get_state : crawls env skip get_state.
Proof. intros s. apply step_refl. Qed.

Lemma crawls_await : forall o, crawls env skip (await o).
Proof. intros [r|e|] s; apply step_refl. Qed.

Lemma crawls_bind : forall A B (m : M A) (k : A -> M B),
    crawls env skip m -> (forall a, crawls env skip (k a)) ->
    crawls env skip (bind m k).
Proof.
  intros A B m k Hm Hk s. unfold bind. specialize (Hm s).
  destruct (m s) as [[a|e| |] s1]; cbn [snd] in *; try exact Hm.
  eapply step_trans; [exact Hm|apply Hk].
Qed.

Lemma crawls_try_catch : forall A (m : M A) h,
    crawls env skip m -> (forall e, crawls env skip (h e)) ->
    crawls env skip (try_catch m h).
Proof.
  intros A m h Hm Hh s. unfold try_catch. specialize (Hm s).
  destruct (m s) as [[a|e| |] s1]; cbn [snd] in *; try exact Hm.
  eapply step_trans; [exact Hm|apply Hh].
Qed.

Lemma crawls_race : forall A options (m : M A),
    crawls env skip m -> crawls env skip (race_timeout options m).
Proof.
  intros A options m Hm s. unfold race_timeout. specialize (Hm s).
  destruct (m s) as [[a|e| |] s1]; exact Hm.
Qed.

Lemma crawls_spawn : forall A (m : M A),
    crawls env skip m -> crawls env skip (spawn m).
Proof.
  intros A m Hm s. unfold spawn. specialize (Hm s).
  destruct (m s) as [r s1]. exact Hm.
Qed.

(** State changes that touch neither the log nor the keys of the page
    cache. *)
Lemma step_same : forall s s' : State,
    calls s' = calls s -> pageCache s' = pageCache s ->
    crawl_step env skip s s'.
Proof.
  intros s s' Hc Hp. split.
  - exists []. rewrite app_nil_r. split; [exact Hc|constructor].
  - rewrite Hp. auto.
Qed.

Lemma crawls_blockCache_set : forall k v, crawls env skip (blockCache_set k v).
Proof. intros k v s. apply step_same; reflexivity. Qed.

Lemma crawls_databaseCache_set : forall k v,
    crawls env skip (databaseCache_set k v).
Proof. intros k v s. apply step_same; reflexivity. Qed.

Lemma crawls_commentCache_set : forall k v,
    crawls env skip (commentCache_set k v).
Proof. intros k v s. apply step_same; reflexivity. Qed.

Lemma crawls_propertyCache_set : forall k v,
    crawls env skip (propertyCache_set k v).
Proof. intros k v s. apply step_same; reflexivity. Qed.

Lemma crawls_heap_update : forall ref f, crawls env skip (heap_update ref f).
Proof. intros ref f s. apply step_same; reflexivity. Qed.

Lemma crawls_pageCache_set : forall k v, crawls env skip (pageCache_set k v).
Proof.
  intros k v s. split.
  - exists []. rewrite app_nil_r. split; [reflexivity|constructor].
  - intros k' H. cbn. apply cache_has_set_mono. exact H.
Qed.

(** A remote call whose parameters are not of the form [{page_id: id}]. *)
Lemma crawls_call : forall op params,
    (forall id, params <> JObj [("page_id", id)]) ->
    crawls env skip (call_executeOperation env op params).
Proof.
  intros op params Hp s. unfold call_executeOperation.
  destruct (executeOperation env op params (world s)) as [o w']. split.
  - exists [mkCall op params]. split; [reflexivity|].
    constructor; [|constructor].
    intros id E. cbn in E. destruct (Hp id E).
  - auto.
Qed.

Lemma cursor_params_shape : forall params c id,
    spread_set params "start_cursor" c <> JObj [("page_id", id)].
Proof.
  intros params c id H. unfold spread_set in H. inversion H as [E]. clear H.
  destruct (js_entries params) as [|[k0 v0] fs]; cbn [set_field] in E.
  - discriminate.
  - destruct (String.eqb "start_cursor" k0); [discriminate|].
    destruct fs as [|[k1 v1] fs]; cbn [set_field] in E; [discriminate|].
    destruct (String.eqb "start_cursor" k1); discriminate.
Qed.

Ltac crawl_known := fail.

Ltac crawl_tac :=
  first
    [ crawl_known
    | apply crawls_ret | apply crawls_throw | apply crawls_hang
    | apply crawls_diverge | apply crawls_get_state | apply crawls_lift
    | apply crawls_await | apply crawls_blockCache_set
    | apply crawls_databaseCache_set | apply crawls_commentCache_set
    | apply crawls_propertyCache_set | apply crawls_heap_update
    | apply crawls_pageCache_set
    | apply crawls_call; intros ?; first [ apply cursor_params_shape | discriminate ]
    | apply crawls_race
    | apply crawls_spawn
    | apply crawls_bind; [|intros]
    | apply crawls_try_catch; [|intros]
    | match goal with
      | |- crawls _ _ (if ?c then _ else _) => destruct c
      | |- crawls _ _ (match ?x with _ => _ end) => destruct x
      | |- crawls _ _ (let (_, _) := ?x in _) => destruct x
      end ].

Ltac crawl_auto := repeat crawl_tac.

Lemma crawls_pagination_loop : forall fuel op params results c reqs,
    crawls env skip (pagination_loop env fuel op params results c reqs).
Proof.
  induction fuel as [|fuel IH]; intros op params results c reqs;
    cbn [pagination_loop]; crawl_auto; apply IH.
Qed.

Lemma crawls_handleBlockChildrenParallel : forall fuel op params,
    (forall id, params <> JObj [("page_id", id)]) ->
    crawls env skip (handleBlockChildrenParallel env fuel op params).
Proof.
  intros fuel op params Hp. unfold handleBlockChildrenParallel.
  apply crawls_bind; [apply crawls_call; exact Hp|intros o].
  crawl_auto. apply crawls_pagination_loop.
Qed.

Lemma crawls_retrieveDatabase : forall databaseId options,
    crawls env skip (retrieveDatabase env databaseId options).
Proof. intros databaseId options. unfold retrieveDatabase. crawl_auto. Qed.

Lemma crawls_cache_comments : forall l, crawls env skip (cache_comments l).
Proof.
  induction l as [|c l IH]; cbn [cache_comments]; crawl_auto; apply IH.
Qed.

Lemma crawls_retrieveComments : forall blockId options,
    crawls env skip (retrieveComments env blockId options).
Proof.
  intros blockId options. unfold retrieveComments. crawl_auto;
    apply crawls_cache_comments.
Qed.

Lemma crawls_property_task : forall ref pageId options i propName propId,
    crawls env skip (property_task env ref pageId options i propName propId).
Proof. intros. unfold property_task, set_details. crawl_auto. Qed.

Lemma crawls_property_tasks : forall ref pageId options entries i,
    crawls env skip (property_tasks env ref pageId options i entries).
Proof.
  intros ref pageId options entries.
  induction entries as [|[propName propData] rest IH]; intros i;
    cbn [property_tasks]; crawl_auto;
    first [apply crawls_property_task | apply IH].
Qed.

Lemma crawls_enrichPageProperties : forall ref pageId properties options,
    crawls env skip (enrichPageProperties env ref pageId properties options).
Proof.
  intros. unfold enrichPageProperties.
  apply crawls_bind; [apply crawls_property_tasks|intros rs]. crawl_auto.
Qed.

Ltac crawl_known ::=
  first [ apply crawls_pagination_loop | apply crawls_retrieveDatabase
        | apply crawls_cache_comments | apply crawls_retrieveComments
        | apply crawls_property_task | apply crawls_property_tasks
        | apply crawls_enrichPageProperties ].

(** A document retrieval: made only past the cache check. *)
Lemma step_page_call : forall operation pageId (s : State),
    findOperation env "API-retrieve-a-page" = Some operation ->
    skip = true \/ cache_has (pageCache s) pageId = false ->
    crawl_step env skip s
      (snd (call_executeOperation env operation (JObj [("page_id", pageId)]) s)).
Proof.
  intros operation pageId s Hop Hc. unfold call_executeOperation.
  destruct (executeOperation env operation (JObj [("page_id", pageId)]) (world s))
    as [o w']. split.
  - exists [mkCall operation (JObj [("page_id", pageId)])].
    split; [reflexivity|]. constructor; [|constructor].
    intros id E. cbn in E. inversion E. subst id.
    split; [exact Hop|exact Hc].
  - auto.
Qed.

Section WithOptions.

Variable options : RecursiveExplorationOptions.
Hypothesis skip_is : skipCache options = skip.

Lemma crawls_retrievePageBasicInfo : forall pageId,
    crawls env skip (retrievePageBasicInfo env pageId options).
Proof.
  intros pageId s. unfold retrievePageBasicInfo.
  unfold bind at 1. unfold get_state at 1.
  destruct (negb (skipCache options) && cache_has (pageCache s) pageId) eqn:E.
  - destruct (nullish (pageCache_get s pageId)); apply step_refl.
  - destruct (findOperation env "API-retrieve-a-page") as [operation|] eqn:Hop;
      [|apply step_refl].
    assert (Hc : skip = true \/ cache_has (pageCache s) pageId = false).
    { rewrite <- skip_is. destruct (skipCache options); [left; reflexivity|].
      right. exact E. }
    pose proof (step_page_call operation pageId s Hop Hc) as S1.
    unfold try_catch. unfold bind at 1.
    destruct (call_executeOperation env operation (JObj [("page_id", pageId)]) s)
      as [[o| | |] s1] eqn:C; cbn [snd] in S1;
      try (revert C; unfold call_executeOperation;
           destruct (executeOperation env operation _ (world s)); discriminate).
    assert (K : crawls env skip
                  (try_catch
                     (response <- await o ;;
                      if negb (status response =? 200)
                      then ret (JObj [("id", pageId);
                                      ("error", JStr "Failed to retrieve page");
                                      ("status", JNum (status response))])
                      else
                        _ <- pageCache_set pageId (data response) ;;
                        if nullish (data response)
                        then throw (TypeError_read (data response) "id")
                        else ret (JObj [("id", prop (data response) "id");
                                        ("title", basic_title (data response));
                                        ("icon", prop (data response) "icon");
                                        ("cover", prop (data response) "cover");
                                        ("url", prop (data response) "url");
                                        ("created_time",
                                         prop (data response) "created_time");
                                        ("last_edited_time",
                                         prop (data response) "last_edited_time")]))
                     (fun error =>
                        ret (JObj [("id", pageId);
                                   ("error", JStr (err_message error))])))).
    { crawl_auto. }
    specialize (K s1). unfold try_catch in K.
    eapply step_trans; [exact S1|exact K].
Qed.

Lemma crawls_spawn_all : forall A B (task : A -> M B) items,
    (forall x, crawls env skip (task x)) ->
    crawls env skip (spawn_all task items).
Proof.
  intros A B task items Ht. induction items as [|x items IH];
    cbn [spawn_all]; repeat first [ apply Ht | exact IH | crawl_tac ].
Qed.

Lemma crawls_batch_loop : forall (task : JsValue -> M JsValue) blocks size,
    (forall x, crawls env skip (task x)) ->
    forall fuel i acc, crawls env skip (batch_loop task fuel blocks size i acc).
Proof.
  intros task blocks size Ht fuel.
  induction fuel as [|fuel IH]; intros i acc; cbn [batch_loop];
    repeat first [ apply crawls_spawn_all; exact Ht | apply IH | crawl_tac ].
Qed.

Lemma crawls_block_task : forall children d block,
    (forall id, crawls env skip (children id)) ->
    crawls env skip (block_task env children options d block).
Proof.
  intros children d block Hc. unfold block_task.
  repeat first [ apply Hc | apply crawls_retrievePageBasicInfo | crawl_tac ].
Qed.

Lemma crawls_process_blocks : forall (task : JsValue -> M JsValue) blocks,
    (forall x, crawls env skip (task x)) ->
    crawls env skip (process_blocks env task options blocks).
Proof.
  intros task blocks Ht. unfold process_blocks.
  repeat first [ apply crawls_batch_loop; exact Ht | crawl_tac ].
Qed.

Lemma crawls_retrieveBlocks : forall depth fuel blockId d,
    crawls env skip (retrieveBlocks env depth fuel blockId options d).
Proof.
  induction depth as [|depth IH]; intros fuel blockId d; cbn [retrieveBlocks].
  - crawl_auto.
  - destruct (d >=? effectiveMaxDepth options); [apply crawls_ret|].
    apply crawls_try_catch; [|intros e; apply crawls_ret].
    destruct (findOperation env "API-get-block-children");
      [|apply crawls_throw].
    apply crawls_bind;
      [apply crawls_handleBlockChildrenParallel; intros id; discriminate
      |intros tr].
    apply crawls_bind; [apply crawls_lift|intros blocksData].
    apply crawls_bind; [apply crawls_lift|intros results].
    apply crawls_process_blocks. intros x.
    apply crawls_block_task. intros id. apply IH.
Qed.

Lemma crawls_page_tasks : forall fuel ref pageId d,
    crawls env skip (page_tasks env fuel ref pageId options d).
Proof.
  intros fuel ref pageId d. unfold page_tasks, retrieveBlocksRecursively.
  repeat first [ apply crawls_retrieveBlocks | crawl_tac ].
Qed.

Lemma crawls_expand_page : forall fuel ref pageId d,
    crawls env skip (expand_page env fuel ref pageId options d).
Proof.
  intros fuel ref pageId d. unfold expand_page, integrate.
  apply crawls_bind; [apply crawls_page_tasks|intros [[b [h p]] c]].
  crawl_auto.
Qed.

Lemma crawls_resolve_page : forall pageId,
    crawls env skip (resolve_page env pageId options).
Proof.
  intros pageId s. unfold resolve_page.
  unfold bind at 1. unfold get_state at 1.
  destruct (if skipCache options then None
            else cache_get (pageCache s) (JStr pageId)) as [ref|] eqn:E;
    [apply step_refl|].
  destruct (findOperation env "API-retrieve-a-page") as [operation|] eqn:Hop;
    [|apply step_refl].
  assert (Hc : skip = true \/ cache_has (pageCache s) (JStr pageId) = false).
  { rewrite <- skip_is. destruct (skipCache options); [left; reflexivity|].
    right. unfold cache_has. rewrite E. reflexivity. }
  pose proof (step_page_call operation (JStr pageId) s Hop Hc) as S1.
  unfold bind at 1.
  destruct (call_executeOperation env operation
              (JObj [("page_id", JStr pageId)]) s) as [[o| | |] s1] eqn:C;
    cbn [snd] in S1;
    try (revert C; unfold call_executeOperation;
         destruct (executeOperation env operation _ (world s)); discriminate).
  assert (K : crawls env skip
                (response <- race_timeout options (await o) ;;
                 if negb (status response =? 200)
                 then ret (inr (page_failed pageId response))
                 else ref <- pageCache_set (JStr pageId) (data response) ;;
                      ret (inl ref))).
  { crawl_auto. }
  eapply step_trans; [exact S1|apply K].
Qed.

Lemma crawls_retrievePageRecursively : forall fuel pageId d,
    crawls env skip (retrievePageRecursively env fuel pageId options d).
Proof.
  intros fuel pageId d. unfold retrievePageRecursively.
  repeat first [ apply crawls_resolve_page | apply crawls_expand_page
               | crawl_tac ].
Qed.

End WithOptions.

Lemma crawls_handleOnePagerRequest : forall fuel params,
    skipCache (options_of params) = skip ->
    crawls env skip (handleOnePagerRequest env fuel params).
Proof.
  intros fuel params Hs. unfold handleOnePagerRequest.
  repeat first [ apply crawls_retrievePageRecursively; exact Hs | crawl_tac ].
Qed.

(** Guarded calls that start where the page is cached and the cache is
    read include no document retrieval for that page. *)
Lemma no_page_calls : forall pageId (s : State) l,
    skip = false ->
    cache_has (pageCache s) (JStr pageId) = true ->
    Forall (guarded env skip s) l ->
    page_calls pageId l = 0%nat.
Proof.
  intros pageId s l Hs Hc G. unfold page_calls.
  induction G as [|c l Gc G IH]; [reflexivity|].
  cbn [filter]. destruct (is_page_call pageId c) eqn:E; [|exact IH].
  exfalso. unfold is_page_call in E. apply value_eqb_eq in E.
  destruct (Gc (JStr pageId) E) as [_ [H|H]]; congruence.
Qed.

Lemma page_calls_app : forall pageId l1 l2,
    page_calls pageId (l1 ++ l2) = (page_calls pageId l1 + page_calls pageId l2)%nat.
Proof.
  intros pageId l1 l2. unfold page_calls.
  rewrite filter_app, length_app. reflexivity.
Qed.

End CacheFacts.

(** ** Cache hits and fresh retrievals of the root page *)

Section RootRetrievalFacts.

Context {W : Type}.
Variable env : Collaborators W.

Lemma one_pager_state : forall fuel params (s : State),
    snd (handleOnePagerRequest env fuel params s)
    = snd (retrievePageRecursively env fuel (page_id params) (options_of params) 0 s).
Proof.
  intros fuel params s.
  unfold handleOnePagerRequest, try_catch, bind, get_state, ret.
  destruct (retrievePageRecursively env fuel (page_id params)
              (options_of params) 0 s) as [[node|e| |] s1]; reflexivity.
Qed.

Lemma served_from_cache : forall fuel params (s : State),
    skipCache (options_of params) = false ->
    cache_has (pageCache s) (JStr (page_id params)) = true ->
    page_calls (page_id params) (calls (snd (handleOnePagerRequest env fuel params s)))
    = page_calls (page_id params) (calls s).
Proof.
  intros fuel params s Hs Hc.
  destruct (crawls_handleOnePagerRequest env false fuel params Hs s)
    as [(l & E & G) _].
  rewrite E, page_calls_app.
  rewrite (no_page_calls env false (page_id params) s l eq_refl Hc G).
  lia.
Qed.

(** The crawl past the root page fetch, once the call has gone out. *)
Lemma after_page_call : forall fuel pageId options d (s : State) operation o w',
    d < effectiveMaxDepth options ->
    (if skipCache options then None
     else cache_get (pageCache s) (JStr pageId)) = None ->
    findOperation env "API-retrieve-a-page" = Some operation ->
    executeOperation env operation (JObj [("page_id", JStr pageId)]) (world s)
    = (o, w') ->
    retrievePageRecursively env fuel pageId options d s
    = try_catch
        (page <- (response <- race_timeout options (await o) ;;
                  if negb (status response =? 200)
                  then ret (inr (page_failed pageId response))
                  else ref <- pageCache_set (JStr pageId) (data response) ;;
                       ret (inl ref)) ;;
         match page with
         | inl ref => expand_page env fuel ref pageId options d
         | inr node => ret node
         end)
        (fun error => ret (page_catch pageId options error))
        (mkState w' (heap s) (pageCache s) (blockCache s) (databaseCache s)
                 (commentCache s) (propertyCache s)
                 (calls s ++ [mkCall operation (JObj [("page_id", JStr pageId)])])%list).
Proof.
  intros fuel pageId options d s operation o w' Hd Hm Hop Ex.
  unfold retrievePageRecursively.
  destruct (d >=? effectiveMaxDepth options) eqn:E.
  { apply Z.geb_le in E. lia. }
  unfold try_catch. unfold bind at 1. unfold resolve_page at 1.
  unfold bind at 1. unfold get_state at 1. rewrite Hm, Hop.
  unfold bind at 1. unfold call_executeOperation at 1. rewrite Ex.
  unfold bind at 3. reflexivity.
Qed.

Lemma crawls_after_page_call : forall fuel pageId options d o,
    crawls env (skipCache options)
      (try_catch
         (page <- (response <- race_timeout options (await o) ;;
                   if negb (status response =? 200)
                   then ret (inr (page_failed pageId response))
                   else ref <- pageCache_set (JStr pageId) (data response) ;;
                        ret (inl ref)) ;;
          match page with
          | inl ref => expand_page env fuel ref pageId options d
          | inr node => ret node
          end)
         (fun error => ret (page_catch pageId options error))).
Proof.
  intros fuel pageId options d o.
  apply crawls_try_catch; [|intros e; apply crawls_ret].
  apply crawls_bind.
  - apply crawls_bind; [apply crawls_race, crawls_await|intros response].
    destruct (negb (status response =? 200)); [apply crawls_ret|].
    apply crawls_bind; [apply crawls_pageCache_set|intros ref; apply crawls_ret].
  - intros [ref|node]; [|apply crawls_ret].
    apply crawls_expand_page. reflexivity.
Qed.

Lemma fresh_retrieval : forall fuel pageId options d (s : State) operation,
    d < effectiveMaxDepth options ->
    (if skipCache options then None
     else cache_get (pageCache s) (JStr pageId)) = None ->
    findOperation env "API-retrieve-a-page" = Some operation ->
    exists rest,
      calls (snd (retrievePageRecursively env fuel pageId options d s))
      = (calls s ++ mkCall operation (JObj [("page_id", JStr pageId)]) :: rest)%list.
Proof.
  intros fuel pageId options d s operation Hd Hm Hop.
  destruct (executeOperation env operation (JObj [("page_id", JStr pageId)])
              (world s)) as [o w'] eqn:Ex.
  rewrite (after_page_call fuel pageId options d s operation o w' Hd Hm Hop Ex).
  match goal with
  | |- context [try_catch ?m ?h ?st] =>
      destruct (crawls_after_page_call fuel pageId options d o st)
        as [(l & E & _) _]
  end.
  exists l. rewrite E. cbn [calls]. rewrite <- app_assoc. reflexivity.
Qed.

(** After a root page fetch answered with status 200, the crawl ends
    where the expansion of the page just cached ends. *)
Lemma first_retrieval_state : forall fuel pageId options d (s : State) operation r w',
    d < effectiveMaxDepth options ->
    (if skipCache options then None
     else cache_get (pageCache s) (JStr pageId)) = None ->
    findOperation env "API-retrieve-a-page" = Some operation ->
    executeOperation env operation (JObj [("page_id", JStr pageId)]) (world s)
    = (Resolved r, w') ->
    status r = 200 ->
    snd (retrievePageRecursively env fuel pageId options d s)
    = snd (expand_page env fuel (List.length (heap s)) pageId options d
             (mkState w' (heap s ++ [data r])%list
                      (cache_set (pageCache s) (JStr pageId) (List.length (heap s)))
                      (blockCache s) (databaseCache s) (commentCache s)
                      (propertyCache s)
                      (calls s ++ [mkCall operation
                                     (JObj [("page_id", JStr pageId)])])%list)).
Proof.
  intros fuel pageId options d s operation r w' Hd Hm Hop Ex Hst.
  rewrite (after_page_call fuel pageId options d s operation (Resolved r) w'
             Hd Hm Hop Ex).
  unfold try_catch, bind, race_timeout, await, ret, pageCache_set.
  rewrite Hst. cbn [Z.eqb Pos.eqb negb world heap pageCache blockCache
                     databaseCache commentCache propertyCache calls].
  match goal with
  | |- context [expand_page env fuel ?ref pageId options d ?st] =>
      destruct (expand_page env fuel ref pageId options d st) as [[n|e| |] s2]
  end; reflexivity.
Qed.

Lemma first_retrieval_cached : forall fuel pageId options d (s : State) operation r w',
    skipCache options = false ->
    d < effectiveMaxDepth options ->
    cache_has (pageCache s) (JStr pageId) = false ->
    findOperation env "API-retrieve-a-page" = Some operation ->
    executeOperation env operation (JObj [("page_id", JStr pageId)]) (world s)
    = (Resolved r, w') ->
    status r = 200 ->
    cache_has (pageCache (snd (retrievePageRecursively env fuel pageId options d s)))
              (JStr pageId) = true
    /\ page_calls pageId
         (calls (snd (retrievePageRecursively env fuel pageId options d s)))
       = (page_calls pageId (calls s) + 1)%nat.
Proof.
  intros fuel pageId options d s operation r w' Hs Hd Hc Hop Ex Hst.
  assert (Hm : (if skipCache options then None
                else cache_get (pageCache s) (JStr pageId)) = None).
  { rewrite Hs. unfold cache_has in Hc.
    destruct (cache_get (pageCache s) (JStr pageId)); [discriminate|reflexivity]. }
  rewrite (first_retrieval_state fuel pageId options d s operation r w'
             Hd Hm Hop Ex Hst).
  set (s1 := mkState _ _ _ _ _ _ _ _).
  assert (Hc1 : cache_has (pageCache s1) (JStr pageId) = true).
  { unfold s1, cache_has. cbn [pageCache]. rewrite cache_get_set_same. reflexivity. }
  pose proof (crawls_expand_page env false options Hs fuel
                (List.length (heap s)) pageId d s1) as [(l & E & G) Mono].
  split; [apply Mono; exact Hc1|].
  rewrite E. unfold s1 at 1. cbn [calls].
  rewrite !page_calls_app.
  rewrite (no_page_calls env false pageId s1 l eq_refl Hc1 G).
  unfold page_calls at 2. cbn [filter]. unfold is_page_call. cbn [call_params].
  rewrite value_eqb_refl. cbn [List.length]. lia.
Qed.

(** C6 (amended): with [skipCache = false], a run that finds the root page
    in the cache makes no document-retrieval call for it; a run that does
    not find it makes one, and when that call is answered with status 200
    the page is cached, so that a second run makes none: exactly one call
    for the two runs.  (A retrieval that fails caches nothing.)  With
    [skipCache = true], every run that is within the depth limit and finds
    the retrieval operation sends a fresh document-retrieval call, whatever
    the cache holds. *)
Theorem C6_root_page_cache_and_fresh_retrieval :
  forall fuel params (s : State),
    (skipCache (options_of params) = false ->
     cache_has (pageCache s) (JStr (page_id params)) = true ->
     page_calls (page_id params)
       (calls (snd (handleOnePagerRequest env fuel params s)))
     = page_calls (page_id params) (calls s))
    /\
    (forall operation r w' fuel2 params2,
        skipCache (options_of params) = false ->
        0 < effectiveMaxDepth (options_of params) ->
        cache_has (pageCache s) (JStr (page_id params)) = false ->
        findOperation env "API-retrieve-a-page" = Some operation ->
        executeOperation env operation
          (JObj [("page_id", JStr (page_id params))]) (world s)
        = (Resolved r, w') ->
        status r = 200 ->
        page_id params2 = page_id params ->
        skipCache (options_of params2) = false ->
        page_calls (page_id params)
          (calls (snd (handleOnePagerRequest env fuel params s)))
        = (page_calls (page_id params) (calls s) + 1)%nat
        /\ page_calls (page_id params)
             (calls (snd (handleOnePagerRequest env fuel2 params2
                            (snd (handleOnePagerRequest env fuel params s)))))
           = (page_calls (page_id params) (calls s) + 1)%nat)
    /\
    (forall operation,
        skipCache (options_of params) = true ->
        0 < effectiveMaxDepth (options_of params) ->
        findOperation env "API-retrieve-a-page" = Some operation ->
        exists rest,
          calls (snd (handleOnePagerRequest env fuel params s))
          = (calls s
               ++ mkCall operation (JObj [("page_id", JStr (page_id params))])
               :: rest)%list).
Proof.
  intros fuel params s. split; [|split].
  - apply served_from_cache.
  - intros operation r w' fuel2 params2 Hs Hd Hc Hop Ex Hst Hid Hs2.
    destruct (first_retrieval_cached fuel (page_id params) (options_of params) 0 s
                operation r w' Hs Hd Hc Hop Ex Hst) as [C1 N1].
    rewrite <- one_pager_state in C1, N1.
    split; [exact N1|].
    rewrite <- Hid. rewrite served_from_cache.
    + rewrite Hid. exact N1.
    + exact Hs2.
    + rewrite Hid. exact C1.
  - intros operation Hs Hd Hop.
    rewrite one_pager_state.
    apply fresh_retrieval; [exact Hd| |exact Hop].
    rewrite Hs. reflexivity.
Qed.

End RootRetrievalFacts.

(** ** Stored pages *)

Lemma heap_get_fresh : forall W (s : State (W := W)) k v,
    pageCache_get (snd (pageCache_set k v s)) k = v.
Proof.
  intros W s k v. unfold pageCache_get, pageCache_set. cbn [snd pageCache].
  rewrite cache_get_set_same. unfold heap_get. cbn [heap].
  rewrite app_nth2 by lia. rewrite Nat.sub_diag. reflexivity.
Qed.

(** ** More on the pagination merge *)

Section PaginationExtras.

Context {W : Type}.
Variable env : Collaborators W.

Lemma page_of_listing : forall d items,
    prop d "results" = JArr items ->
    page_of_outcome (Resolved (mkResponse 200 d))
    = Some (JArr items, prop d "next_cursor").
Proof.
  intros d items H. unfold page_of_outcome. cbn [status data Z.eqb Pos.eqb].
  destruct (nullish d) eqn:N.
  - destruct d; try discriminate N; discriminate H.
  - rewrite H. reflexivity.
Qed.

(** X10: One round of the merge loop. When the remote side answers the
    request for the page after a cursor with status 200 and the items
    [items], the loop sends that request five times and appends [items] five
    times to what it has gathered; it then goes on from the cursor of that
    page, or returns when the page has none. *)
Theorem X10_round_fetches_and_appends_a_page_five_times :
  forall op params gathered c d items fuel (s : State (W := W)),
    truthy c = true ->
    (forall w,
        fst (executeOperation env op (spread_set params "start_cursor" c) w)
        = Resolved (mkResponse 200 d)) ->
    prop d "results" = JArr items ->
    exists s',
      pagination_loop env (5 + fuel) op params (JArr gathered) c [] s
      = (if truthy (prop d "next_cursor")
         then pagination_loop env fuel op params
                (JArr (gathered ++ List.concat (repeat items 5)))
                (prop d "next_cursor") [] s'
         else (Ret (JArr (gathered ++ List.concat (repeat items 5))), s'))
      /\ calls s'
         = (calls s
              ++ repeat (mkCall op (spread_set params "start_cursor" c)) 5)%list
      /\ List.length (List.concat (repeat items 5))
         = (5 * List.length items)%nat.
Proof.
  intros op params gathered c d items fuel s Hc Hans Hres.
  destruct (loop_round_repeats_page env op params gathered c items
              (prop d "next_cursor") Hc) with (k := 5%nat) (n := 0%nat)
              (fuel := fuel) (s := s) as (s' & Run & Log); try lia.
  - intros w. rewrite Hans. apply page_of_listing. exact Hres.
  - exists s'. split; [exact Run|]. split; [exact Log|].
    cbn [repeat List.concat]. rewrite !length_app. cbn [List.length]. lia.
Qed.

Lemma first_page_other_status :
  forall fuel op params (s : State (W := W)) r w',
    executeOperation env op params (world s) = (Resolved r, w') ->
    status r <> 200 ->
    handleBlockChildrenParallel env fuel op params s
    = (Ret (mkToolResult (JSON_stringify (data r))), called s op params w').
Proof.
  intros fuel op params s r w' Ex Hst. unfold handleBlockChildrenParallel.
  unfold bind at 1. unfold call_executeOperation. rewrite Ex.
  unfold bind at 1. cbn [await ret].
  apply Z.eqb_neq in Hst. rewrite Hst. reflexivity.
Qed.

(** X11: What the first page decides. An answer with a status other than 200
    is returned as it is, body and all, as if it were the listing; an answer
    with status 200 and no body makes the merge throw a [TypeError]; an
    answer with status 200 and no next cursor is the whole listing: its body
    with [has_more] and [next_cursor] reset. In each case the one request is
    the only remote call and no cache is touched. *)
Theorem X11_first_page_decides :
  forall fuel op params (s : State (W := W)) r w',
    executeOperation env op params (world s) = (Resolved r, w') ->
    (status r <> 200 ->
     handleBlockChildrenParallel env fuel op params s
     = (Ret (mkToolResult (JSON_stringify (data r))), called s op params w'))
    /\ (status r = 200 -> nullish (data r) = true ->
        handleBlockChildrenParallel env fuel op params s
        = (Throw (TypeError_read (data r) "results"), called s op params w'))
    /\ (status r = 200 -> nullish (data r) = false ->
        truthy (prop (data r) "next_cursor") = false ->
        handleBlockChildrenParallel env fuel op params s
        = (Ret (mkToolResult
                  (JSON_stringify
                     (mergedResponse (data r)
                        (js_or (prop (data r) "results") (JArr []))))),
           called s op params w')).
Proof.
  intros fuel op params s r w' Ex. split; [|split].
  - intros Hst. apply first_page_other_status; assumption.
  - intros Hst Hd. unfold handleBlockChildrenParallel.
    unfold bind at 1. unfold call_executeOperation. rewrite Ex.
    unfold bind at 1. cbn [await ret].
    rewrite Hst, Hd. reflexivity.
  - intros Hst Hd Hc.
    rewrite (handle_after_first_page env fuel op params s r w' Ex Hst Hd).
    unfold bind. fold (called s op params w').
    destruct fuel; cbn [pagination_loop]; rewrite Hc; reflexivity.
Qed.

Lemma loop_frame : forall fuel op params results c reqs (s : State (W := W)),
    exists w' l,
      snd (pagination_loop env fuel op params results c reqs s)
      = mkState w' (heap s) (pageCache s) (blockCache s) (databaseCache s)
                (commentCache s) (propertyCache s) (calls s ++ l)%list
      /\ Forall (later_page_call op params) l
      /\ (List.length l <= fuel)%nat.
Proof.
  assert (Same : forall s : State (W := W),
             s = mkState (world s) (heap s) (pageCache s) (blockCache s)
                         (databaseCache s) (commentCache s) (propertyCache s)
                         (calls s ++ [])%list).
  { intros [w h pc bc dc cc prc cs]. cbn. rewrite app_nil_r. reflexivity. }
  induction fuel as [|fuel IH]; intros op params results c reqs s.
  - exists (world s), []. cbn [pagination_loop].
    destruct (negb (truthy c)); cbn [snd ret hang];
      (split; [apply Same | split; [constructor | cbn; lia]]).
  - destruct (truthy c) eqn:Hc.
    2:{ exists (world s), []. cbn [pagination_loop]. rewrite Hc.
        cbn [negb snd ret]. split; [apply Same | split; [constructor | cbn; lia]]. }
    rewrite pagination_loop_step by exact Hc.
    unfold bind at 1. unfold call_executeOperation.
    destruct (executeOperation env op (spread_set params "start_cursor" c)
                (world s)) as [o w1].
    set (s1 := mkState w1 (heap s) (pageCache s) (blockCache s) (databaseCache s)
                       (commentCache s) (propertyCache s)
                       (calls s ++ [mkCall op (spread_set params "start_cursor" c)])%list).
    assert (Hcall : later_page_call op params
                      (mkCall op (spread_set params "start_cursor" c))).
    { split; [reflexivity|]. exists c. split; [exact Hc | reflexivity]. }
    assert (Stop : forall (r : Result JsValue),
               exists w' l,
                 snd (r, s1)
                 = mkState w' (heap s) (pageCache s) (blockCache s)
                           (databaseCache s) (commentCache s) (propertyCache s)
                           (calls s ++ l)%list
                 /\ Forall (later_page_call op params) l
                 /\ (List.length l <= S fuel)%nat).
    { intros r. exists w1, [mkCall op (spread_set params "start_cursor" c)].
      split; [reflexivity|]. split; [constructor; [exact Hcall|constructor]|].
      cbn. lia. }
    assert (Go : forall results' c' reqs',
               exists w' l,
                 snd (pagination_loop env fuel op params results' c' reqs' s1)
                 = mkState w' (heap s) (pageCache s) (blockCache s)
                           (databaseCache s) (commentCache s) (propertyCache s)
                           (calls s ++ l)%list
                 /\ Forall (later_page_call op params) l
                 /\ (List.length l <= S fuel)%nat).
    { intros results' c' reqs'.
      destruct (IH op params results' c' reqs' s1) as (w' & l & E & F & L).
      exists w', (mkCall op (spread_set params "start_cursor" c) :: l).
      split; [|split].
      - rewrite E. unfold s1. cbn [heap pageCache blockCache databaseCache
                                     commentCache propertyCache calls].
        rewrite <- app_assoc. reflexivity.
      - constructor; assumption.
      - cbn. lia. }
    destruct (maxParallelRequests_pages
              <=? List.length (reqs ++ [page_of_outcome o]))%nat.
    + destruct (all_pages (reqs ++ [page_of_outcome o])) as [ps|];
        [|apply Stop].
      unfold bind, lift.
      destruct (merge_pages results c ps) as [[r' c']|e| |];
        try apply Stop.
      cbn [fst snd]. destruct (negb (truthy c')); [apply Stop | apply Go].
    + apply Go.
Qed.

(** X12: The merge never touches a cache or the page store: a run changes
    the remote side and the log of calls, and nothing else. Its calls are
    the first request, with the arguments as given, followed by requests for
    later pages, each with the arguments plus a [start_cursor]. *)
Theorem X12_merge_writes_no_cache :
  forall fuel op params (s : State (W := W)),
    exists w' l,
      snd (handleBlockChildrenParallel env fuel op params s)
      = mkState w' (heap s) (pageCache s) (blockCache s) (databaseCache s)
                (commentCache s) (propertyCache s)
                (calls s ++ mkCall op params :: l)%list
      /\ Forall (later_page_call op params) l
      /\ (List.length l <= fuel)%nat.
Proof.
  intros fuel op params s. unfold handleBlockChildrenParallel.
  unfold bind at 1. unfold call_executeOperation.
  destruct (executeOperation env op params (world s)) as [o w1].
  fold (called s op params w1).
  assert (Stop : forall (r : Result ToolResult),
             exists w' l,
               snd (r, called s op params w1)
               = mkState w' (heap s) (pageCache s) (blockCache s)
                         (databaseCache s) (commentCache s) (propertyCache s)
                         (calls s ++ mkCall op params :: l)%list
               /\ Forall (later_page_call op params) l
               /\ (List.length l <= fuel)%nat).
  { intros r. exists w1, []. split; [reflexivity|].
    split; [constructor | cbn; lia]. }
  destruct o as [r|e|]; unfold bind at 1; cbn [await ret throw hang];
    try apply Stop.
  destruct (negb (status r =? 200)); [apply Stop|].
  destruct (nullish (data r)); [apply Stop|].
  unfold bind.
  match goal with
  | |- context [pagination_loop env fuel op params ?a ?c [] ?st] =>
      destruct (loop_frame fuel op params a c [] st) as (w' & l & E & F & L);
      destruct (pagination_loop env fuel op params a c [] st) as [res st']
  end.
  cbn [snd] in E. subst st'.
  exists w', l. split; [|split; assumption].
  destruct res; cbn [snd ret heap pageCache blockCache databaseCache commentCache
                       propertyCache calls called];
    rewrite <- app_assoc; reflexivity.
Qed.

End PaginationExtras.

Section EndlessListing.

Context {W : Type}.
Variable env : Collaborators W.

Lemma all_pages_go_on : forall reqs,
    Forall goes_on reqs ->
    exists ps,
      all_pages reqs = Some ps
      /\ List.length ps = List.length reqs
      /\ Forall (fun p => goes_on (Some p)) ps.
Proof.
  induction reqs as [|q reqs IH]; intros H.
  - exists []. repeat split; constructor.
  - inversion H as [|? ? Hq Hr]. subst.
    destruct (IH Hr) as (ps & E & L & F).
    destruct Hq as (items & cursor & -> & Hc).
    exists ((JArr items, cursor) :: ps). cbn [all_pages]. rewrite E.
    split; [reflexivity|]. split; [cbn; lia|].
    constructor; [|exact F]. exists items, cursor. split; [reflexivity|exact Hc].
Qed.

Lemma merge_goes_on : forall ps gathered c,
    Forall (fun p => goes_on (Some p)) ps ->
    truthy c = true ->
    exists gathered' c',
      merge_pages (JArr gathered) c ps = Ret (JArr gathered', c')
      /\ truthy c' = true.
Proof.
  induction ps as [|[r cur] ps IH]; intros gathered c H Hc.
  - exists gathered, c. split; [reflexivity | exact Hc].
  - inversion H as [|? ? Hp Hr]. subst.
    destruct Hp as (items & cursor & E & Ht). inversion E. subst.
    cbn [merge_pages js_push js_spread_items]. rewrite Ht.
    apply IH; assumption.
Qed.

Lemma endless_loop : forall op params,
    endless env op ->
    forall fuel gathered c reqs (s : State (W := W)),
      truthy c = true ->
      Forall goes_on reqs ->
      fst (pagination_loop env fuel op params (JArr gathered) c reqs s) = Hang
      /\ List.length (calls (snd (pagination_loop env fuel op params
                                    (JArr gathered) c reqs s)))
         = (List.length (calls s) + fuel)%nat.
Proof.
  intros op params He.
  induction fuel as [|fuel IH]; intros gathered c reqs s Hc Hr.
  - cbn [pagination_loop]. rewrite Hc. cbn. split; [reflexivity | lia].
  - rewrite pagination_loop_step by exact Hc.
    unfold bind at 1 3. unfold call_executeOperation.
    destruct (He (spread_set params "start_cursor" c) (world s))
      as (r & items & Ex & Hst & Hres & Hnext).
    destruct (executeOperation env op (spread_set params "start_cursor" c)
                (world s)) as [o w1].
    cbn [fst] in Ex. subst o.
    assert (Hq : goes_on (page_of_outcome (Resolved r))).
    { exists items, (prop (data r) "next_cursor"). split; [|exact Hnext].
      destruct r as [st d]. cbn [status data] in *. subst st.
      apply page_of_listing. exact Hres. }
    assert (Hall : Forall goes_on (reqs ++ [page_of_outcome (Resolved r)])).
    { apply Forall_app. split; [exact Hr|]. constructor; [exact Hq|constructor]. }
    set (s1 := mkState w1 (heap s) (pageCache s) (blockCache s) (databaseCache s)
                       (commentCache s) (propertyCache s)
                       (calls s ++ [mkCall op (spread_set params "start_cursor" c)])%list).
    assert (Hlen : List.length (calls s1) = S (List.length (calls s))).
    { unfold s1. cbn [calls]. rewrite length_app. cbn. lia. }
    destruct (maxParallelRequests_pages
              <=? List.length (reqs ++ [page_of_outcome (Resolved r)]))%nat.
    + destruct (all_pages_go_on _ Hall) as (ps & E & _ & F).
      rewrite E. unfold bind, lift.
      destruct (merge_goes_on ps gathered c F Hc) as (g' & c' & M & Hc').
      rewrite M. cbn [fst snd]. rewrite Hc'. cbn [negb].
      destruct (IH g' c' [] s1 Hc' (Forall_nil _)) as [I1 I2].
      rewrite I1, I2, Hlen. split; [reflexivity | lia].
    + destruct (IH gathered c (reqs ++ [page_of_outcome (Resolved r)])%list s1
                  Hc Hall) as [I1 I2].
      rewrite I1, I2, Hlen. split; [reflexivity | lia].
Qed.

(** X13: The merge has no limit on the number of pages. Against a listing
    that never ends (every page, also the first, comes with a next cursor)
    it does not return, however long the caller waits: each unit of waiting
    is one more request. *)
Theorem X13_merge_has_no_page_limit :
  forall op params fuel (s : State (W := W)),
    endless env op ->
    fst (handleBlockChildrenParallel env fuel op params s) = Hang
    /\ List.length (calls (snd (handleBlockChildrenParallel env fuel op params s)))
       = (List.length (calls s) + 1 + fuel)%nat.
Proof.
  intros op params fuel s He.
  destruct (He params (world s)) as (r & items & Ex & Hst & Hres & Hnext).
  destruct (executeOperation env op params (world s)) as [o w1] eqn:E.
  cbn [fst] in Ex. subst o.
  assert (Hd : nullish (data r) = false).
  { destruct (data r); try reflexivity; discriminate Hres. }
  rewrite (handle_after_first_page env fuel op params s r w1 E Hst Hd).
  rewrite Hres. cbn [js_or truthy]. unfold bind.
  match goal with
  | |- context [pagination_loop env fuel op params (JArr items) ?c [] ?st] =>
      destruct (endless_loop op params He fuel items c [] st Hnext
                  (Forall_nil _)) as [I1 I2];
      destruct (pagination_loop env fuel op params (JArr items) c [] st)
        as [res st']
  end.
  cbn [fst snd] in *. subst res. cbn [fst snd]. rewrite I2.
  cbn [calls]. rewrite length_app. cbn. split; [reflexivity | lia].
Qed.

End EndlessListing.

(** ** The helper retrievals *)

Section HelperFacts.

Context {W : Type}.
Variable env : Collaborators W.

Lemma database_miss : forall databaseId options (s : State (W := W)),
    (skipCache options = true
     \/ cache_get (databaseCache s) databaseId = None) ->
    negb (skipCache options) && cache_has (databaseCache s) databaseId = false.
Proof.
  intros databaseId options s [-> | H]; [reflexivity|].
  unfold cache_has. rewrite H. apply andb_false_r.
Qed.

Lemma retrieveDatabase_asks :
  forall databaseId options (s : State (W := W)) operation o w',
    (skipCache options = true
     \/ cache_get (databaseCache s) databaseId = None) ->
    findOperation env "API-retrieve-a-database" = Some operation ->
    executeOperation env operation (JObj [("database_id", databaseId)])
                     (world s) = (o, w') ->
    retrieveDatabase env databaseId options s
    = match o with
      | Resolved r =>
          if status r =? 200
          then (Ret (data r),
                snd (databaseCache_set databaseId (data r)
                       (called s operation
                          (JObj [("database_id", databaseId)]) w')))
          else (Ret (database_failed databaseId),
                called s operation (JObj [("database_id", databaseId)]) w')
      | Rejected _ =>
          (Ret (database_failed databaseId),
           called s operation (JObj [("database_id", databaseId)]) w')
      | Pending =>
          (Hang, called s operation (JObj [("database_id", databaseId)]) w')
      end.
Proof.
  intros databaseId options s operation o w' Hm Hf Ex.
  unfold retrieveDatabase. unfold bind at 1. cbn [get_state].
  rewrite (database_miss databaseId options s Hm), Hf.
  unfold try_catch. unfold bind at 1. unfold call_executeOperation.
  rewrite Ex. fold (called s operation (JObj [("database_id", databaseId)]) w').
  destruct o as [r|e|]; [|reflexivity|reflexivity].
  unfold bind at 1. cbn [await ret].
  destruct (status r =? 200); reflexivity.
Qed.

(** X14: [retrieveDatabase] never throws. When it asks the remote side, it
    asks once; an answer with status 200 is returned and cached under the
    identifier asked for; a rejection and an answer with another status both
    give [{id, error: "Failed to retrieve database"}], without the cause and
    without a cache entry; a missing operation gives a note and no call. *)
Theorem X14_retrieveDatabase_contains_failures :
  forall databaseId options (s : State (W := W)),
    (forall e, fst (retrieveDatabase env databaseId options s) <> Throw e)
    /\ ((skipCache options = true
         \/ cache_get (databaseCache s) databaseId = None) ->
        (findOperation env "API-retrieve-a-database" = None ->
         retrieveDatabase env databaseId options s
         = (Ret (JObj [("id", databaseId);
                       ("note", JStr "Database details not available")]), s))
        /\ (forall operation o w',
               findOperation env "API-retrieve-a-database" = Some operation ->
               executeOperation env operation
                 (JObj [("database_id", databaseId)]) (world s) = (o, w') ->
               retrieveDatabase env databaseId options s
               = match o with
                 | Resolved r =>
                     if status r =? 200
                     then (Ret (data r),
                           snd (databaseCache_set databaseId (data r)
                                  (called s operation
                                     (JObj [("database_id", databaseId)]) w')))
                     else (Ret (database_failed databaseId),
                           called s operation
                             (JObj [("database_id", databaseId)]) w')
                 | Rejected _ =>
                     (Ret (database_failed databaseId),
                      called s operation (JObj [("database_id", databaseId)]) w')
                 | Pending =>
                     (Hang,
                      called s operation (JObj [("database_id", databaseId)]) w')
                 end)).
Proof.
  intros databaseId options s. split.
  - intros e. unfold retrieveDatabase. unfold bind at 1. cbn [get_state].
    destruct (negb (skipCache options) && cache_has (databaseCache s) databaseId);
      [cbn; discriminate|].
    destruct (findOperation env "API-retrieve-a-database") as [operation|];
      [|cbn; discriminate].
    unfold try_catch.
    match goal with
    | |- context [let (r, s') := ?m s in _] => destruct (m s) as [[a|e'| |] s1]
    end; cbn; discriminate.
  - intros Hm. split.
    + intros Hf. unfold retrieveDatabase. unfold bind at 1. cbn [get_state].
      rewrite (database_miss databaseId options s Hm), Hf. reflexivity.
    + intros operation o w' Hf Ex.
      apply retrieveDatabase_asks; assumption.
Qed.

(** X15: A database that was retrieved is served from the cache afterwards:
    after a retrieval answered with status 200, a retrieval of the same
    identifier with [skipCache = false] returns the same data, makes no
    remote call and changes nothing. *)
Theorem X15_retrieveDatabase_serves_from_cache :
  forall databaseId options options' (s : State (W := W)) operation r w',
    (skipCache options = true
     \/ cache_get (databaseCache s) databaseId = None) ->
    findOperation env "API-retrieve-a-database" = Some operation ->
    executeOperation env operation (JObj [("database_id", databaseId)])
                     (world s) = (Resolved r, w') ->
    status r = 200 ->
    skipCache options' = false ->
    fst (retrieveDatabase env databaseId options s) = Ret (data r)
    /\ retrieveDatabase env databaseId options'
         (snd (retrieveDatabase env databaseId options s))
       = (Ret (data r), snd (retrieveDatabase env databaseId options s)).
Proof.
  intros databaseId options options' s operation r w' Hm Hf Ex Hst Hs.
  rewrite (retrieveDatabase_asks databaseId options s operation (Resolved r) w'
             Hm Hf Ex).
  rewrite Hst. cbn [Z.eqb Pos.eqb fst snd]. split; [reflexivity|].
  unfold retrieveDatabase at 1. unfold bind at 1. cbn [get_state].
  rewrite Hs. unfold cache_has. cbn [databaseCache_set snd databaseCache negb andb].
  rewrite cache_get_set_same. reflexivity.
Qed.

Lemma cache_comments_frame : forall comments (s : State (W := W)),
    calls (snd (cache_comments comments s)) = calls s
    /\ world (snd (cache_comments comments s)) = world s
    /\ fst (cache_comments comments s) <> Hang
    /\ fst (cache_comments comments s) <> Diverge
    /\ (Forall (fun c => nullish c = false) comments ->
        fst (cache_comments comments s) = Ret tt).
Proof.
  induction comments as [|c comments IH]; intros s.
  - cbn. repeat split; try discriminate.
  - cbn [cache_comments]. destruct (nullish c) eqn:N.
    + cbn. repeat split; try discriminate.
      intros H. inversion H. congruence.
    + unfold bind.
      destruct (truthy (prop c "id")).
      * cbn [commentCache_set].
        match goal with
        | |- context [cache_comments comments ?st] =>
            destruct (IH st) as (A & B & C & D & E)
        end.
        cbn [calls world] in A, B.
        repeat split; try assumption.
        intros H. inversion H. auto.
      * cbn [ret].
        destruct (IH s) as (A & B & C & D & E).
        repeat split; try assumption.
        intros H. inversion H. auto.
Qed.

(** X16: [retrieveComments] never throws and keeps no listing: whenever the
    operation is found it asks the remote side, exactly once, whatever the
    caches hold and whatever the options say. A rejection, an answer with
    another status, and a [results] that is no array all give [{results:
    []}]; a listing of comments is returned as it came. *)
Theorem X16_retrieveComments_always_asks_and_never_throws :
  forall blockId options (s : State (W := W)),
    (forall e, fst (retrieveComments env blockId options s) <> Throw e)
    /\ (findOperation env "API-retrieve-a-comment" = None ->
        retrieveComments env blockId options s = (Ret no_comments, s))
    /\ (forall operation o w',
           findOperation env "API-retrieve-a-comment" = Some operation ->
           executeOperation env operation (JObj [("block_id", blockId)])
                            (world s) = (o, w') ->
           calls (snd (retrieveComments env blockId options s))
           = (calls s ++ [mkCall operation (JObj [("block_id", blockId)])])%list
           /\ match o with
              | Rejected _ =>
                  fst (retrieveComments env blockId options s) = Ret no_comments
              | Resolved r =>
                  (status r <> 200 ->
                   fst (retrieveComments env blockId options s)
                   = Ret no_comments)
                  /\ (forall v,
                         status r = 200 ->
                         prop (data r) "results" = v ->
                         truthy v = true ->
                         (forall l, v <> JArr l) ->
                         fst (retrieveComments env blockId options s)
                         = Ret no_comments)
                  /\ (forall l,
                         status r = 200 ->
                         prop (data r) "results" = JArr l ->
                         Forall (fun c => nullish c = false) l ->
                         fst (retrieveComments env blockId options s)
                         = Ret (data r))
              | Pending =>
                  fst (retrieveComments env blockId options s) = Hang
              end).
Proof.
  intros blockId options s. split; [|split].
  - intros e. unfold retrieveComments.
    destruct (findOperation env "API-retrieve-a-comment") as [operation|];
      [|cbn; discriminate].
    unfold try_catch.
    match goal with
    | |- context [let (r, s') := ?m s in _] => destruct (m s) as [[a|e'| |] s1]
    end; cbn; discriminate.
  - intros Hf. unfold retrieveComments. rewrite Hf. reflexivity.
  - intros operation o w' Hf Ex.
    destruct (retrieveComments env blockId options s) as [res st] eqn:Run.
    cbn [fst snd]. revert Run.
    unfold retrieveComments. rewrite Hf. unfold try_catch.
    unfold bind at 1. unfold call_executeOperation. rewrite Ex.
    fold (called s operation (JObj [("block_id", blockId)]) w').
    destruct o as [r|e|];
      [|intros Run; inversion Run; split; reflexivity
       |intros Run; inversion Run; split; reflexivity].
    unfold bind at 1. cbn [await ret].
    destruct (status r =? 200) eqn:Hst; cbn [negb].
    2:{ apply Z.eqb_neq in Hst. intros Run. inversion Run.
        split; [reflexivity|].
        split; [reflexivity|]. split; intros; congruence. }
    apply Z.eqb_eq in Hst.
    unfold get_prop.
    destruct (nullish (data r)) eqn:Hn.
    { intros Run. inversion Run. split; [reflexivity|]. split; [congruence|].
      split.
      - intros v _ Hv Ht. destruct (data r); try discriminate Hn;
          cbn in Hv; subst v; discriminate Ht.
      - intros l _ Hl. destruct (data r); try discriminate Hn; discriminate Hl. }
    unfold bind at 1. cbn [lift].
    destruct (truthy (prop (data r) "results")) eqn:Ht.
    2:{ intros Run. inversion Run. split; [reflexivity|].
        split; [congruence|]. split.
        - intros v _ Hv Hv'. congruence.
        - intros l _ Hl. rewrite Hl in Ht. discriminate Ht. }
    destruct (prop (data r) "results") as [| |b|z|str|l|fs] eqn:Hres;
      try (intros Run; inversion Run; split; [reflexivity|];
           split; [congruence|]; split;
           [intros; reflexivity | intros; discriminate]).
    destruct (cache_comments_frame l
                (called s operation (JObj [("block_id", blockId)]) w'))
      as (A & B & C & D & E).
    unfold bind.
    destruct (cache_comments l
                (called s operation (JObj [("block_id", blockId)]) w'))
      as [[[]|e| |] s1]; cbn [fst snd] in *; try contradiction.
    + intros Run. inversion Run. subst. split; [exact A|].
      split; [congruence|]. split.
      * intros v _ Hv _ Hnot. exfalso. apply (Hnot l). symmetry. exact Hv.
      * intros; reflexivity.
    + intros Run. inversion Run. subst. split; [exact A|].
      split; [congruence|]. split.
      * intros; reflexivity.
      * intros l' _ Hl' F. inversion Hl'. subst l'.
        specialize (E F). discriminate E.
Qed.

End HelperFacts.

Section PageInfoFacts.

Context {W : Type}.
Variable env : Collaborators W.

Lemma page_miss : forall pageId options (s : State (W := W)),
    (skipCache options = true \/ cache_has (pageCache s) pageId = false) ->
    negb (skipCache options) && cache_has (pageCache s) pageId = false.
Proof.
  intros pageId options s [-> | ->]; [reflexivity | apply andb_false_r].
Qed.

Lemma retrievePageBasicInfo_asks :
  forall pageId options (s : State (W := W)) operation o w',
    (skipCache options = true \/ cache_has (pageCache s) pageId = false) ->
    findOperation env "API-retrieve-a-page" = Some operation ->
    executeOperation env operation (JObj [("page_id", pageId)]) (world s)
    = (o, w') ->
    retrievePageBasicInfo env pageId options s
    = match o with
      | Resolved r =>
          if status r =? 200
          then (Ret (if nullish (data r)
                     then JObj [("id", pageId);
                                ("error",
                                 JStr (err_message (TypeError_read (data r) "id")))]
                     else JObj [("id", prop (data r) "id");
                                ("title", basic_title (data r));
                                ("icon", prop (data r) "icon");
                                ("cover", prop (data r) "cover");
                                ("url", prop (data r) "url");
                                ("created_time", prop (data r) "created_time");
                                ("last_edited_time",
                                 prop (data r) "last_edited_time")]),
                snd (pageCache_set pageId (data r)
                       (called s operation (JObj [("page_id", pageId)]) w')))
          else (Ret (JObj [("id", pageId);
                           ("error", JStr "Failed to retrieve page");
                           ("status", JNum (status r))]),
                called s operation (JObj [("page_id", pageId)]) w')
      | Rejected error =>
          (Ret (JObj [("id", pageId); ("error", JStr (err_message error))]),
           called s operation (JObj [("page_id", pageId)]) w')
      | Pending => (Hang, called s operation (JObj [("page_id", pageId)]) w')
      end.
Proof.
  intros pageId options s operation o w' Hm Hf Ex.
  unfold retrievePageBasicInfo. unfold bind at 1. cbn [get_state].
  rewrite (page_miss pageId options s Hm), Hf.
  unfold try_catch. unfold bind at 1. unfold call_executeOperation.
  rewrite Ex. fold (called s operation (JObj [("page_id", pageId)]) w').
  destruct o as [r|e|]; [|reflexivity|reflexivity].
  unfold bind at 1. cbn [await ret].
  destruct (status r =? 200); [|reflexivity].
  cbn [negb]. unfold bind. cbn [pageCache_set].
  destruct (nullish (data r)); reflexivity.
Qed.

(** X17: The basic page information comes in two shapes. A page that is
    fetched (status 200, with a body) is answered with its creation and
    last-edit times and is put into the page cache; the same page asked for
    again with [skipCache = false] is answered from the cache, without a
    remote call, with [fromCache: true] in place of the two times. *)
Theorem X17_retrievePageBasicInfo_fresh_then_cached :
  forall pageId options options' (s : State (W := W)) operation r w',
    (skipCache options = true \/ cache_has (pageCache s) pageId = false) ->
    findOperation env "API-retrieve-a-page" = Some operation ->
    executeOperation env operation (JObj [("page_id", pageId)]) (world s)
    = (Resolved r, w') ->
    status r = 200 ->
    nullish (data r) = false ->
    skipCache options' = false ->
    fst (retrievePageBasicInfo env pageId options s)
    = Ret (JObj [("id", prop (data r) "id");
                 ("title", basic_title (data r));
                 ("icon", prop (data r) "icon");
                 ("cover", prop (data r) "cover");
                 ("url", prop (data r) "url");
                 ("created_time", prop (data r) "created_time");
                 ("last_edited_time", prop (data r) "last_edited_time")])
    /\ calls (snd (retrievePageBasicInfo env pageId options s))
       = (calls s ++ [mkCall operation (JObj [("page_id", pageId)])])%list
    /\ retrievePageBasicInfo env pageId options'
         (snd (retrievePageBasicInfo env pageId options s))
       = (Ret (JObj [("id", prop (data r) "id");
                     ("title", basic_title (data r));
                     ("icon", prop (data r) "icon");
                     ("cover", prop (data r) "cover");
                     ("url", prop (data r) "url");
                     ("fromCache", JBool true)]),
          snd (retrievePageBasicInfo env pageId options s)).
Proof.
  intros pageId options options' s operation r w' Hm Hf Ex Hst Hd Hs.
  rewrite (retrievePageBasicInfo_asks pageId options s operation (Resolved r) w'
             Hm Hf Ex).
  rewrite Hst, Hd. cbn [Z.eqb Pos.eqb fst snd]. split; [reflexivity|].
  split; [reflexivity|].
  unfold retrievePageBasicInfo at 1. unfold bind at 1. cbn [get_state].
  rewrite Hs. cbn [negb andb].
  rewrite heap_get_fresh.
  unfold cache_has, pageCache_set. cbn [snd pageCache].
  rewrite cache_get_set_same. rewrite Hd. reflexivity.
Qed.

(** X18: Failures of the basic page information. A missing operation, a
    rejection and an answer with another status are answered with a node
    that says so, and nothing is cached. An answer with status 200 and no
    body is answered with an error node too, but it is cached first: asked
    again with [skipCache = false], [retrievePageBasicInfo] finds the empty
    entry and throws a [TypeError], without asking the remote side. *)
Theorem X18_retrievePageBasicInfo_failures :
  forall pageId options (s : State (W := W)),
    (skipCache options = true \/ cache_has (pageCache s) pageId = false) ->
    (findOperation env "API-retrieve-a-page" = None ->
     retrievePageBasicInfo env pageId options s
     = (Ret (JObj [("id", pageId);
                   ("note", JStr "API-retrieve-a-page method not found")]), s))
    /\ (forall operation o w',
           findOperation env "API-retrieve-a-page" = Some operation ->
           executeOperation env operation (JObj [("page_id", pageId)]) (world s)
           = (o, w') ->
           (forall e, fst (retrievePageBasicInfo env pageId options s) <> Throw e)
           /\ (forall error,
                  o = Rejected error ->
                  retrievePageBasicInfo env pageId options s
                  = (Ret (JObj [("id", pageId);
                                ("error", JStr (err_message error))]),
                     called s operation (JObj [("page_id", pageId)]) w'))
           /\ (forall r,
                  o = Resolved r -> status r <> 200 ->
                  retrievePageBasicInfo env pageId options s
                  = (Ret (JObj [("id", pageId);
                                ("error", JStr "Failed to retrieve page");
                                ("status", JNum (status r))]),
                     called s operation (JObj [("page_id", pageId)]) w'))
           /\ (forall r options',
                  o = Resolved r -> status r = 200 ->
                  nullish (data r) = true ->
                  skipCache options' = false ->
                  fst (retrievePageBasicInfo env pageId options s)
                  = Ret (JObj [("id", pageId);
                               ("error",
                                JStr (err_message
                                        (TypeError_read (data r) "id")))])
                  /\ retrievePageBasicInfo env pageId options'
                       (snd (retrievePageBasicInfo env pageId options s))
                     = (Throw (TypeError_read (data r) "id"),
                        snd (retrievePageBasicInfo env pageId options s)))).
Proof.
  intros pageId options s Hm. split.
  - intros Hf. unfold retrievePageBasicInfo. unfold bind at 1. cbn [get_state].
    rewrite (page_miss pageId options s Hm), Hf. reflexivity.
  - intros operation o w' Hf Ex.
    rewrite (retrievePageBasicInfo_asks pageId options s operation o w' Hm Hf Ex).
    split; [|split; [|split]].
    + intros e. destruct o as [r|error|]; [|discriminate|discriminate].
      destruct (status r =? 200); discriminate.
    + intros error ->. reflexivity.
    + intros r -> Hst. apply Z.eqb_neq in Hst. rewrite Hst. reflexivity.
    + intros r options' -> Hst Hd Hs. rewrite Hst, Hd.
      cbn [Z.eqb Pos.eqb fst snd]. split; [reflexivity|].
      unfold retrievePageBasicInfo at 1. unfold bind at 1. cbn [get_state].
      rewrite Hs. cbn [negb andb].
      rewrite heap_get_fresh.
      unfold cache_has, pageCache_set. cbn [snd pageCache].
      rewrite cache_get_set_same. rewrite Hd. reflexivity.
Qed.

End PageInfoFacts.

(** ** More on property enrichment *)

Section PropertyExtras.

Context {W : Type}.
Variable env : Collaborators W.

Lemma property_miss : forall pageId id options (s : State (W := W)),
    (skipCache options = true
     \/ cache_get (propertyCache s) (property_key pageId id) = None) ->
    negb (skipCache options)
    && cache_has (propertyCache s) (JStr (pageId ++ ":" ++ id)) = false.
Proof.
  intros pageId id options s [-> | H]; [reflexivity|].
  unfold cache_has. unfold property_key in H. rewrite H. apply andb_false_r.
Qed.

Lemma property_task_asks :
  forall ref pageId options i propName id (s : State (W := W)) operation o w',
    (skipCache options = true
     \/ cache_get (propertyCache s) (property_key pageId id) = None) ->
    str_includes "notion://" id = false ->
    str_includes "%3A%2F%2F" id = false ->
    findOperation env "API-retrieve-a-page-property" = Some operation ->
    executeOperation env operation (property_params pageId (JStr id)) (world s)
    = (o, w') ->
    property_task env ref pageId options i propName (JStr id) s
    = match property_response o with
      | Resolved response =>
          if status response =? 200
          then (Ret tt,
                snd (propertyCache_set (property_key pageId id) (data response)
                       (snd (set_details ref i (data response)
                               (called s operation
                                  (property_params pageId (JStr id)) w')))))
          else (Ret tt,
                snd (set_details ref i (status_stub env response)
                       (called s operation
                          (property_params pageId (JStr id)) w')))
      | Rejected error =>
          (Ret tt,
           snd (set_details ref i
                  (error_details (JObj [("message", JStr (err_message error))]))
                  (called s operation (property_params pageId (JStr id)) w')))
      | Pending =>
          (Hang, called s operation (property_params pageId (JStr id)) w')
      end.
Proof.
  intros ref pageId options i propName id s operation o w' Hm H1 H2 Hf Ex.
  unfold property_task, try_catch. unfold bind at 1. cbn [get_state js_to_string].
  rewrite (property_miss pageId id options s Hm).
  unfold bind at 1. cbn [lift propId_includes]. rewrite H1.
  unfold bind at 1. cbn [lift propId_includes]. rewrite H2, Hf.
  unfold bind at 1. unfold call_executeOperation.
  fold (property_params pageId (JStr id)). rewrite Ex.
  fold (called s operation (property_params pageId (JStr id)) w').
  destruct (property_response o) as [response|error|]; [|reflexivity|reflexivity].
  unfold bind at 1. cbn [await ret].
  destruct (status response =? 200); [|reflexivity].
  unfold bind. reflexivity.
Qed.

(** X19: A property is fetched once. When the request for a property is
    answered with status 200, the answer is written into the page object as
    the property's [details] and cached under [<pageId>:<propId>]; the next
    enrichment of that property with [skipCache = false] writes the same
    [details] from the cache and makes no remote call. *)
Theorem X19_property_is_fetched_once_then_cached :
  forall ref pageId options options' i propName id (s : State (W := W))
         operation r w',
    (skipCache options = true
     \/ cache_get (propertyCache s) (property_key pageId id) = None) ->
    str_includes "notion://" id = false ->
    str_includes "%3A%2F%2F" id = false ->
    findOperation env "API-retrieve-a-page-property" = Some operation ->
    executeOperation env operation (property_params pageId (JStr id)) (world s)
    = (Resolved r, w') ->
    status r = 200 ->
    skipCache options' = false ->
    property_task env ref pageId options i propName (JStr id) s
    = (Ret tt,
       snd (propertyCache_set (property_key pageId id) (data r)
              (snd (set_details ref i (data r)
                      (called s operation (property_params pageId (JStr id)) w')))))
    /\ heap_get (snd (property_task env ref pageId options i propName (JStr id) s))
                ref
       = decorate i (data r) (heap_get s ref)
    /\ cache_get
         (propertyCache
            (snd (property_task env ref pageId options i propName (JStr id) s)))
         (property_key pageId id) = Some (data r)
    /\ property_task env ref pageId options' i propName (JStr id)
         (snd (property_task env ref pageId options i propName (JStr id) s))
       = (Ret tt,
          snd (set_details ref i (data r)
                 (snd (property_task env ref pageId options i propName
                         (JStr id) s)))).
Proof.
  intros ref pageId options options' i propName id s operation r w'
         Hm H1 H2 Hf Ex Hst Hs.
  rewrite (property_task_asks ref pageId options i propName id s operation
             (Resolved r) w' Hm H1 H2 Hf Ex).
  cbn [property_response]. rewrite Hst. cbn [Z.eqb Pos.eqb snd].
  split; [reflexivity|]. split; [|split].
  - cbn [propertyCache_set snd]. unfold heap_get. cbn [heap].
    change (nth ref (heap (snd (set_details ref i (data r)
                                  (called s operation
                                     (property_params pageId (JStr id)) w'))))
                JUndef)
      with (heap_get (snd (heap_update ref (decorate i (data r))
                             (called s operation
                                (property_params pageId (JStr id)) w'))) ref).
    rewrite heap_update_get by reflexivity. reflexivity.
  - cbn [propertyCache_set snd propertyCache]. apply cache_get_set_same.
  - unfold property_task at 1. unfold try_catch. unfold bind at 1.
    cbn [get_state js_to_string]. rewrite Hs. cbn [negb andb].
    unfold cache_has. cbn [propertyCache_set snd propertyCache].
    unfold property_key. rewrite cache_get_set_same.
    unfold set_details, heap_update. reflexivity.
Qed.

(** X20: A property whose request fails gets a stub of type ["error"] as its
    [details], and nothing is cached, so that the next enrichment asks
    again. For an answer with a status other than 200 the stub carries the
    status and the body as a JSON text; a rejection is first turned into an
    answer with the status of the error (500 when it has none) and then
    treated the same. The task of a property never throws. *)
Theorem X20_property_failure_is_a_stub_and_is_not_cached :
  forall ref pageId options i propName id (s : State (W := W)) operation o w',
    (skipCache options = true
     \/ cache_get (propertyCache s) (property_key pageId id) = None) ->
    str_includes "notion://" id = false ->
    str_includes "%3A%2F%2F" id = false ->
    findOperation env "API-retrieve-a-page-property" = Some operation ->
    executeOperation env operation (property_params pageId (JStr id)) (world s)
    = (o, w') ->
    (forall propId s0 e,
        fst (property_task env ref pageId options i propName propId s0)
        <> Throw e)
    /\ (forall r,
           o = Resolved r -> status r <> 200 ->
           property_task env ref pageId options i propName (JStr id) s
           = (Ret tt,
              snd (set_details ref i (status_stub env r)
                     (called s operation (property_params pageId (JStr id)) w')))
           /\ propertyCache
                (snd (property_task env ref pageId options i propName (JStr id) s))
              = propertyCache s)
    /\ (forall error,
           o = Rejected error ->
           or_num (err_status error) 500 <> 200 ->
           property_task env ref pageId options i propName (JStr id) s
           = (Ret tt,
              snd (set_details ref i
                     (status_stub env
                        (mkResponse (or_num (err_status error) 500)
                           (error_details
                              (JObj [("message", JStr (err_message error))]))))
                     (called s operation (property_params pageId (JStr id)) w')))
           /\ propertyCache
                (snd (property_task env ref pageId options i propName (JStr id) s))
              = propertyCache s).
Proof.
  intros ref pageId options i propName id s operation o w' Hm H1 H2 Hf Ex.
  split; [|split].
  - intros propId s0 e. unfold property_task, try_catch.
    match goal with
    | |- context [let (r, s') := ?m s0 in _] => destruct (m s0) as [[a|e'| |] s1]
    end; cbn; discriminate.
  - intros r -> Hst.
    rewrite (property_task_asks ref pageId options i propName id s operation
               (Resolved r) w' Hm H1 H2 Hf Ex).
    cbn [property_response]. apply Z.eqb_neq in Hst. rewrite Hst.
    split; reflexivity.
  - intros error -> Hst.
    rewrite (property_task_asks ref pageId options i propName id s operation
               (Rejected error) w' Hm H1 H2 Hf Ex).
    cbn [property_response status data]. apply Z.eqb_neq in Hst. rewrite Hst.
    split; reflexivity.
Qed.

End PropertyExtras.

Section EnrichmentFrame.

Context {W : Type}.
Variable env : Collaborators W.

Lemma enriches_refl : forall ref pageId n (s : State (W := W)),
    enriches env ref pageId n s s.
Proof.
  intros ref pageId n s. unfold enriches. repeat split; try reflexivity.
  exists []. rewrite app_nil_r. repeat split; [cbn; lia | constructor].
Qed.

Lemma enriches_trans : forall ref pageId n m (s s1 s2 : State (W := W)),
    enriches env ref pageId n s s1 ->
    enriches env ref pageId m s1 s2 ->
    enriches env ref pageId (n + m) s s2.
Proof.
  intros ref pageId n m s s1 s2
         (A1 & A2 & A3 & A4 & A5 & A6 & l1 & A7 & A8 & A9)
         (B1 & B2 & B3 & B4 & B5 & B6 & l2 & B7 & B8 & B9).
  unfold enriches. repeat split; try congruence.
  - intros r Hr. rewrite B6 by exact Hr. apply A6. exact Hr.
  - exists (l1 ++ l2)%list. rewrite B7, A7, app_assoc. split; [reflexivity|].
    split; [rewrite length_app; lia | apply Forall_app; split; assumption].
Qed.

Lemma enriches_more : forall ref pageId n m (s s' : State (W := W)),
    (n <= m)%nat -> enriches env ref pageId n s s' -> enriches env ref pageId m s s'.
Proof.
  intros ref pageId n m s s' H (A1 & A2 & A3 & A4 & A5 & A6 & l & A7 & A8 & A9).
  unfold enriches. repeat split; try assumption.
  exists l. repeat split; [assumption | lia | assumption].
Qed.

Lemma update_nth_length : forall A (f : A -> A) i (l : list A),
    List.length (update_nth i f l) = List.length l.
Proof.
  intros A f. unfold update_nth.
  induction i as [|i IH]; intros l.
  - destruct l; reflexivity.
  - destruct l as [|x l]; [reflexivity|].
    cbn [firstn skipn app List.length]. rewrite IH. reflexivity.
Qed.

Lemma update_nth_other : forall A (f : A -> A) d i r (l : list A),
    r <> i -> nth r (update_nth i f l) d = nth r l d.
Proof.
  intros A f d. unfold update_nth.
  induction i as [|i IH]; intros r l Hr.
  - destruct l as [|x l]; [reflexivity|].
    destruct r; [contradiction | reflexivity].
  - destruct l as [|x l]; [reflexivity|].
    cbn [firstn skipn app]. destruct r; [reflexivity|].
    cbn [nth]. apply IH. congruence.
Qed.

Lemma set_details_enriches : forall ref pageId i details (s : State (W := W)),
    enriches env ref pageId 0 s (snd (set_details ref i details s)).
Proof.
  intros ref pageId i details s. unfold set_details, heap_update, enriches.
  cbn [snd pageCache blockCache databaseCache commentCache heap calls].
  repeat split.
  - apply (update_nth_length _ (decorate i details) ref (heap s)).
  - intros r Hr. unfold heap_get. cbn [heap].
    apply (update_nth_other _ (decorate i details) JUndef ref r (heap s) Hr).
  - exists []. rewrite app_nil_r. repeat split; [cbn; lia | constructor].
Qed.

Lemma property_task_enriches :
  forall ref pageId options i propName propId (s : State (W := W)),
    enriches env ref pageId 1 s
      (snd (property_task env ref pageId options i propName propId s)).
Proof.
  intros ref pageId options i propName propId s.
  unfold property_task, try_catch. unfold bind at 1. cbn [get_state].
  destruct (negb (skipCache options)
            && cache_has (propertyCache s)
                 (JStr (pageId ++ ":" ++ js_to_string propId))).
  { apply (enriches_more ref pageId 0); [lia|]. apply set_details_enriches. }
  unfold bind at 1.
  destruct (propId_includes propId "notion://") as [raw|e| |] eqn:E1;
    cbn [lift];
    try (apply (enriches_more ref pageId 0); [lia|];
         first [apply set_details_enriches | apply enriches_refl]).
  unfold bind at 1.
  assert (Enc : forall (found : bool) (s0 : State (W := W)),
             (if found then ret true
              else lift (propId_includes propId "%3A%2F%2F")) s0
             = (if found then Ret true
                else propId_includes propId "%3A%2F%2F", s0)).
  { intros [|] s0; reflexivity. }
  rewrite Enc.
  destruct (if raw then Ret true else propId_includes propId "%3A%2F%2F")
    as [encoded|e| |];
    try (apply (enriches_more ref pageId 0); [lia|];
         first [apply set_details_enriches | apply enriches_refl]).
  destruct encoded.
  { apply (enriches_more ref pageId 0); [lia|]. apply set_details_enriches. }
  destruct (findOperation env "API-retrieve-a-page-property") as [operation|] eqn:Hf.
  2:{ apply enriches_refl. }
  unfold bind at 1. unfold call_executeOperation.
  destruct (executeOperation env operation
              (JObj [("page_id", JStr pageId); ("property_id", propId)])
              (world s)) as [o w'].
  fold (property_params pageId propId).
  fold (called s operation (property_params pageId propId) w').
  assert (C : enriches env ref pageId 1 s
                (called s operation (property_params pageId propId) w')).
  { unfold enriches, called.
    cbn [pageCache blockCache databaseCache commentCache heap calls].
    repeat split; try reflexivity.
    exists [mkCall operation (property_params pageId propId)].
    repeat split; [cbn; lia|].
    constructor; [|constructor]. split; [exact Hf|].
    exists propId. reflexivity. }
  assert (After : forall s1 : State (W := W),
             enriches env ref pageId 0
               (called s operation (property_params pageId propId) w') s1 ->
             enriches env ref pageId 1 s s1).
  { intros s1 H. apply (enriches_trans ref pageId 1 0 s _ s1 C H). }
  destruct (property_response o) as [response|error|];
    unfold bind at 1; cbn [await ret throw hang].
  - destruct (status response =? 200).
    + unfold bind. apply After.
      cbn [propertyCache_set snd].
      destruct (set_details_enriches ref pageId i (data response)
                  (called s operation (property_params pageId propId) w'))
        as (A1 & A2 & A3 & A4 & A5 & A6 & A7).
      unfold enriches.
      cbn [pageCache blockCache databaseCache commentCache heap calls].
      repeat split; assumption.
    + apply After. apply set_details_enriches.
  - apply After. apply set_details_enriches.
  - apply After. apply enriches_refl.
Qed.

Lemma property_tasks_enriches :
  forall ref pageId options entries i (s : State (W := W)),
    enriches env ref pageId (List.length entries) s
      (snd (property_tasks env ref pageId options i entries s)).
Proof.
  intros ref pageId options entries.
  induction entries as [|[propName propData] rest IH]; intros i s;
    cbn [property_tasks List.length].
  - apply enriches_refl.
  - destruct (nullish propData); [apply enriches_refl|].
    destruct (negb (truthy (prop propData "id"))).
    + apply (enriches_more ref pageId (List.length rest)); [lia | apply IH].
    + unfold bind at 1. unfold spawn.
      pose proof (property_task_enriches ref pageId options i propName
                    (prop propData "id") s) as H1.
      destruct (property_task env ref pageId options i propName
                  (prop propData "id") s) as [r s1].
      cbn [snd] in H1.
      pose proof (IH (S i) s1) as H2.
      unfold bind.
      destruct (property_tasks env ref pageId options (S i) rest s1)
        as [[rs|e| |] s2]; cbn [snd] in *;
        apply (enriches_trans ref pageId 1 (List.length rest) s s1 s2 H1 H2).
Qed.

(** X21: Property enrichment stays with its page. It makes at most one
    remote call for each property, each of them a request for a property of
    that page through [API-retrieve-a-page-property]; it writes into the
    page object it was given and into the property cache, and it touches no
    other cache and no other stored page. *)
Theorem X21_enrichPageProperties_stays_with_its_page :
  forall ref pageId properties options (s : State (W := W)),
    pageCache (snd (enrichPageProperties env ref pageId properties options s))
    = pageCache s
    /\ blockCache (snd (enrichPageProperties env ref pageId properties options s))
       = blockCache s
    /\ databaseCache
         (snd (enrichPageProperties env ref pageId properties options s))
       = databaseCache s
    /\ commentCache
         (snd (enrichPageProperties env ref pageId properties options s))
       = commentCache s
    /\ List.length
         (heap (snd (enrichPageProperties env ref pageId properties options s)))
       = List.length (heap s)
    /\ (forall r,
           r <> ref ->
           heap_get (snd (enrichPageProperties env ref pageId properties options s))
                    r
           = heap_get s r)
    /\ exists l,
         calls (snd (enrichPageProperties env ref pageId properties options s))
         = (calls s ++ l)%list
         /\ (List.length l <= List.length (js_entries properties))%nat
         /\ Forall (is_property_call env pageId) l.
Proof.
  intros ref pageId properties options s.
  change (enriches env ref pageId (List.length (js_entries properties)) s
            (snd (enrichPageProperties env ref pageId properties options s))).
  unfold enrichPageProperties.
  pose proof (property_tasks_enriches ref pageId options
                (js_entries properties) 0 s) as H.
  unfold bind at 1.
  destruct (property_tasks env ref pageId options 0 (js_entries properties) s)
    as [[rs|e| |] s1]; cbn [snd] in *; try exact H.
  unfold bind, lift. destruct (Promise_all rs); cbn; exact H.
Qed.

End EnrichmentFrame.

Section SharedProperties.

Context {W : Type}.
Variable env : Collaborators W.

Lemma cache_comments_heap : forall comments (s : State (W := W)),
    heap (snd (cache_comments comments s)) = heap s.
Proof.
  induction comments as [|c comments IH]; intros s; [reflexivity|].
  cbn [cache_comments]. destruct (nullish c); [reflexivity|].
  unfold bind. destruct (truthy (prop c "id")).
  - cbn [commentCache_set].
    match goal with
    | |- context [cache_comments comments ?st] =>
        pose proof (IH st) as H;
        destruct (cache_comments comments st) as [[[]|e| |] s1]
    end; exact H.
  - cbn [ret]. pose proof (IH s) as H.
    destruct (cache_comments comments s) as [[[]|e| |] s1]; exact H.
Qed.

Lemma retrieveComments_heap : forall blockId options (s : State (W := W)),
    heap (snd (retrieveComments env blockId options s)) = heap s.
Proof.
  intros blockId options s. unfold retrieveComments.
  destruct (findOperation env "API-retrieve-a-comment") as [operation|];
    [|reflexivity].
  unfold try_catch. unfold bind at 1. unfold call_executeOperation.
  destruct (executeOperation env operation (JObj [("block_id", blockId)])
              (world s)) as [o w'].
  destruct o as [r|e|]; [|reflexivity|reflexivity].
  unfold bind at 1. cbn [await ret].
  destruct (negb (status r =? 200)); [reflexivity|].
  unfold bind at 1. unfold get_prop.
  destruct (nullish (data r)); [reflexivity|]. cbn [lift].
  unfold bind.
  destruct (truthy (prop (data r) "results")); [|reflexivity].
  destruct (prop (data r) "results") as [| |b|z|str|l|fs]; try reflexivity.
  match goal with
  | |- context [cache_comments l ?st] =>
      pose proof (cache_comments_heap l st) as H;
      destruct (cache_comments l st) as [[[]|e| |] s1]
  end; exact H.
Qed.

Lemma enrich_returns_stored :
  forall ref pageId properties options (s s' : State (W := W)) E,
    enrichPageProperties env ref pageId properties options s = (Ret E, s') ->
    E = JObj (js_entries (prop (heap_get s' ref) "properties")).
Proof.
  intros ref pageId properties options s s' E. unfold enrichPageProperties.
  unfold bind at 1.
  destruct (property_tasks env ref pageId options 0 (js_entries properties) s)
    as [[rs|e| |] s1]; try discriminate.
  unfold bind, lift. destruct (Promise_all rs); try discriminate.
  cbn. intros H. inversion H. reflexivity.
Qed.

Lemma prop_entries : forall v k,
    k <> "length" ->
    prop v k = match lookup_field k (js_entries v) with
               | Some x => x
               | None => JUndef
               end.
Proof.
  intros v k Hk. apply String.eqb_neq in Hk.
  destruct v; cbn [prop js_entries lookup_field]; try reflexivity;
    rewrite Hk; reflexivity.
Qed.

Lemma page_tasks_properties :
  forall fuel ref pageId options d (s s' : State (W := W)) bP pP cP E,
    page_tasks env fuel ref pageId options d s
    = (Ret (bP, (true, pP), cP), s') ->
    pP = Ret E ->
    E = JObj (js_entries (prop (heap_get s' ref) "properties")).
Proof.
  intros fuel ref pageId options d s s' bP pP cP E. unfold page_tasks.
  unfold bind at 1. unfold spawn at 1.
  destruct (retrieveBlocksRecursively env fuel (JStr pageId) options (d + 1) s)
    as [rb s1].
  unfold bind at 1. cbn [get_state].
  unfold bind at 1.
  destruct (includeProperties options).
  2:{ cbn [ret]. unfold bind at 1. cbn [ret].
      unfold bind.
      destruct (includeComments options);
        [unfold spawn;
         destruct (retrieveComments env (JStr pageId) options s1)|];
        cbn; intros H; inversion H. }
  unfold bind at 1. unfold get_prop.
  destruct (nullish (heap_get s1 ref)); [discriminate|]. cbn [lift ret].
  destruct (truthy (prop (heap_get s1 ref) "properties")).
  2:{ unfold bind at 1. cbn [ret]. unfold bind.
      destruct (includeComments options);
        [unfold spawn;
         destruct (retrieveComments env (JStr pageId) options s1)|];
        cbn; intros H; inversion H. }
  unfold bind at 1. unfold spawn at 1.
  destruct (enrichPageProperties env ref pageId
              (prop (heap_get s1 ref) "properties") options s1)
    as [re se] eqn:En.
  unfold bind.
  destruct (includeComments options).
  - unfold spawn.
    pose proof (retrieveComments_heap (JStr pageId) options se) as Hh.
    destruct (retrieveComments env (JStr pageId) options se) as [rc sc].
    cbn [snd] in Hh. cbn. intros H HE. inversion H. subst.
    apply (enrich_returns_stored _ _ _ _ _ _ _) in En.
    unfold heap_get in *. rewrite Hh. exact En.
  - cbn. intros H HE. inversion H. subst.
    apply (enrich_returns_stored _ _ _ _ _ _ _) in En. exact En.
Qed.

(** X22: The enrichment is written into the page object itself, which the
    page cache holds and the returned node is copied from. So in every node
    with [detailed_properties], the field [properties] carries the same
    details: [detailed_properties] has the very entries of [properties], and
    these are the properties of the stored page, as the cache will serve
    them from then on. *)
Theorem X22_properties_carry_the_details_too :
  forall fuel ref pageId options d (s s' : State (W := W)) node,
    expand_page env fuel ref pageId options d s = (Ret node, s') ->
    own_field (heap_get s' ref) "detailed_properties" = None ->
    prop node "detailed_properties" <> JUndef ->
    prop node "properties" = prop (heap_get s' ref) "properties"
    /\ prop node "detailed_properties"
       = JObj (js_entries (prop node "properties")).
Proof.
  intros fuel ref pageId options d s s' node. unfold expand_page.
  unfold bind at 1.
  destruct (page_tasks env fuel ref pageId options d s)
    as [[[[bP [hasP pP]] cP]|e| |] st] eqn:T; try discriminate.
  unfold bind at 1. unfold race_timeout, lift.
  destruct (Promise_all [list_result bP; pP; cP]) as [vs|e| |] eqn:PA;
    try discriminate.
  unfold integrate. unfold bind at 1. cbn [get_state].
  unfold bind at 1.
  destruct bP as [blocks|e| |]; try discriminate. cbn [lift].
  set (base := set_field "content" (JArr blocks) (js_entries (heap_get st ref))).
  assert (Base : forall k, k <> "content" ->
                   lookup_field k base = lookup_field k (js_entries (heap_get st ref))).
  { intros k Hk. unfold base. apply lookup_set_other. exact Hk. }
  assert (Comments :
            forall fs (node0 : JsValue) (s0 : State (W := W)),
              (enriched <-
                 (if includeComments options
                  then comments <- lift cP ;;
                       ret (if truthy comments
                               && truthy (prop comments "results")
                               && zero_lt env (prop (prop comments "results") "length")
                            then set_field "comments" comments fs
                            else fs)
                  else ret fs) ;;
               ret (JObj enriched)) st = (Ret node0, s0) ->
              s0 = st
              /\ forall k, k <> "comments" ->
                   prop node0 k = match lookup_field k fs with
                                  | Some x => x
                                  | None => JUndef
                                  end).
  { intros fs node0 s0. unfold bind at 1.
    destruct (includeComments options).
    - unfold bind at 1. unfold lift.
      destruct cP as [comments|e| |]; try discriminate.
      cbn [ret]. intros H. inversion H. split; [reflexivity|].
      intros k Hk. cbn [prop].
      destruct (truthy comments && truthy (prop comments "results")
                && zero_lt env (prop (prop comments "results") "length"));
        [rewrite lookup_set_other by exact Hk|]; reflexivity.
    - cbn [ret]. intros H. inversion H. split; [reflexivity|].
      intros k Hk. reflexivity. }
  unfold bind at 1.
  destruct hasP.
  - unfold bind at 1. unfold lift.
    destruct pP as [E|e| |] eqn:HP; try discriminate.
    cbn [ret].
    pose proof (page_tasks_properties fuel ref pageId options d s st
                  (Ret blocks) (Ret E) cP E T eq_refl) as HE.
    assert (TE : truthy E = true) by (rewrite HE; reflexivity).
    rewrite TE.
    intros Run Hown Hdp.
    apply Comments in Run. destruct Run as [-> Look].
    rewrite (Look "properties") by discriminate.
    rewrite (Look "detailed_properties") by discriminate.
    rewrite lookup_set_same.
    rewrite lookup_set_other by discriminate.
    rewrite Base by discriminate.
    rewrite <- prop_entries by discriminate.
    split; [reflexivity | exact HE].
  - cbn [ret]. intros Run Hown Hdp.
    apply Comments in Run. destruct Run as [-> Look].
    exfalso. apply Hdp.
    rewrite (Look "detailed_properties") by discriminate.
    rewrite Base by discriminate. unfold own_field in Hown.
    rewrite Hown. reflexivity.
Qed.

End SharedProperties.

(** ** The block crawl *)

Section BlockFacts.

Context {W : Type}.
Variable env : Collaborators W.

Lemma prop_json_norm_missing : forall k fs,
    lookup_field k fs = None -> prop (json_norm (JObj fs)) k = JUndef.
Proof.
  intros k fs. simpl. induction fs as [|[k' x] fs IH]; simpl; [reflexivity|].
  destruct (String.eqb k k') eqn:E; [discriminate|].
  intros H. specialize (IH H).
  destruct x; simpl; rewrite ?E; exact IH.
Qed.

(** X26: [retrieveBlocksRecursively] never throws. At the depth limit it
    answers [[{note: "Maximum recursion depth reached"}]] without a remote
    call; without the listing operation it answers one error node. A first
    page answered with a status other than 200 is not reported at all: when
    its body is an object without [results], the listing is taken to be
    empty. *)
Theorem X26_retrieveBlocksRecursively_contains_failures :
  forall fuel blockId options d (s : State (W := W)),
    (forall e,
        fst (retrieveBlocksRecursively env fuel blockId options d s) <> Throw e)
    /\ (effectiveMaxDepth options <= d ->
        retrieveBlocksRecursively env fuel blockId options d s
        = (Ret [JObj [("note", JStr "Maximum recursion depth reached")]], s))
    /\ (d < effectiveMaxDepth options ->
        findOperation env "API-get-block-children" = None ->
        retrieveBlocksRecursively env fuel blockId options d s
        = (Ret [JObj [("id", blockId);
                      ("error",
                       JStr "API-get-block-children method not found.");
                      ("retrievalFailed", JBool true)]], s))
    /\ (forall operation r w' fs,
           d < effectiveMaxDepth options ->
           findOperation env "API-get-block-children" = Some operation ->
           executeOperation env operation
             (JObj [("block_id", blockId); ("page_size", JNum 100)]) (world s)
           = (Resolved r, w') ->
           status r <> 200 ->
           data r = JObj fs ->
           lookup_field "results" fs = None ->
           retrieveBlocksRecursively env fuel blockId options d s
           = (Ret [],
              called s operation
                (JObj [("block_id", blockId); ("page_size", JNum 100)]) w')).
Proof.
  intros fuel blockId options d s.
  assert (Deep : effectiveMaxDepth options <= d ->
                 forall depth,
                   retrieveBlocks env depth fuel blockId options d s
                   = (Ret [depth_note], s)).
  { intros H depth.
    assert (E : (d >=? effectiveMaxDepth options) = true)
      by (apply Z.geb_le; lia).
    destruct depth; cbn [retrieveBlocks]; rewrite E; reflexivity. }
  assert (Shallow : d < effectiveMaxDepth options ->
                    exists depth,
                      Z.to_nat (effectiveMaxDepth options - d) = S depth
                      /\ (d >=? effectiveMaxDepth options) = false).
  { intros H. destruct (Z.to_nat (effectiveMaxDepth options - d)) as [|depth] eqn:En;
      [lia|].
    exists depth. split; [reflexivity|].
    destruct (d >=? effectiveMaxDepth options) eqn:E; [|reflexivity].
    apply Z.geb_le in E. lia. }
  split; [|split; [|split]].
  - intros e. unfold retrieveBlocksRecursively.
    destruct (Z_le_gt_dec (effectiveMaxDepth options) d) as [H|H].
    + rewrite (Deep H). discriminate.
    + destruct (Shallow ltac:(lia)) as (depth & -> & E).
      cbn [retrieveBlocks]. rewrite E. unfold try_catch.
      match goal with
      | |- context [let (r, s') := ?m s in _] => destruct (m s) as [[a|e'| |] s1]
      end; cbn; discriminate.
  - intros H. unfold retrieveBlocksRecursively. apply Deep. exact H.
  - intros H Hf. unfold retrieveBlocksRecursively.
    destruct (Shallow H) as (depth & -> & E).
    cbn [retrieveBlocks]. rewrite E, Hf. reflexivity.
  - intros operation r w' fs H Hf Ex Hst Hd Hres.
    unfold retrieveBlocksRecursively.
    destruct (Shallow H) as (depth & -> & E).
    cbn [retrieveBlocks]. rewrite E, Hf. unfold try_catch.
    unfold bind at 1.
    rewrite (first_page_other_status env fuel operation _ s r w' Ex Hst).
    rewrite Hd. cbn [text JSON_stringify].
    unfold bind at 1. cbn [lift JSON_parse].
    unfold bind at 1. unfold get_prop. cbn [nullish json_norm lift].
    change (JObj _) with (json_norm (JObj fs)) at 1.
    rewrite (prop_json_norm_missing "results" fs Hres).
    reflexivity.
Qed.

End BlockFacts.

Section NegativeBatch.

Context {W : Type}.

Lemma slice_backwards : forall A (l : list A) i size,
    i < 0 -> size < 0 -> js_slice l i (i + size) = [].
Proof.
  intros A l i size Hi Hs. unfold js_slice.
  assert (E1 : (i <? 0) = true) by (apply Z.ltb_lt; lia).
  assert (E2 : (i + size <? 0) = true) by (apply Z.ltb_lt; lia).
  rewrite E1, E2.
  replace (Z.to_nat (Z.max (Z.of_nat (List.length l) + (i + size)) 0
                     - Z.max (Z.of_nat (List.length l) + i) 0)) with 0%nat
    by lia.
  reflexivity.
Qed.

Lemma batch_loop_stuck :
  forall (task : JsValue -> M (W := W) JsValue) blocks size,
    blocks <> [] -> size < 0 ->
    forall fuel i acc (s : State (W := W)),
      i < 0 ->
      batch_loop task fuel blocks size i acc s = (Diverge, s).
Proof.
  intros task blocks size Hb Hs.
  assert (Hn : 0 < Z.of_nat (List.length blocks)).
  { destruct blocks; [contradiction | cbn [List.length]; lia]. }
  induction fuel as [|fuel IH]; intros i acc s Hi; cbn [batch_loop];
    (assert (E : (i <? Z.of_nat (List.length blocks)) = true)
       by (apply Z.ltb_lt; lia)); rewrite E; [reflexivity|].
  rewrite (slice_backwards _ blocks i size Hi Hs).
  cbn [spawn_all]. unfold bind. cbn [ret lift Promise_all].
  apply IH. lia.
Qed.

(** X28: A negative batch size is not refused, and the batch loop does not
    end with it: once the first batch is done the loop index is negative,
    every later batch is empty, and the index only gets smaller. The
    children of the first batch are fetched and then lost. *)
Theorem X28_negative_batch_size_never_ends :
  forall (task : JsValue -> M (W := W) JsValue) blocks size (s s1 : State (W := W))
         rs vs,
    blocks <> [] ->
    size < 0 ->
    spawn_all task (js_slice blocks 0 size) s = (Ret rs, s1) ->
    Promise_all rs = Ret vs ->
    batch_loop task (List.length blocks) blocks size 0 [] s = (Diverge, s1).
Proof.
  intros task blocks size s s1 rs vs Hb Hs Sp Pa.
  destruct blocks as [|b blocks]; [contradiction|].
  cbn [List.length batch_loop].
  assert (E : (0 <? Z.of_nat (S (List.length blocks))) = true)
    by (apply Z.ltb_lt; lia).
  rewrite E. rewrite Z.add_0_l. unfold bind at 1. rewrite Sp.
  unfold bind at 1. unfold lift. rewrite Pa.
  apply batch_loop_stuck; [discriminate | exact Hs | lia].
Qed.

End NegativeBatch.

(** ** What the crawler asks of the remote side *)

Section CallFacts.

Context {W : Type}.
Variable env : Collaborators W.
Variable P : Call -> Prop.

Lemma logs_same : forall A (m : M (W := W) A),
    (forall s, calls (snd (m s)) = calls s) -> logs P m.
Proof.
  intros A m H s. exists []. rewrite app_nil_r. split; [apply H | constructor].
Qed.

Lemma logs_ret : forall A (a : A), logs (W := W) P (ret a).
Proof. intros. apply logs_same. reflexivity. Qed.

Lemma logs_throw : forall A e, logs (W := W) P (throw (A := A) e).
Proof. intros. apply logs_same. reflexivity. Qed.

Lemma logs_hang : forall A, logs (W := W) P (hang (A := A)).
Proof. intros. apply logs_same. reflexivity. Qed.

Lemma logs_diverge : forall A, logs (W := W) P (diverge (A := A)).
Proof. intros. apply logs_same. reflexivity. Qed.

Lemma logs_lift : forall A (r : Result A), logs (W := W) P (lift r).
Proof. intros. apply logs_same. reflexivity. Qed.

Lemma logs_get_state : logs (W := W) P get_state.
Proof. apply logs_same. reflexivity. Qed.

Lemma logs_await : forall o, logs (W := W) P (await o).
Proof. intros [r|e|]; apply logs_same; reflexivity. Qed.

Lemma logs_blockCache_set : forall k v, logs (W := W) P (blockCache_set k v).
Proof. intros. apply logs_same. reflexivity. Qed.

Lemma logs_databaseCache_set : forall k v, logs (W := W) P (databaseCache_set k v).
Proof. intros. apply logs_same. reflexivity. Qed.

Lemma logs_commentCache_set : forall k v, logs (W := W) P (commentCache_set k v).
Proof. intros. apply logs_same. reflexivity. Qed.

Lemma logs_propertyCache_set : forall k v, logs (W := W) P (propertyCache_set k v).
Proof. intros. apply logs_same. reflexivity. Qed.

Lemma logs_pageCache_set : forall k v, logs (W := W) P (pageCache_set k v).
Proof. intros. apply logs_same. reflexivity. Qed.

Lemma logs_heap_update : forall ref f, logs (W := W) P (heap_update ref f).
Proof. intros. apply logs_same. reflexivity. Qed.

Lemma logs_bind : forall A B (m : M (W := W) A) (k : A -> M B),
    logs P m -> (forall a, logs P (k a)) -> logs P (bind m k).
Proof.
  intros A B m k Hm Hk s. unfold bind. destruct (Hm s) as (l1 & E1 & F1).
  destruct (m s) as [[a|e| |] s1]; cbn [snd] in *;
    try (exists l1; split; assumption).
  destruct (Hk a s1) as (l2 & E2 & F2).
  exists (l1 ++ l2)%list. rewrite E2, E1, app_assoc.
  split; [reflexivity | apply Forall_app; split; assumption].
Qed.

Lemma logs_bind_ret : forall A B (a : A) (k : A -> M (W := W) B),
    logs P (k a) -> logs P (bind (ret a) k).
Proof. intros A B a k H s. exact (H s). Qed.

Lemma logs_try_catch : forall A (m : M (W := W) A) h,
    logs P m -> (forall e, logs P (h e)) -> logs P (try_catch m h).
Proof.
  intros A m h Hm Hh s. unfold try_catch. destruct (Hm s) as (l1 & E1 & F1).
  destruct (m s) as [[a|e| |] s1]; cbn [snd] in *;
    try (exists l1; split; assumption).
  destruct (Hh e s1) as (l2 & E2 & F2).
  exists (l1 ++ l2)%list. rewrite E2, E1, app_assoc.
  split; [reflexivity | apply Forall_app; split; assumption].
Qed.

Lemma logs_race : forall A options (m : M (W := W) A),
    logs P m -> logs P (race_timeout options m).
Proof.
  intros A options m Hm s. unfold race_timeout. specialize (Hm s).
  destruct (m s) as [[a|e| |] s1]; exact Hm.
Qed.

Lemma logs_spawn : forall A (m : M (W := W) A), logs P m -> logs P (spawn m).
Proof.
  intros A m Hm s. unfold spawn. specialize (Hm s).
  destruct (m s) as [r s1]. exact Hm.
Qed.

Lemma logs_call : forall op params,
    P (mkCall op params) -> logs P (call_executeOperation env op params).
Proof.
  intros op params H s. unfold call_executeOperation.
  destruct (executeOperation env op params (world s)) as [o w'].
  exists [mkCall op params]. split; [reflexivity|].
  constructor; [exact H | constructor].
Qed.

End CallFacts.

Ltac logs_known := fail.

Ltac logs_tac :=
  first
    [ logs_known
    | apply logs_ret | apply logs_throw | apply logs_hang
    | apply logs_diverge | apply logs_get_state | apply logs_lift
    | apply logs_await | apply logs_blockCache_set
    | apply logs_databaseCache_set | apply logs_commentCache_set
    | apply logs_propertyCache_set | apply logs_heap_update
    | apply logs_pageCache_set
    | apply logs_race
    | apply logs_spawn
    | apply logs_bind; [|intros]
    | apply logs_try_catch; [|intros]
    | match goal with
      | |- logs _ (if ?c then _ else _) => destruct c eqn:?
      | |- logs _ (match ?x with _ => _ end) => destruct x eqn:?
      | |- logs _ (let (_, _) := ?x in _) => destruct x eqn:?
      end ].

Ltac logs_auto := repeat logs_tac.

Section ReadOnly.

Context {W : Type}.
Variable env : Collaborators W.
Variable options : RecursiveExplorationOptions.
Variable root : string.

Lemma logs_pagination_loop : forall fuel op id results c reqs,
    findOperation env "API-get-block-children" = Some op ->
    logs (reads env options root)
         (pagination_loop env fuel op (listing_params id) results c reqs).
Proof.
  induction fuel as [|fuel IH]; intros op id results c reqs Hop;
    cbn [pagination_loop]; logs_auto;
    try (apply IH; exact Hop);
    apply logs_call; right; left; (split; [exact Hop|]);
    exists id; right; eexists; reflexivity.
Qed.

Lemma logs_handleBlockChildrenParallel : forall fuel op id,
    findOperation env "API-get-block-children" = Some op ->
    logs (reads env options root)
         (handleBlockChildrenParallel env fuel op (listing_params id)).
Proof.
  intros fuel op id Hop. unfold handleBlockChildrenParallel.
  logs_auto;
    try (apply logs_pagination_loop; exact Hop);
    apply logs_call; right; left; (split; [exact Hop|]);
    exists id; left; reflexivity.
Qed.

Lemma logs_retrieveDatabase : forall databaseId,
    includeDatabases options = true ->
    logs (reads env options root) (retrieveDatabase env databaseId options).
Proof.
  intros databaseId Hi. unfold retrieveDatabase. logs_auto.
  apply logs_call. right; right; left.
  split; [exact Hi|]. split; [assumption|]. exists databaseId. reflexivity.
Qed.

Lemma logs_cache_comments : forall l,
    logs (W := W) (reads env options root) (cache_comments l).
Proof.
  induction l as [|c l IH]; cbn [cache_comments]; logs_auto; apply IH.
Qed.

Lemma logs_retrieveComments :
    includeComments options = true ->
    logs (reads env options root) (retrieveComments env (JStr root) options).
Proof.
  intros Hi. unfold retrieveComments. logs_auto;
    try apply logs_cache_comments.
  apply logs_call. right; right; right; left.
  split; [exact Hi|]. split; [assumption | reflexivity].
Qed.

Lemma logs_property_task : forall ref i propName propId,
    includeProperties options = true ->
    logs (reads env options root)
         (property_task env ref root options i propName propId).
Proof.
  intros ref i propName propId Hi. unfold property_task, set_details.
  logs_auto.
  apply logs_call. right; right; right; right.
  split; [exact Hi|]. split; [assumption|]. exists propId. reflexivity.
Qed.

Lemma logs_property_tasks : forall ref entries i,
    includeProperties options = true ->
    logs (reads env options root) (property_tasks env ref root options i entries).
Proof.
  intros ref entries.
  induction entries as [|[propName propData] rest IH]; intros i Hi;
    cbn [property_tasks];
    repeat first [ apply logs_property_task; exact Hi | apply IH; exact Hi
                 | logs_tac ].
Qed.

Lemma logs_enrichPageProperties : forall ref properties,
    includeProperties options = true ->
    logs (reads env options root)
         (enrichPageProperties env ref root properties options).
Proof.
  intros ref properties Hi. unfold enrichPageProperties.
  apply logs_bind; [apply logs_property_tasks; exact Hi | intros rs].
  logs_auto.
Qed.

Lemma logs_retrievePageBasicInfo : forall pageId,
    logs (reads env options root) (retrievePageBasicInfo env pageId options).
Proof.
  intros pageId. unfold retrievePageBasicInfo. logs_auto.
  apply logs_call. left. split; [assumption|]. exists pageId. reflexivity.
Qed.

Lemma logs_spawn_all : forall A B (task : A -> M (W := W) B) items,
    (forall x, logs (reads env options root) (task x)) ->
    logs (reads env options root) (spawn_all task items).
Proof.
  intros A B task items Ht. induction items as [|x items IH];
    cbn [spawn_all]; repeat first [ apply Ht | exact IH | logs_tac ].
Qed.

Lemma logs_batch_loop : forall (task : JsValue -> M (W := W) JsValue) blocks size,
    (forall x, logs (reads env options root) (task x)) ->
    forall fuel i acc,
      logs (reads env options root) (batch_loop task fuel blocks size i acc).
Proof.
  intros task blocks size Ht fuel.
  induction fuel as [|fuel IH]; intros i acc; cbn [batch_loop];
    repeat first [ apply logs_spawn_all; exact Ht | apply IH | logs_tac ].
Qed.

Lemma logs_block_task : forall children d block,
    (forall id, logs (reads env options root) (children id)) ->
    logs (reads env options root) (block_task env children options d block).
Proof.
  intros children d block Hc. unfold block_task.
  repeat first
    [ apply Hc
    | apply logs_retrievePageBasicInfo
    | apply logs_retrieveDatabase;
      match goal with
      | H : includeDatabases options && _ = true |- _ =>
          apply andb_prop in H; destruct H as [H _]; exact H
      end
    | logs_tac ].
Qed.

Lemma logs_process_blocks : forall (task : JsValue -> M (W := W) JsValue) blocks,
    (forall x, logs (reads env options root) (task x)) ->
    logs (reads env options root) (process_blocks env task options blocks).
Proof.
  intros task blocks Ht. unfold process_blocks.
  repeat first [ apply logs_batch_loop; exact Ht | logs_tac ].
Qed.

Lemma logs_retrieveBlocks : forall depth fuel blockId d,
    logs (reads env options root)
         (retrieveBlocks env depth fuel blockId options d).
Proof.
  induction depth as [|depth IH]; intros fuel blockId d; cbn [retrieveBlocks].
  - logs_auto.
  - destruct (d >=? effectiveMaxDepth options); [apply logs_ret|].
    apply logs_try_catch; [|intros e; apply logs_ret].
    destruct (findOperation env "API-get-block-children") as [operation|] eqn:Hop;
      [|apply logs_throw].
    apply logs_bind;
      [apply (logs_handleBlockChildrenParallel fuel operation blockId Hop)
      | intros tr].
    apply logs_bind; [apply logs_lift|intros blocksData].
    apply logs_bind; [apply logs_lift|intros results].
    apply logs_process_blocks. intros x.
    apply logs_block_task. intros id. apply IH.
Qed.

Lemma logs_page_tasks : forall fuel ref d,
    logs (reads env options root) (page_tasks env fuel ref root options d).
Proof.
  intros fuel ref d. unfold page_tasks, retrieveBlocksRecursively.
  apply logs_bind; [apply logs_spawn, logs_retrieveBlocks | intros blocksPromise].
  apply logs_bind; [apply logs_get_state | intros s1].
  destruct (includeProperties options) eqn:Hp;
    repeat first [ progress cbv beta iota
                 | match goal with
                   | |- logs _ (bind (ret _) _) => apply logs_bind_ret
                   end
                 | apply logs_enrichPageProperties; exact Hp
                 | apply logs_retrieveComments; assumption
                 | logs_tac ].
Qed.

Lemma logs_expand_page : forall fuel ref d,
    logs (reads env options root) (expand_page env fuel ref root options d).
Proof.
  intros fuel ref d. unfold expand_page, integrate.
  apply logs_bind; [apply logs_page_tasks | intros [[b [h p]] c]].
  logs_auto.
Qed.

Lemma logs_resolve_page :
    logs (reads env options root) (resolve_page env root options).
Proof.
  unfold resolve_page. logs_auto.
  apply logs_call. left. split; [assumption|]. eexists. reflexivity.
Qed.

Lemma logs_retrievePageRecursively : forall fuel d,
    logs (reads env options root)
         (retrievePageRecursively env fuel root options d).
Proof.
  intros fuel d. unfold retrievePageRecursively.
  repeat first [ apply logs_resolve_page | apply logs_expand_page | logs_tac ].
Qed.

End ReadOnly.

Section ReadOnlyCrawl.

Context {W : Type}.
Variable env : Collaborators W.

(** X23: The one-pager only reads, and it reads the comments and the
    properties of the root page alone. Every remote call of a run is one of
    these: a retrieval of a page ([API-retrieve-a-page] with [{page_id}]); a
    listing of the children of a block ([API-get-block-children] with
    [{block_id, page_size: 100}], with a [start_cursor] for later pages);
    and, only when the options of the run include them, a retrieval of a
    database ([API-retrieve-a-database]), the listing of the comments of the
    root page ([API-retrieve-a-comment] with [{block_id: root}]), and the
    retrieval of a property of the root page
    ([API-retrieve-a-page-property]). The run appends to the log of calls
    and removes nothing from it. *)
Theorem X23_one_pager_calls_only_the_read_operations :
  forall fuel params (s : State (W := W)),
    exists l,
      calls (snd (handleOnePagerRequest env fuel params s)) = (calls s ++ l)%list
      /\ Forall (reads env (options_of params) (page_id params)) l.
Proof.
  intros fuel params s. rewrite one_pager_state.
  apply logs_retrievePageRecursively.
Qed.

End ReadOnlyCrawl.

Section CacheUse.

Context {W : Type}.
Variable env : Collaborators W.

(** X24: No page that is in the cache is fetched again, and no page leaves
    the cache. In a run of the one-pager, every request with the parameters
    [{page_id: id}], for the root or for a child page, goes through
    [API-retrieve-a-page] and is made only when the run skips the cache or
    the cache did not hold [id] when the run began; every key the page cache
    held before the run it holds after it. *)
Theorem X24_cached_pages_are_not_fetched_again :
  forall fuel params (s : State (W := W)),
    (forall k,
        cache_has (pageCache s) k = true ->
        cache_has (pageCache (snd (handleOnePagerRequest env fuel params s))) k
        = true)
    /\ exists l,
         calls (snd (handleOnePagerRequest env fuel params s))
         = (calls s ++ l)%list
         /\ forall c id,
              In c l ->
              call_params c = JObj [("page_id", id)] ->
              findOperation env "API-retrieve-a-page" = Some (call_op c)
              /\ (skipCache (options_of params) = true
                  \/ cache_has (pageCache s) id = false).
Proof.
  intros fuel params s.
  destruct (crawls_handleOnePagerRequest env (skipCache (options_of params))
              fuel params eq_refl s) as [(l & E & G) Mono].
  split; [exact Mono|].
  exists l. split; [exact E|].
  intros c id Hin Hp. rewrite Forall_forall in G. exact (G c Hin id Hp).
Qed.

(** X25: [skipCache] skips the reading of the cache and not the writing. A
    page that a run with [skipCache = true] retrieves is stored all the
    same, and a later run for it with [skipCache = false] is served from the
    cache without a document-retrieval call. *)
Theorem X25_skipCache_still_fills_the_cache :
  forall fuel fuel' p p' (s : State (W := W)) operation r w',
    page_id p' = page_id p ->
    skipCache (options_of p) = true ->
    skipCache (options_of p') = false ->
    0 < effectiveMaxDepth (options_of p) ->
    findOperation env "API-retrieve-a-page" = Some operation ->
    executeOperation env operation (JObj [("page_id", JStr (page_id p))])
                     (world s) = (Resolved r, w') ->
    status r = 200 ->
    cache_has (pageCache (snd (handleOnePagerRequest env fuel p s)))
              (JStr (page_id p)) = true
    /\ page_calls (page_id p)
         (calls (snd (handleOnePagerRequest env fuel' p'
                        (snd (handleOnePagerRequest env fuel p s)))))
       = page_calls (page_id p)
           (calls (snd (handleOnePagerRequest env fuel p s))).
Proof.
  intros fuel fuel' p p' s operation r w' Hid Hs Hs' Hd Hf Ex Hst.
  assert (C : cache_has (pageCache (snd (handleOnePagerRequest env fuel p s)))
                        (JStr (page_id p)) = true).
  { rewrite one_pager_state.
    rewrite (first_retrieval_state env fuel (page_id p) (options_of p) 0 s
               operation r w' Hd) by (try rewrite Hs; auto).
    match goal with
    | |- context [expand_page env fuel ?ref ?pid ?o ?d ?st] =>
        destruct (crawls_expand_page env true o Hs fuel ref pid d st)
          as [_ Mono]
    end.
    apply Mono. cbn [pageCache]. unfold cache_has.
    rewrite cache_get_set_same. reflexivity. }
  split; [exact C|].
  rewrite <- Hid. apply served_from_cache; [exact Hs'|].
  rewrite Hid. exact C.
Qed.

End CacheUse.

(** ** The caches that are written and never read *)

Section WriteOnlyCaches.

Context {W : Type}.
Variable env : Collaborators W.

Lemma blind_ret : forall A (a : A), blind (W := W) (ret a).
Proof. intros A a s1 s2 H. split; [reflexivity | exact H]. Qed.

Lemma blind_throw : forall A e, blind (W := W) (throw (A := A) e).
Proof. intros A e s1 s2 H. split; [reflexivity | exact H]. Qed.

Lemma blind_hang : forall A, blind (W := W) (hang (A := A)).
Proof. intros A s1 s2 H. split; [reflexivity | exact H]. Qed.

Lemma blind_diverge : forall A, blind (W := W) (diverge (A := A)).
Proof. intros A s1 s2 H. split; [reflexivity | exact H]. Qed.

Lemma blind_lift : forall A (r : Result A), blind (W := W) (lift r).
Proof. intros A r s1 s2 H. split; [reflexivity | exact H]. Qed.

Lemma blind_await : forall o, blind (W := W) (await o).
Proof. intros [r|e|] s1 s2 H; (split; [reflexivity | exact H]). Qed.

Lemma blind_bind : forall A B (m : M (W := W) A) (k : A -> M B),
    blind m -> (forall a, blind (k a)) -> blind (bind m k).
Proof.
  intros A B m k Hm Hk s1 s2 H. unfold bind.
  destruct (Hm s1 s2 H) as [E1 E2].
  destruct (m s1) as [r1 t1]; destruct (m s2) as [r2 t2].
  cbn [fst snd] in *. subst r2.
  destruct r1 as [a|e| |]; try (split; [reflexivity | exact E2]).
  apply Hk. exact E2.
Qed.

Lemma blind_try_catch : forall A (m : M (W := W) A) h,
    blind m -> (forall e, blind (h e)) -> blind (try_catch m h).
Proof.
  intros A m h Hm Hh s1 s2 H. unfold try_catch.
  destruct (Hm s1 s2 H) as [E1 E2].
  destruct (m s1) as [r1 t1]; destruct (m s2) as [r2 t2].
  cbn [fst snd] in *. subst r2.
  destruct r1 as [a|e| |]; try (split; [reflexivity | exact E2]).
  apply Hh. exact E2.
Qed.

Lemma blind_race : forall A options (m : M (W := W) A),
    blind m -> blind (race_timeout options m).
Proof.
  intros A options m Hm s1 s2 H. unfold race_timeout.
  destruct (Hm s1 s2 H) as [E1 E2].
  destruct (m s1) as [r1 t1]; destruct (m s2) as [r2 t2].
  cbn [fst snd] in *. subst r2.
  destruct r1 as [a|e| |]; (split; [reflexivity | exact E2]).
Qed.

Lemma blind_spawn : forall A (m : M (W := W) A), blind m -> blind (spawn m).
Proof.
  intros A m Hm s1 s2 H. unfold spawn.
  destruct (Hm s1 s2 H) as [E1 E2].
  destruct (m s1) as [r1 t1]; destruct (m s2) as [r2 t2].
  cbn [fst snd] in *. subst r2. split; [reflexivity | exact E2].
Qed.

Lemma blind_call : forall op params,
    blind (call_executeOperation env op params).
Proof.
  intros op params s1 s2 (Hw & Hh & Hp & Hd & Hpr & Hc).
  unfold call_executeOperation. rewrite Hw.
  destruct (executeOperation env op params (world s2)) as [o w'].
  cbn [fst snd]. split; [reflexivity|].
  unfold alike. cbn. rewrite Hc. repeat split; assumption.
Qed.

Lemma blind_blockCache_set : forall k v, blind (W := W) (blockCache_set k v).
Proof.
  intros k v s1 s2 (Hw & Hh & Hp & Hd & Hpr & Hc).
  split; [reflexivity|]. unfold alike. cbn. repeat split; assumption.
Qed.

Lemma blind_commentCache_set : forall k v, blind (W := W) (commentCache_set k v).
Proof.
  intros k v s1 s2 (Hw & Hh & Hp & Hd & Hpr & Hc).
  split; [reflexivity|]. unfold alike. cbn. repeat split; assumption.
Qed.

Lemma blind_databaseCache_set : forall k v,
    blind (W := W) (databaseCache_set k v).
Proof.
  intros k v s1 s2 (Hw & Hh & Hp & Hd & Hpr & Hc).
  split; [reflexivity|]. unfold alike. cbn. rewrite Hd.
  repeat split; assumption.
Qed.

Lemma blind_propertyCache_set : forall k v,
    blind (W := W) (propertyCache_set k v).
Proof.
  intros k v s1 s2 (Hw & Hh & Hp & Hd & Hpr & Hc).
  split; [reflexivity|]. unfold alike. cbn. rewrite Hpr.
  repeat split; assumption.
Qed.

Lemma blind_pageCache_set : forall k v, blind (W := W) (pageCache_set k v).
Proof.
  intros k v s1 s2 (Hw & Hh & Hp & Hd & Hpr & Hc).
  unfold pageCache_set. cbn [fst snd]. rewrite Hh, Hp.
  split; [reflexivity|]. unfold alike. cbn. repeat split; assumption.
Qed.

Lemma blind_heap_update : forall ref f, blind (W := W) (heap_update ref f).
Proof.
  intros ref f s1 s2 (Hw & Hh & Hp & Hd & Hpr & Hc).
  split; [reflexivity|]. unfold alike. cbn. rewrite Hh.
  repeat split; assumption.
Qed.

(** Reading the state: what is done with it must not depend on the two
    caches. *)
Lemma blind_get : forall A (k : State (W := W) -> M A),
    (forall s1 s2, alike s1 s2 -> k s1 = k s2) ->
    (forall s, blind (k s)) ->
    blind (bind get_state k).
Proof.
  intros A k Hk Hb s1 s2 H. unfold bind, get_state.
  rewrite (Hk s1 s2 H). apply Hb. exact H.
Qed.

End WriteOnlyCaches.

Ltac blind_known := fail.

Ltac blind_read :=
  let s1 := fresh "s" in
  let s2 := fresh "s" in
  let Hw := fresh "Hw" in
  let Hh := fresh "Hh" in
  let Hp := fresh "Hp" in
  let Hd := fresh "Hd" in
  let Hpr := fresh "Hpr" in
  let Hc := fresh "Hc" in
  intros s1 s2 (Hw & Hh & Hp & Hd & Hpr & Hc);
  unfold pageCache_get, heap_get;
  rewrite ?Hw, ?Hh, ?Hp, ?Hd, ?Hpr; reflexivity.

Ltac blind_tac :=
  first
    [ blind_known
    | apply blind_ret | apply blind_throw | apply blind_hang
    | apply blind_diverge | apply blind_lift
    | apply blind_await | apply blind_blockCache_set
    | apply blind_databaseCache_set | apply blind_commentCache_set
    | apply blind_propertyCache_set | apply blind_heap_update
    | apply blind_pageCache_set
    | apply blind_call
    | apply blind_race
    | apply blind_spawn
    | match goal with
      | |- blind (bind get_state _) => apply blind_get; [blind_read | intros]
      end
    | apply blind_bind; [|intros]
    | apply blind_try_catch; [|intros]
    | match goal with
      | |- blind (if ?c then _ else _) => destruct c
      | |- blind (match ?x with _ => _ end) => destruct x
      | |- blind (let (_, _) := ?x in _) => destruct x
      end ].

Ltac blind_auto := repeat blind_tac.

Section WriteOnlyCrawl.

Context {W : Type}.
Variable env : Collaborators W.

Lemma blind_pagination_loop : forall fuel op params results c reqs,
    blind (pagination_loop env fuel op params results c reqs).
Proof.
  induction fuel as [|fuel IH]; intros op params results c reqs;
    cbn [pagination_loop]; blind_auto; apply IH.
Qed.

Lemma blind_handleBlockChildrenParallel : forall fuel op params,
    blind (handleBlockChildrenParallel env fuel op params).
Proof.
  intros fuel op params. unfold handleBlockChildrenParallel.
  repeat first [ apply blind_pagination_loop | blind_tac ].
Qed.

Lemma blind_retrieveDatabase : forall databaseId options,
    blind (retrieveDatabase env databaseId options).
Proof. intros databaseId options. unfold retrieveDatabase. blind_auto. Qed.

Lemma blind_cache_comments : forall l, blind (W := W) (cache_comments l).
Proof.
  induction l as [|c l IH]; cbn [cache_comments]; blind_auto; apply IH.
Qed.

Lemma blind_retrieveComments : forall blockId options,
    blind (retrieveComments env blockId options).
Proof.
  intros blockId options. unfold retrieveComments.
  repeat first [ apply blind_cache_comments | blind_tac ].
Qed.

Lemma blind_property_task : forall ref pageId options i propName propId,
    blind (property_task env ref pageId options i propName propId).
Proof. intros. unfold property_task, set_details. blind_auto. Qed.

Lemma blind_property_tasks : forall ref pageId options entries i,
    blind (property_tasks env ref pageId options i entries).
Proof.
  intros ref pageId options entries.
  induction entries as [|[propName propData] rest IH]; intros i;
    cbn [property_tasks];
    repeat first [ apply blind_property_task | apply IH | blind_tac ].
Qed.

Lemma blind_enrichPageProperties : forall ref pageId properties options,
    blind (enrichPageProperties env ref pageId properties options).
Proof.
  intros. unfold enrichPageProperties.
  apply blind_bind; [apply blind_property_tasks | intros rs]. blind_auto.
Qed.

Lemma blind_retrievePageBasicInfo : forall pageId options,
    blind (retrievePageBasicInfo env pageId options).
Proof. intros pageId options. unfold retrievePageBasicInfo. blind_auto. Qed.

Lemma blind_spawn_all : forall A B (task : A -> M (W := W) B) items,
    (forall x, blind (task x)) -> blind (spawn_all task items).
Proof.
  intros A B task items Ht. induction items as [|x items IH];
    cbn [spawn_all]; repeat first [ apply Ht | exact IH | blind_tac ].
Qed.

Lemma blind_batch_loop : forall (task : JsValue -> M (W := W) JsValue) blocks size,
    (forall x, blind (task x)) ->
    forall fuel i acc, blind (batch_loop task fuel blocks size i acc).
Proof.
  intros task blocks size Ht fuel.
  induction fuel as [|fuel IH]; intros i acc; cbn [batch_loop];
    repeat first [ apply blind_spawn_all; exact Ht | apply IH | blind_tac ].
Qed.

Lemma blind_block_task : forall children options d block,
    (forall id, blind (children id)) ->
    blind (block_task env children options d block).
Proof.
  intros children options d block Hc. unfold block_task.
  repeat first [ apply Hc | apply blind_retrievePageBasicInfo
               | apply blind_retrieveDatabase | blind_tac ].
Qed.

Lemma blind_process_blocks :
  forall (task : JsValue -> M (W := W) JsValue) options blocks,
    (forall x, blind (task x)) ->
    blind (process_blocks env task options blocks).
Proof.
  intros task options blocks Ht. unfold process_blocks.
  repeat first [ apply blind_batch_loop; exact Ht | blind_tac ].
Qed.

Lemma blind_retrieveBlocks : forall depth fuel blockId options d,
    blind (retrieveBlocks env depth fuel blockId options d).
Proof.
  induction depth as [|depth IH]; intros fuel blockId options d;
    cbn [retrieveBlocks].
  - blind_auto.
  - destruct (d >=? effectiveMaxDepth options); [apply blind_ret|].
    apply blind_try_catch; [|intros e; apply blind_ret].
    destruct (findOperation env "API-get-block-children");
      [|apply blind_throw].
    apply blind_bind; [apply blind_handleBlockChildrenParallel | intros tr].
    apply blind_bind; [apply blind_lift|intros blocksData].
    apply blind_bind; [apply blind_lift|intros results].
    apply blind_process_blocks. intros x.
    apply blind_block_task. intros id. apply IH.
Qed.

Lemma blind_page_tasks : forall fuel ref pageId options d,
    blind (page_tasks env fuel ref pageId options d).
Proof.
  intros fuel ref pageId options d. unfold page_tasks, retrieveBlocksRecursively.
  repeat first [ apply blind_retrieveBlocks | apply blind_enrichPageProperties
               | apply blind_retrieveComments | blind_tac ].
Qed.

Lemma blind_expand_page : forall fuel ref pageId options d,
    blind (expand_page env fuel ref pageId options d).
Proof.
  intros fuel ref pageId options d. unfold expand_page, integrate.
  apply blind_bind; [apply blind_page_tasks | intros [[b [h p]] c]].
  blind_auto.
Qed.

Lemma blind_resolve_page : forall pageId options,
    blind (resolve_page env pageId options).
Proof. intros pageId options. unfold resolve_page. blind_auto. Qed.

Lemma blind_retrievePageRecursively : forall fuel pageId options d,
    blind (retrievePageRecursively env fuel pageId options d).
Proof.
  intros fuel pageId options d. unfold retrievePageRecursively.
  repeat first [ apply blind_resolve_page | apply blind_expand_page | blind_tac ].
Qed.

Lemma blind_handleOnePagerRequest : forall fuel params,
    blind (handleOnePagerRequest env fuel params).
Proof.
  intros fuel params. unfold handleOnePagerRequest.
  repeat first [ apply blind_retrievePageRecursively | blind_tac ].
Qed.

(** X27: The block cache and the comment cache are written and never read.
    Whatever the two caches hold when a run of the one-pager begins, the run
    returns the same body, makes the same remote calls, and leaves the same
    page store, page cache, database cache and property cache. *)
Theorem X27_block_and_comment_caches_are_never_read :
  forall fuel params (s : State (W := W)) blocks comments,
    fst (handleOnePagerRequest env fuel params
           (mkState (world s) (heap s) (pageCache s) blocks (databaseCache s)
                    comments (propertyCache s) (calls s)))
    = fst (handleOnePagerRequest env fuel params s)
    /\ alike
         (snd (handleOnePagerRequest env fuel params
                 (mkState (world s) (heap s) (pageCache s) blocks
                          (databaseCache s) comments (propertyCache s)
                          (calls s))))
         (snd (handleOnePagerRequest env fuel params s)).
Proof.
  intros fuel params s blocks comments.
  apply blind_handleOnePagerRequest.
  unfold alike. cbn. repeat split; reflexivity.
Qed.

End WriteOnlyCrawl.

(** ** An option without effect *)

Section IgnoredOption.

Context {W : Type}.
Variable env : Collaborators W.

Lemma same_refl : forall A (m : M (W := W) A), same m m.
Proof. intros A m s. reflexivity. Qed.

Lemma same_bind : forall A B (m1 m2 : M (W := W) A) (k1 k2 : A -> M B),
    same m1 m2 -> (forall a, same (k1 a) (k2 a)) ->
    same (bind m1 k1) (bind m2 k2).
Proof.
  intros A B m1 m2 k1 k2 Hm Hk s. unfold bind. rewrite (Hm s).
  destruct (m2 s) as [[a|e| |] s1]; try reflexivity. apply Hk.
Qed.

Lemma same_try_catch : forall A (m1 m2 : M (W := W) A) h1 h2,
    same m1 m2 -> (forall e, same (h1 e) (h2 e)) ->
    same (try_catch m1 h1) (try_catch m2 h2).
Proof.
  intros A m1 m2 h1 h2 Hm Hh s. unfold try_catch. rewrite (Hm s).
  destruct (m2 s) as [[a|e| |] s1]; try reflexivity. apply Hh.
Qed.

Lemma same_spawn : forall A (m1 m2 : M (W := W) A),
    same m1 m2 -> same (spawn m1) (spawn m2).
Proof. intros A m1 m2 Hm s. unfold spawn. rewrite (Hm s). reflexivity. Qed.

Lemma same_race : forall A o1 o2 (m1 m2 : M (W := W) A),
    timeoutMs o1 = timeoutMs o2 ->
    same m1 m2 -> same (race_timeout o1 m1) (race_timeout o2 m2).
Proof.
  intros A o1 o2 m1 m2 Ht Hm s. unfold race_timeout, timeout_error.
  rewrite (Hm s), Ht. reflexivity.
Qed.

Section TwoOptions.

Variables (a : Z) (b c d : bool) (e1 e2 : Z) (f : bool) (g h : Z).

Let O1 := mkOptions a b c d e1 f g h.
Let O2 := mkOptions a b c d e2 f g h.

Lemma blocks_ignore_parallel : forall depth fuel cur,
    (fun id => retrieveBlocks env depth fuel id O1 cur)
    = (fun id => retrieveBlocks env depth fuel id O2 cur).
Proof.
  induction depth as [|depth IH]; intros fuel cur.
  - reflexivity.
  - cbn [retrieveBlocks]. rewrite IH. reflexivity.
Qed.

Lemma properties_ignore_parallel : forall ref pageId entries i,
    property_tasks env ref pageId O1 i entries
    = property_tasks env ref pageId O2 i entries.
Proof.
  intros ref pageId.
  induction entries as [|[propName propData] rest IH]; intros i;
    cbn [property_tasks]; [reflexivity|].
  rewrite !IH. reflexivity.
Qed.

Lemma page_ignores_parallel : forall fuel pageId cur,
    same (retrievePageRecursively env fuel pageId O1 cur)
         (retrievePageRecursively env fuel pageId O2 cur).
Proof.
  intros fuel pageId cur. unfold retrievePageRecursively.
  apply same_try_catch; [|intros e; apply same_refl].
  change (cur >=? effectiveMaxDepth O2) with (cur >=? effectiveMaxDepth O1).
  destruct (cur >=? effectiveMaxDepth O1); [apply same_refl|].
  apply same_bind; [apply same_refl | intros [ref|node]; [|apply same_refl]].
  unfold expand_page.
  apply same_bind.
  - unfold page_tasks, retrieveBlocksRecursively.
    apply same_bind.
    + apply same_spawn. intros s.
      exact (f_equal (fun k => k (JStr pageId) s)
               (blocks_ignore_parallel
                  (Z.to_nat (effectiveMaxDepth O1 - (cur + 1))) fuel (cur + 1))).
    + intros blocksPromise.
      apply same_bind; [apply same_refl | intros s1].
      apply same_bind; [apply same_refl | intros hasProperties].
      apply same_bind; [|intros p; apply same_refl].
      destruct hasProperties; [|apply same_refl].
      apply same_spawn. unfold enrichPageProperties.
      apply same_bind; [|intros rs; apply same_refl].
      intros s. rewrite properties_ignore_parallel. reflexivity.
  - intros [[bP [hasP pP]] cP].
    apply same_bind; [|intros vs; apply same_refl].
    apply same_race; [reflexivity | apply same_refl].
Qed.

End TwoOptions.

(** X29: [maxParallelRequests] is taken and not used: two calls of the
    one-pager that differ in nothing but this argument return the same
    body and leave the proxy in the same state. *)
Theorem X29_maxParallelRequests_is_ignored :
  forall fuel pageId depth databases comments properties parallel parallel'
         skip batch timeout (s : State (W := W)),
    handleOnePagerRequest env fuel
      (mkParams pageId depth databases comments properties parallel
                skip batch timeout) s
    = handleOnePagerRequest env fuel
        (mkParams pageId depth databases comments properties parallel'
                  skip batch timeout) s.
Proof.
  intros fuel pageId depth databases comments properties parallel parallel'
         skip batch timeout.
  change (same
            (handleOnePagerRequest env fuel
               (mkParams pageId depth databases comments properties parallel
                         skip batch timeout))
            (handleOnePagerRequest env fuel
               (mkParams pageId depth databases comments properties parallel'
                         skip batch timeout))).
  unfold handleOnePagerRequest, options_of.
  cbn [page_id p_maxDepth p_includeDatabases p_includeComments
       p_includeProperties p_maxParallelRequests p_skipCache p_batchSize
       p_timeoutMs].
  apply same_try_catch; [|intros e; apply same_refl].
  apply same_bind; [apply same_refl | intros s0].
  apply same_bind; [apply page_ignores_parallel | intros pageData].
  apply same_refl.
Qed.

End IgnoredOption.

(** ** Tool names and the tool listing *)

Lemma substring_length : forall m s,
    String.length (substring 0 m s) = Nat.min m (String.length s).
Proof.
  induction m as [|m IH]; intros s.
  - destruct s; reflexivity.
  - destruct s as [|c s]; [reflexivity|].
    cbn [substring String.length Nat.min]. rewrite IH. reflexivity.
Qed.

Lemma substring_prefix : forall m s, String.prefix (substring 0 m s) s = true.
Proof.
  induction m as [|m IH]; intros s.
  - destruct s; reflexivity.
  - destruct s as [|c s]; [reflexivity|].
    cbn [substring String.prefix].
    destruct (ascii_dec c c) as [_|N]; [apply IH | contradiction].
Qed.

Lemma prefix_refl : forall s, String.prefix s s = true.
Proof.
  induction s as [|c s IH]; [reflexivity|].
  cbn [String.prefix]. destruct (ascii_dec c c) as [_|N]; [exact IH | contradiction].
Qed.

Lemma substring_all : forall m s,
    (String.length s <= m)%nat -> substring 0 m s = s.
Proof.
  induction m as [|m IH]; intros s H.
  - destruct s; [reflexivity | cbn in H; lia].
  - destruct s as [|c s]; [reflexivity|].
    cbn [substring]. rewrite IH; [reflexivity | cbn in H; lia].
Qed.

Lemma substring_app : forall p t,
    substring 0 (String.length p) (p ++ t) = p.
Proof.
  induction p as [|c p IH]; intros t.
  - destruct t; reflexivity.
  - cbn [String.length String.append substring]. rewrite IH. reflexivity.
Qed.

Lemma append_length : forall a b,
    String.length (a ++ b) = (String.length a + String.length b)%nat.
Proof.
  induction a as [|c a IH]; intros b; [reflexivity|].
  cbn [String.append String.length]. rewrite IH. reflexivity.
Qed.

Lemma truncate_length : forall name,
    String.length (truncateToolName name) = Nat.min (String.length name) 64.
Proof.
  intros name. unfold truncateToolName.
  destruct (String.length name <=? 64)%nat eqn:E.
  - apply Nat.leb_le in E. lia.
  - apply Nat.leb_gt in E. rewrite substring_length. lia.
Qed.

(** X1: A tool name is cut to its first 64 characters: the listed name is a
    prefix of the name, it has the length of the name or 64, whichever is
    smaller, a name of at most 64 characters is listed as it is, and cutting
    again changes nothing. Two names that share their first 64 characters
    are listed under one name. *)
Theorem X1_truncateToolName_keeps_first_64 :
  forall name,
    String.length (truncateToolName name) = Nat.min (String.length name) 64
    /\ String.prefix (truncateToolName name) name = true
    /\ ((String.length name <= 64)%nat -> truncateToolName name = name)
    /\ truncateToolName (truncateToolName name) = truncateToolName name
    /\ (forall p t t',
           String.length p = 64%nat ->
           name = p ++ t ->
           truncateToolName name = p
           /\ truncateToolName (p ++ t') = truncateToolName name).
Proof.
  intros name. split; [apply truncate_length|]. split; [|split; [|split]].
  - unfold truncateToolName.
    destruct (String.length name <=? 64)%nat;
      [apply prefix_refl | apply substring_prefix].
  - intros H. unfold truncateToolName.
    apply Nat.leb_le in H. rewrite H. reflexivity.
  - unfold truncateToolName at 1.
    pose proof (truncate_length name) as L.
    destruct (String.length (truncateToolName name) <=? 64)%nat eqn:E;
      [reflexivity|].
    apply Nat.leb_gt in E. lia.
  - intros p t t' Hp ->.
    assert (K : forall u, truncateToolName (p ++ u) = p).
    { intros u. unfold truncateToolName.
      destruct (String.length (p ++ u) <=? 64)%nat eqn:E.
      - apply Nat.leb_le in E. rewrite append_length in E.
        destruct u as [|c u]; [|cbn [String.length] in E; lia].
        clear. induction p as [|c p IH]; [reflexivity|].
        cbn [String.append]. rewrite IH. reflexivity.
      - rewrite <- Hp. apply substring_app. }
    rewrite !K. split; reflexivity.
Qed.

Lemma method_tools_names : forall toolName methods,
    Forall (fun t => (String.length (t_name t) <= 64)%nat)
           (method_tools toolName methods).
Proof.
  intros toolName methods. unfold method_tools.
  induction methods as [|m methods IH]; cbn [map]; constructor; [|exact IH].
  cbn [t_name]. rewrite truncate_length. lia.
Qed.

(** X2: The tool listing has one tool for every method of every entry of the
    tool table, in the order of the table, with the description and the
    input schema of the method, and the one-pager tool after them, also when
    the table is empty. No listed name has more than 64 characters. *)
Theorem X2_listTools_lists_every_method_then_one_pager :
  forall tools,
    List.length (listTools tools)
    = S (list_sum (map (fun entry => List.length (snd entry)) tools))
    /\ Forall (fun t => (String.length (t_name t) <= 64)%nat) (listTools tools)
    /\ (exists front,
           listTools tools = (front ++ [onePagerTool])%list
           /\ map (fun t => (t_description t, t_inputSchema t)) front
              = flat_map (fun entry =>
                            map (fun m => (m_description m, m_inputSchema m))
                                (snd entry))
                         tools
           /\ map t_name front
              = flat_map (fun entry =>
                            map (fun m => truncateToolName
                                            (fst entry ++ "-" ++ m_name m))
                                (snd entry))
                         tools)
    /\ listTools [] = [onePagerTool].
Proof.
  intros tools. unfold listTools. split; [|split; [|split]].
  - rewrite length_app. cbn [List.length]. rewrite Nat.add_1_r. f_equal.
    induction tools as [|[n ms] tools IH]; [reflexivity|].
    cbn [flat_map map list_sum fst snd]. rewrite length_app, IH.
    unfold method_tools. rewrite length_map. reflexivity.
  - apply Forall_app. split.
    + induction tools as [|[n ms] tools IH]; [constructor|].
      cbn [flat_map fst snd]. apply Forall_app. split;
        [apply method_tools_names | exact IH].
    + constructor; [|constructor]. apply Nat.leb_le. reflexivity.
  - eexists. split; [reflexivity|]. split.
    + induction tools as [|[n ms] tools IH]; [reflexivity|].
      cbn [flat_map fst snd]. rewrite map_app, IH. f_equal.
      unfold method_tools. rewrite map_map. reflexivity.
    + induction tools as [|[n ms] tools IH]; [reflexivity|].
      cbn [flat_map fst snd]. rewrite map_app, IH. f_equal.
      unfold method_tools. rewrite map_map. reflexivity.
  - reflexivity.
Qed.

(** ** The tool-call handler and the caches it feeds *)

Section HandlerFacts.

Context {W : Type}.
Variable env : Collaborators W.

Lemma cache_listed_comments_frame : forall comments (s : State (W := W)),
    same_but_comments s (snd (cache_listed_comments comments s))
    /\ fst (cache_listed_comments comments s) <> Hang
    /\ fst (cache_listed_comments comments s) <> Diverge.
Proof.
  induction comments as [|c comments IH]; intros s.
  - cbn. unfold same_but_comments. repeat split; discriminate.
  - cbn [cache_listed_comments].
    destruct (nullish c).
    + cbn. unfold same_but_comments. repeat split; discriminate.
    + unfold bind.
      destruct (value_eqb (prop c "object") (JStr "comment")
                && truthy (prop c "id")).
      * cbn [commentCache_set].
        match goal with
        | |- context [cache_listed_comments comments ?st] =>
            destruct (IH st) as ((A1 & A2 & A3 & A4 & A5 & A6 & A7) & B1 & B2)
        end.
        cbn in A1, A2, A3, A4, A5, A6, A7.
        unfold same_but_comments. repeat split; assumption.
      * cbn [ret]. apply IH.
Qed.

Lemma updateCache_returns : forall apiName data (s : State (W := W)),
    exists s',
      updateCacheFromResponse apiName data s = (Ret tt, s')
      /\ world s' = world s /\ calls s' = calls s.
Proof.
  intros apiName data s. unfold updateCacheFromResponse.
  destruct (negb (truthy data) || negb (typeof_object data)).
  { exists s. repeat split; reflexivity. }
  unfold try_catch.
  repeat match goal with
         | |- context [if ?b then _ else _] =>
             destruct b; try (eexists; repeat split; reflexivity)
         end.
  destruct (prop data "results") as [| |b|z|str|l|fs];
    try (exists s; repeat split; reflexivity).
  destruct (cache_listed_comments_frame l s)
    as ((A1 & A2 & A3 & A4 & A5 & A6 & A7) & B1 & B2).
  destruct (cache_listed_comments l s) as [[[]|e| |] s1]; cbn [fst snd] in *;
    try contradiction; eexists; (split; [reflexivity|]); split; assumption.
Qed.



(** X3: [updateCacheFromResponse] never throws and never waits, makes no
    remote call, and writes at most into the one cache that goes with the
    name of the operation: the page cache (and the page store) for
    [API-retrieve-a-page], the block cache for [API-retrieve-a-block], the
    database cache for [API-retrieve-a-database], the comment cache for
    [API-retrieve-a-comment]; the property cache is never written. *)
Theorem X3_updateCacheFromResponse_is_contained :
  forall apiName data (s : State (W := W)),
    exists s',
      updateCacheFromResponse apiName data s = (Ret tt, s')
      /\ world s' = world s
      /\ calls s' = calls s
      /\ propertyCache s' = propertyCache s
      /\ (apiName <> "API-retrieve-a-page" ->
          pageCache s' = pageCache s /\ heap s' = heap s)
      /\ (apiName <> "API-retrieve-a-block" -> blockCache s' = blockCache s)
      /\ (apiName <> "API-retrieve-a-database" ->
          databaseCache s' = databaseCache s)
      /\ (apiName <> "API-retrieve-a-comment" ->
          commentCache s' = commentCache s).
Proof.
  intros apiName data s. unfold updateCacheFromResponse.
  destruct (negb (truthy data) || negb (typeof_object data)).
  { exists s. repeat split; reflexivity. }
  unfold try_catch.
  destruct (String.eqb apiName "API-retrieve-a-page") eqn:E1.
  { apply String.eqb_eq in E1. subst apiName. cbn [andb].
    destruct (value_eqb (prop data "object") (JStr "page")
              && truthy (prop data "id")).
    - eexists. split; [reflexivity|]. cbn.
      repeat split; try reflexivity; congruence.
    - cbn. exists s. repeat split; reflexivity. }
  cbn [andb].
  destruct (String.eqb apiName "API-retrieve-a-block") eqn:E2.
  { apply String.eqb_eq in E2. subst apiName. cbn [andb].
    destruct (value_eqb (prop data "object") (JStr "block")
              && truthy (prop data "id")).
    - eexists. split; [reflexivity|]. cbn.
      repeat split; try reflexivity; congruence.
    - cbn. exists s. repeat split; reflexivity. }
  cbn [andb].
  destruct (String.eqb apiName "API-retrieve-a-database") eqn:E3.
  { apply String.eqb_eq in E3. subst apiName. cbn [andb].
    destruct (value_eqb (prop data "object") (JStr "database")
              && truthy (prop data "id")).
    - eexists. split; [reflexivity|]. cbn.
      repeat split; try reflexivity; congruence.
    - cbn. exists s. repeat split; reflexivity. }
  cbn [andb].
  destruct (String.eqb apiName "API-retrieve-a-comment") eqn:E4.
  { apply String.eqb_eq in E4. subst apiName. cbn [andb].
    destruct (truthy (prop data "results")).
    - assert (K : forall (m : M unit),
                 (forall st, same_but_comments st (snd (m st))
                             /\ fst (m st) <> Hang /\ fst (m st) <> Diverge) ->
                 exists s',
                   (let (r, s1) := m s in
                    match r with
                    | Throw _ => ret tt s1
                    | _ => (r, s1)
                    end) = (Ret tt, s')
                   /\ same_but_comments s s').
      { intros m Hm. destruct (Hm s) as (F & H1 & H2).
        destruct (m s) as [[[]|e| |] s1]; cbn [fst snd] in *;
          try contradiction; eexists; (split; [reflexivity | exact F]). }
      destruct (prop data "results") as [| |b|z|str|l|fs];
        try (exists s; split; [reflexivity|]; repeat split; reflexivity).
      destruct (K (cache_listed_comments l) (cache_listed_comments_frame l))
        as (s' & Run & A1 & A2 & A3 & A4 & A5 & A6 & A7).
      exists s'. split.
      + revert Run. destruct (cache_listed_comments l s) as [[[]|e| |] s1];
          intros Run; exact Run.
      + repeat split; try assumption; congruence.
    - cbn. exists s. repeat split; reflexivity. }
  cbn. exists s. repeat split; reflexivity.
Qed.

(** X4: A response body is cached under its own [id] when its [object] field
    is the kind its operation announces, and only then: a page body given to
    [updateCacheFromResponse] under [API-retrieve-a-page] is what the page
    cache then holds for its id, and likewise for blocks and databases; a
    body of another kind leaves the proxy as it was. *)
Theorem X4_updateCacheFromResponse_stores_by_own_id :
  forall fs id (s : State (W := W)),
    lookup_field "id" fs = Some (JStr id) ->
    id <> "" ->
    (lookup_field "object" fs = Some (JStr "page") ->
     pageCache_get
       (snd (updateCacheFromResponse "API-retrieve-a-page" (JObj fs) s))
       (JStr id) = JObj fs)
    /\ (lookup_field "object" fs = Some (JStr "block") ->
        cache_get
          (blockCache
             (snd (updateCacheFromResponse "API-retrieve-a-block" (JObj fs) s)))
          (JStr id) = Some (JObj fs))
    /\ (lookup_field "object" fs = Some (JStr "database") ->
        cache_get
          (databaseCache
             (snd (updateCacheFromResponse "API-retrieve-a-database"
                     (JObj fs) s)))
          (JStr id) = Some (JObj fs))
    /\ (forall kind apiName,
           lookup_field "object" fs = Some (JStr kind) ->
           kind <> "page" -> kind <> "block" -> kind <> "database" ->
           apiName <> "API-retrieve-a-comment" ->
           snd (updateCacheFromResponse apiName (JObj fs) s) = s).
Proof.
  intros fs id s Hid Hne.
  assert (T : truthy (JStr id) = true).
  { cbn. destruct id; [contradiction | reflexivity]. }
  split; [|split; [|split]].
  - intros Ho. unfold updateCacheFromResponse, try_catch, bind.
    cbn [truthy typeof_object negb orb String.eqb Ascii.eqb Bool.eqb andb prop].
    rewrite Ho, Hid. cbn [value_eqb String.eqb Ascii.eqb Bool.eqb andb].
    rewrite T. apply heap_get_fresh.
  - intros Ho. unfold updateCacheFromResponse, try_catch.
    cbn [truthy typeof_object negb orb String.eqb Ascii.eqb Bool.eqb andb prop].
    rewrite Ho, Hid. cbn [value_eqb String.eqb Ascii.eqb Bool.eqb andb].
    rewrite T. cbn. apply cache_get_set_same.
  - intros Ho. unfold updateCacheFromResponse, try_catch.
    cbn [truthy typeof_object negb orb String.eqb Ascii.eqb Bool.eqb andb prop].
    rewrite Ho, Hid. cbn [value_eqb String.eqb Ascii.eqb Bool.eqb andb].
    rewrite T. cbn. apply cache_get_set_same.
  - intros kind apiName Ho N1 N2 N3 N4.
    unfold updateCacheFromResponse, try_catch.
    cbn [truthy typeof_object negb orb prop]. rewrite Ho.
    cbn [value_eqb].
    apply String.eqb_neq in N1, N2, N3, N4. rewrite N1, N2, N3, N4.
    rewrite !andb_false_r. cbn [andb].
    repeat match goal with
           | |- context [if ?b then _ else _] => destruct b
           end; reflexivity.
Qed.

Lemma caught_never_throws : forall A (m : M (W := W) A) (h : JsError -> A) s e,
    fst (try_catch m (fun error => ret (h error)) s) <> Throw e.
Proof.
  intros A m h s e. unfold try_catch.
  destruct (m s) as [[a|e'| |] s1]; cbn; discriminate.
Qed.

(** X5: The tool-call handler never rejects, whatever the tool name, the
    arguments and the remote side do, and whatever the one-pager call does:
    an error thrown on the way is answered as a body. A name that is not in
    the operation table is answered with the body [{status: "error",
    message: "Method <name> not found.", code: 404}] and leaves the proxy
    untouched: no remote call, no cache write. *)
Theorem X5_callToolHandler_never_rejects :
  forall fuel onePager name params (s : State (W := W)),
    (forall e, fst (callToolHandler env fuel onePager name params s) <> Throw e)
    /\ (name <> "API-get-one-pager" ->
        findOperation env name = None ->
        callToolHandler env fuel onePager name params s
        = (Ret (mkToolResult
                  (Some (JObj [("status", JStr "error");
                               ("message",
                                JStr ("Method " ++ name ++ " not found."));
                               ("code", JNum 404)]))), s))
    /\ (forall e s1,
           name = "API-get-one-pager" ->
           onePager s = (Throw e, s1) ->
           callToolHandler env fuel onePager name params s
           = (Ret (mkToolResult (JSON_stringify (tool_error e))), s1)).
Proof.
  intros fuel onePager name params s. split; [|split].
  - intros e. unfold callToolHandler. apply caught_never_throws.
  - intros N Hf. unfold callToolHandler, try_catch.
    apply String.eqb_neq in N. rewrite N, Hf. reflexivity.
  - intros e s1 -> Run. unfold callToolHandler, try_catch.
    cbn [String.eqb Ascii.eqb Bool.eqb]. rewrite Run. reflexivity.
Qed.

Lemma handler_remote_call :
  forall fuel onePager name params (s : State (W := W)) operation o w',
    name <> "API-get-one-pager" ->
    name <> "API-get-block-children" ->
    findOperation env name = Some operation ->
    executeOperation env operation params (world s) = (o, w') ->
    callToolHandler env fuel onePager name params s
    = match o with
      | Resolved response =>
          (Ret (mkToolResult (JSON_stringify (data response))),
           snd (updateCacheFromResponse name (data response)
                  (called s operation params w')))
      | Rejected error =>
          (Ret (mkToolResult (JSON_stringify (tool_error error))),
           called s operation params w')
      | Pending => (Hang, called s operation params w')
      end.
Proof.
  intros fuel onePager name params s operation o w' N1 N2 Hf Ex.
  unfold callToolHandler, try_catch.
  apply String.eqb_neq in N1, N2. rewrite N1, Hf, N2.
  unfold bind at 1. unfold call_executeOperation. rewrite Ex.
  fold (called s operation params w').
  destruct o as [response|error|]; [|reflexivity|reflexivity].
  unfold bind at 1. cbn [await ret].
  destruct (updateCache_returns name (data response)
              (called s operation params w')) as (s' & Run & _).
  unfold bind. rewrite Run. reflexivity.
Qed.

(** X6: A tool call that goes to the remote side as it is (a name in the
    operation table other than the two the handler treats itself) makes
    exactly one remote call, with the arguments it was given. The body of
    the answer is passed on whatever its status; a rejection is answered
    with the error body: [code] is the status of an [HttpClientError] and
    500 for any other error; and while the answer is outstanding the handler
    waits. *)
Theorem X6_callToolHandler_passes_the_answer_on :
  forall fuel onePager name params (s : State (W := W)) operation o w',
    name <> "API-get-one-pager" ->
    name <> "API-get-block-children" ->
    findOperation env name = Some operation ->
    executeOperation env operation params (world s) = (o, w') ->
    calls (snd (callToolHandler env fuel onePager name params s))
    = (calls s ++ [mkCall operation params])%list
    /\ world (snd (callToolHandler env fuel onePager name params s)) = w'
    /\ fst (callToolHandler env fuel onePager name params s)
       = match o with
         | Resolved response =>
             Ret (mkToolResult (JSON_stringify (data response)))
         | Rejected error =>
             Ret (mkToolResult (JSON_stringify (tool_error error)))
         | Pending => Hang
         end
    /\ (forall message st d,
           prop (tool_error (HttpClientError message st d)) "code" = JNum st
           /\ prop (tool_error (HttpClientError message st d)) "message"
              = JStr message)
    /\ (forall name' message,
           prop (tool_error (PlainError name' message)) "code" = JNum 500).
Proof.
  intros fuel onePager name params s operation o w' N1 N2 Hf Ex.
  rewrite (handler_remote_call fuel onePager name params s operation o w'
             N1 N2 Hf Ex).
  destruct o as [response|error|].
  - destruct (updateCache_returns name (data response)
                (called s operation params w')) as (s' & Run & Hw & Hc).
    rewrite Run. cbn [fst snd]. rewrite Hw, Hc.
    repeat split; reflexivity.
  - repeat split; reflexivity.
  - repeat split; reflexivity.
Qed.

End HandlerFacts.

Section HandlerCompositionFacts.

Context {W : Type}.
Variable env : Collaborators W.

Lemma page_update_state : forall fs id (s : State (W := W)),
    lookup_field "object" fs = Some (JStr "page") ->
    lookup_field "id" fs = Some (JStr id) ->
    id <> "" ->
    snd (updateCacheFromResponse "API-retrieve-a-page" (JObj fs) s)
    = snd (pageCache_set (JStr id) (JObj fs) s).
Proof.
  intros fs id s Ho Hid Hne.
  unfold updateCacheFromResponse, try_catch, bind.
  cbn [truthy typeof_object negb orb String.eqb Ascii.eqb Bool.eqb andb prop].
  rewrite Ho, Hid. cbn [value_eqb String.eqb Ascii.eqb Bool.eqb andb truthy].
  destruct id; [contradiction | reflexivity].
Qed.

(** X7: A page fetched through the plain tool [API-retrieve-a-page] is put
    into the page cache under the [id] of the body, whatever the status of
    the answer, and the one-pager reads that cache: a later one-pager call
    for that id with [skipCache = false] makes no document-retrieval call.
    *)
Theorem X7_tool_call_feeds_the_one_pager_cache :
  forall fuel fuel' onePager params (s : State (W := W)) operation r w' fs p,
    findOperation env "API-retrieve-a-page" = Some operation ->
    executeOperation env operation params (world s) = (Resolved r, w') ->
    data r = JObj fs ->
    lookup_field "object" fs = Some (JStr "page") ->
    lookup_field "id" fs = Some (JStr (page_id p)) ->
    page_id p <> "" ->
    skipCache (options_of p) = false ->
    pageCache_get
      (snd (callToolHandler env fuel onePager "API-retrieve-a-page" params s))
      (JStr (page_id p)) = data r
    /\ page_calls (page_id p)
         (calls (snd (handleOnePagerRequest env fuel' p
                        (snd (callToolHandler env fuel onePager
                                "API-retrieve-a-page" params s)))))
       = page_calls (page_id p)
           (calls (snd (callToolHandler env fuel onePager
                          "API-retrieve-a-page" params s))).
Proof.
  intros fuel fuel' onePager params s operation r w' fs p Hf Ex Hd Ho Hid Hne Hs.
  rewrite (handler_remote_call env fuel onePager "API-retrieve-a-page" params s
             operation (Resolved r) w') by (try discriminate; assumption).
  cbn [snd]. rewrite Hd.
  rewrite (page_update_state fs (page_id p) _ Ho Hid Hne).
  split.
  - apply heap_get_fresh.
  - apply served_from_cache; [exact Hs|].
    unfold pageCache_set. cbn [snd pageCache]. unfold cache_has.
    rewrite cache_get_set_same. reflexivity.
Qed.

Lemma lookup_none_not_in : forall k fs,
    lookup_field k fs = None -> ~ In k (map fst fs).
Proof.
  intros k fs. induction fs as [|[k' v'] fs IH]; cbn [lookup_field map fst In].
  - intros _ [].
  - destruct (String.eqb k k') eqn:E; [discriminate|].
    intros H [->|H']; [|exact (IH H H')].
    rewrite String.eqb_refl in E. discriminate.
Qed.

Lemma lookup_assign_other : forall k fs acc,
    ~ In k (map fst fs) ->
    lookup_field k
      (fold_left (fun acc kv => set_field (fst kv) (snd kv) acc) fs acc)
    = lookup_field k acc.
Proof.
  intros k fs. induction fs as [|[k' v'] fs IH]; intros acc H; [reflexivity|].
  cbn [fold_left fst snd]. cbn [map fst In] in H.
  rewrite IH by tauto. apply lookup_set_other. intros ->. tauto.
Qed.

Lemma lookup_assign_same : forall k v fs acc,
    lookup_field k fs = Some v ->
    NoDup (map fst fs) ->
    lookup_field k
      (fold_left (fun acc kv => set_field (fst kv) (snd kv) acc) fs acc)
    = Some v.
Proof.
  intros k v fs. induction fs as [|[k' v'] fs IH]; intros acc H ND;
    [discriminate|].
  cbn [fold_left fst snd]. cbn [lookup_field] in H. cbn [map fst] in ND.
  inversion ND as [|? ? Hnot ND']. subst.
  destruct (String.eqb k k') eqn:E.
  - apply String.eqb_eq in E. subst k'. inversion H. subst v'.
    rewrite lookup_assign_other by exact Hnot. apply lookup_set_same.
  - apply IH; assumption.
Qed.

(** X8: The handler of the earlier revision does throw: a name that is not
    in the operation table is answered with an [Error] and not with a body,
    and a rejection that is no [HttpClientError] is thrown on as it is. For
    an [HttpClientError] whose data is an object the body is [{status:
    "error", ...data}], so that a [status] field of the data replaces
    ["error"]. *)
Theorem X8_earlier_handler_throws_and_spreads_error_data :
  forall fuel name params (s : State (W := W)),
    (findOperation env name = None ->
     Part000.callToolHandler env fuel name params s
     = (Throw (new_Error (Part000.not_found_message name)), s))
    /\ (forall operation errName message w',
           name <> "API-get-block-children" ->
           findOperation env name = Some operation ->
           executeOperation env operation params (world s)
           = (Rejected (PlainError errName message), w') ->
           fst (Part000.callToolHandler env fuel name params s)
           = Throw (PlainError errName message))
    /\ (forall operation message st fs w',
           name <> "API-get-block-children" ->
           findOperation env name = Some operation ->
           executeOperation env operation params (world s)
           = (Rejected (HttpClientError message st (JObj fs)), w') ->
           lookup_field "response" fs = None ->
           fst (Part000.callToolHandler env fuel name params s)
           = Ret (mkToolResult
                    (Some (json_norm (Part000.error_with (JObj fs)))))
           /\ (lookup_field "status" fs = None ->
               prop (json_norm (Part000.error_with (JObj fs))) "status"
               = JStr "error")
           /\ (forall v,
                  lookup_field "status" fs = Some v ->
                  NoDup (map fst fs) -> v <> JUndef ->
                  prop (json_norm (Part000.error_with (JObj fs))) "status"
                  = json_norm v)).
Proof.
  intros fuel name params s. split; [|split].
  - intros Hf. unfold Part000.callToolHandler. rewrite Hf. reflexivity.
  - intros operation errName message w' N Hf Ex.
    unfold Part000.callToolHandler, try_catch. rewrite Hf.
    apply String.eqb_neq in N. rewrite N.
    unfold bind at 1. unfold call_executeOperation. rewrite Ex. reflexivity.
  - intros operation message st fs w' N Hf Ex Hr. split; [|split].
    + unfold Part000.callToolHandler, try_catch. rewrite Hf.
      apply String.eqb_neq in N. rewrite N.
      unfold bind at 1. unfold call_executeOperation. rewrite Ex.
      cbn [await throw bind fst]. unfold http_error_data.
      cbn [opt_prop nullish prop]. rewrite Hr. reflexivity.
    + intros Hn. unfold Part000.error_with. cbn [js_entries].
      rewrite (prop_json_norm_obj "status" _ (JStr "error"));
        [reflexivity | | discriminate].
      rewrite lookup_assign_other by (apply lookup_none_not_in; exact Hn).
      reflexivity.
    + intros v Hv ND Hu. unfold Part000.error_with. cbn [js_entries].
      apply prop_json_norm_obj; [|exact Hu].
      apply lookup_assign_same; assumption.
Qed.

(** X9: The base-URL check at the head of the constructor: a document
    without [servers], or whose first server has no [url] or an empty one,
    is refused with the error [No base URL found in OpenAPI spec]; a
    document whose [servers] is an empty array is refused with a [TypeError]
    instead; for every other document the base URL is the [url] of the first
    server. *)
Theorem X9_constructor_needs_a_base_url :
  forall fields,
    (lookup_field "servers" fields = None ->
     constructor_baseUrl (JObj fields)
     = Throw (new_Error "No base URL found in OpenAPI spec"))
    /\ (lookup_field "servers" fields = Some (JArr []) ->
        constructor_baseUrl (JObj fields)
        = Throw (TypeError_read JUndef "url"))
    /\ (forall server rest,
           lookup_field "servers" fields = Some (JArr (JObj server :: rest)) ->
           constructor_baseUrl (JObj fields)
           = match lookup_field "url" server with
             | Some v =>
                 if truthy v then Ret v
                 else Throw (new_Error "No base URL found in OpenAPI spec")
             | None => Throw (new_Error "No base URL found in OpenAPI spec")
             end).
Proof.
  intros fields. split; [|split].
  - intros H. unfold constructor_baseUrl, get_prop. cbn [nullish prop].
    rewrite H. reflexivity.
  - intros H. unfold constructor_baseUrl, get_prop. cbn [nullish prop].
    rewrite H. reflexivity.
  - intros server rest H. unfold constructor_baseUrl, get_prop.
    cbn [nullish prop]. rewrite H. cbn.
    destruct (lookup_field "url" server) as [v|]; [|reflexivity].
    destruct (truthy v); reflexivity.
Qed.

End HandlerCompositionFacts.


(** ** Runs of the pagination merge *)

(** C1: on a listing of three pages P1, P2, P3 of sizes 2, 2 and 1 the
    merge does not return P1 ++ P2 ++ P3: the loop sends the request for the
    page after a cursor five times before it reads any answer, so it fetches
    P2 five times and P3 five times (eleven calls in all) and returns the 17
    items P1 ++ P2 x 5 ++ P3 x 5. *)
Theorem C1_later_pages_fetched_five_times :
  let run := handleBlockChildrenParallel (mk_env lookup three_pages) 10
               op_children children_params proxy0 in
  let P1 := [blk "a1"; blk "a2"] in
  let P2 := [blk "b1"; blk "b2"] in
  let P3 := [blk "c1"] in
  results_of (fst run)
  = JArr (P1 ++ (P2 ++ P2 ++ P2 ++ P2 ++ P2) ++ (P3 ++ P3 ++ P3 ++ P3 ++ P3))
  /\ results_of (fst run) <> JArr (P1 ++ P2 ++ P3)
  /\ List.length (calls (snd run)) = 11%nat
  /\ List.length (calls_with_cursor "cursor-2" (calls (snd run))) = 5%nat
  /\ List.length (calls_with_cursor "cursor-3" (calls (snd run))) = 5%nat.
Proof.
  cbv zeta. repeat split; try (vm_compute; reflexivity).
  vm_compute. discriminate.
Qed.

(** A remote side that rejects every request, and a two-page listing
    whose second page is rejected. *)
Lemma C5_witness :
  fst (handleBlockChildrenParallel (mk_env lookup always_fails) 5
         op_children children_params proxy0)
  = Throw (HttpClientError "Service unavailable" 503 JNull)
  /\ results_of
       (fst (handleBlockChildrenParallel (mk_env lookup second_page_fails) 5
               op_children children_params proxy0))
     = JArr [blk "a1"; blk "a2"].
Proof.
  split.
  - apply (proj1 (C5_merge_fails_fast_then_truncates
                    (mk_env lookup always_fails) 5 op_children children_params
                    proxy0)).
    reflexivity.
  - rewrite (proj1 (proj2 (proj2 (C5_merge_fails_fast_then_truncates
                             (mk_env lookup second_page_fails) 5 op_children
                             children_params proxy0)))
               (mkResponse 200
                  (JObj [("object", JStr "list");
                         ("results", JArr [blk "a1"; blk "a2"]);
                         ("next_cursor", JStr "cursor-2");
                         ("has_more", JBool true);
                         ("type", JStr "block")]))
               [blk "a1"; blk "a2"]).
    + reflexivity.
    + reflexivity.
    + reflexivity.
    + reflexivity.
    + reflexivity.
    + lia.
    + intros w. simpl. exact I.
Defined.

(** The two-page listing whose second page is rejected: the response is
    returned, with the merged flags and the first page's other fields. *)
Lemma C10_witness :
  exists tr,
    fst (handleBlockChildrenParallel (mk_env lookup second_page_fails) 5
           op_children children_params proxy0) = Ret tr
    /\ exists body,
         text tr = Some body
         /\ prop body "has_more" = JBool false
         /\ prop body "next_cursor" = JNull
         /\ prop body "type" = JStr "block"
         /\ prop body "object" = JStr "list".
Proof.
  pose (r := mkResponse 200
               (JObj [("object", JStr "list");
                      ("results", JArr [blk "a1"; blk "a2"]);
                      ("next_cursor", JStr "cursor-2");
                      ("has_more", JBool true);
                      ("type", JStr "block")])).
  destruct (C10_merged_response_top_level
              (mk_env lookup second_page_fails) 5 op_children children_params
              proxy0 r eq_refl eq_refl) as [Fields Returns].
  destruct (Returns [blk "a1"; blk "a2"] eq_refl eq_refl (le_n 5)
              (fun w => I)) as [tr Htr].
  exists tr. split; [exact Htr|].
  destruct (handleBlockChildrenParallel (mk_env lookup second_page_fails) 5
              op_children children_params proxy0) as [res s'] eqn:Run.
  cbn [fst] in Htr. subst res.
  destruct (Fields tr s' eq_refl) as (results & body & Ht & _ & Hm & Hc & Hk).
  exists body. split; [exact Ht|]. split; [exact Hm|]. split; [exact Hc|].
  split; apply Hk; try discriminate; reflexivity.
Defined.

(** ** Runs of the aggregate operation *)



(** C3, as stated, fails: the comment listing does not answer in time;
    by then the page and its three blocks have been fetched (they are in
    the caches), yet the node returned has the four fields of the timeout
    node and [_meta], and neither the page's properties nor any content. *)
Lemma C3_counterexample :
  let run := handleOnePagerRequest (mk_env lookup comments_pending) 10
               (request None None) proxy0 in
  prop (body_of (fst run)) "partial_results" = JBool true
  /\ prop (body_of (fst run)) "error" = JStr "Operation timed out"
  /\ cache_has (pageCache (snd run)) (JStr "test-page-id") = true
  /\ List.length (blockCache (snd run)) = 3%nat
  /\ List.length (filter (fun c => String.eqb (operationId (call_op c))
                                                "get-block-children")
                         (calls (snd run))) = 1%nat
  /\ prop (body_of (fst run)) "content" = JUndef
  /\ prop (body_of (fst run)) "properties" = JUndef
  /\ prop (body_of (fst run)) "detailed_properties" = JUndef
  /\ map fst (js_entries (body_of (fst run)))
     = ["id"; "error"; "partial_results"; "note"; "_meta"].
Proof.
  cbv zeta. repeat split; vm_compute; reflexivity.
Qed.

(** The test page, already cached, with a comment listing that does not
    answer in time. *)
Lemma C3_witness :
  retrievePageRecursively (mk_env lookup comments_pending) 10 "test-page-id"
    (options_of (request None None)) 0 page_cached
  = (Ret (JObj [("id", JStr "test-page-id");
                ("error", JStr "Operation timed out");
                ("partial_results", JBool true);
                ("note", JStr "Processing exceeded timeout limit (60000ms)")]),
     snd (page_tasks (mk_env lookup comments_pending) 10 0 "test-page-id"
            (options_of (request None None)) 0 page_cached)).
Proof.
  destruct (page_tasks (mk_env lookup comments_pending) 10 0 "test-page-id"
              (options_of (request None None)) 0 page_cached)
    as [[[[b [h p]] c]|e| |] s2] eqn:T;
    try (vm_compute in T; discriminate).
  cbn [snd].
  apply (C3_timeout_node_carries_no_data (mk_env lookup comments_pending) 10
           "test-page-id" (options_of (request None None)) 0
           page_cached page_cached s2 0%nat b h p c).
  - vm_compute. reflexivity.
  - vm_compute. reflexivity.
  - exact T.
  - vm_compute in T. inversion T. subst. vm_compute. reflexivity.
Defined.

(** C4, as stated, fails: with an operation table in which
    [API-retrieve-a-page] is not found, the body is the error node of the
    root with [_meta] added; it has none of the fields [status], [message],
    [code], [timestamp] of the error envelope. *)
Lemma C4_counterexample :
  let run := handleOnePagerRequest (mk_env lookup_nothing healthy) 10
               (request None None) proxy0 in
  prop (body_of (fst run)) "error" = JStr "API-retrieve-a-page method not found."
  /\ prop (body_of (fst run)) "retrievalFailed" = JBool true
  /\ prop (body_of (fst run)) "status" = JUndef
  /\ prop (body_of (fst run)) "message" = JUndef
  /\ prop (body_of (fst run)) "code" = JUndef
  /\ prop (body_of (fst run)) "timestamp" = JUndef
  /\ map fst (js_entries (body_of (fst run)))
     = ["id"; "error"; "retrievalFailed"; "_meta"].
Proof.
  cbv zeta. repeat split; vm_compute; reflexivity.
Qed.

(** The test page with an operation table that finds nothing. *)
Lemma C4_witness :
  handleOnePagerRequest (mk_env lookup_nothing healthy) 10 (request None None)
    proxy0
  = (Ret (mkToolResult
            (Some (JObj [("id", JStr "test-page-id");
                         ("error", JStr "API-retrieve-a-page method not found.");
                         ("retrievalFailed", JBool true);
                         ("_meta",
                          JObj [("processingTimeMs", JNum 0);
                                ("retrievedAt", JStr "T0");
                                ("options",
                                 JObj [("maxDepth", JNum 5);
                                       ("includeDatabases", JBool true);
                                       ("includeComments", JBool true);
                                       ("includeProperties", JBool true)])])]))),
     proxy0).
Proof.
  apply (proj1 (C4_missing_operation_gives_error_node
                  (mk_env lookup_nothing healthy) 10 (request None None) proxy0)).
  - reflexivity.
  - vm_compute. reflexivity.
  - right. reflexivity.
Defined.

(** C6, as stated, fails: the page cannot be retrieved, so nothing is
    cached, and the second run with [skipCache = false] asks for it again:
    two document-retrieval calls for the same root. *)
Lemma C6_counterexample :
  let env := mk_env lookup page_unavailable in
  let s1 := snd (handleOnePagerRequest env 10 (request None (Some false)) proxy0) in
  let s2 := snd (handleOnePagerRequest env 10 (request None (Some false)) s1) in
  page_calls "test-page-id" (calls s1) = 1%nat
  /\ cache_has (pageCache s1) (JStr "test-page-id") = false
  /\ page_calls "test-page-id" (calls s2) = 2%nat.
Proof.
  cbv zeta. repeat split; vm_compute; reflexivity.
Qed.

(** Three runs on the test page: the first retrieves it, the second is
    served from the cache, the third, with [skipCache = true], retrieves it
    again. *)
Lemma C6_witness :
  let env := mk_env lookup healthy in
  let s1 := snd (handleOnePagerRequest env 10 (request None None) proxy0) in
  let s2 := snd (handleOnePagerRequest env 10 (request None None) s1) in
  let s3 := snd (handleOnePagerRequest env 10 (request None (Some true)) s2) in
  page_calls "test-page-id" (calls s1) = 1%nat
  /\ page_calls "test-page-id" (calls s2) = 1%nat
  /\ exists rest,
       calls s3
       = (calls s2 ++ mkCall op_page (JObj [("page_id", JStr "test-page-id")])
                   :: rest)%list.
Proof.
  cbv zeta.
  pose proof (C6_root_page_cache_and_fresh_retrieval (mk_env lookup healthy) 10
                (request None None) proxy0) as [_ [Twice _]].
  destruct (Twice op_page (mkResponse 200 the_page) 1 10%nat (request None None)
              eq_refl eq_refl eq_refl eq_refl eq_refl eq_refl eq_refl eq_refl)
    as [One Two].
  split; [exact One|]. split; [exact Two|].
  apply (proj2 (proj2 (C6_root_page_cache_and_fresh_retrieval
                         (mk_env lookup healthy) 10 (request None (Some true))
                         (snd (handleOnePagerRequest (mk_env lookup healthy) 10
                                 (request None None)
                                 (snd (handleOnePagerRequest
                                         (mk_env lookup healthy) 10
                                         (request None None) proxy0))))))).
  - reflexivity.
  - vm_compute. reflexivity.
  - reflexivity.
Defined.

(** A page with a property [Link] whose identifier is [notion://link]. *)
Lemma C7_witness :
  exists s',
    property_task (mk_env lookup healthy) 0 "test-page-id"
      (options_of (request None None)) 1 "Link" (JStr "notion://link") page_cached
    = (Ret tt, s')
    /\ prop (prop (prop (heap_get s' 0) "properties") "Link") "details"
       = JObj [("object", JStr "property_item");
               ("type", JStr "unsupported");
               ("unsupported", JObj [("type", JStr "special_url_format")])]
    /\ calls s' = calls page_cached
    /\ propertyCache s' = [].
Proof.
  destruct (C7_internal_link_property_is_skipped (mk_env lookup healthy) 0
              "test-page-id" (options_of (request None None)) 1 "Link"
              "notion://link" page_cached eq_refl (or_intror eq_refl))
    as (s' & Run & _ & Details & Calls & Cache & _).
  exists s'. split; [exact Run|]. split; [|split; [exact Calls|exact Cache]].
  apply (Details (js_entries the_page)
                 [("title", JObj [("id", JStr "title"); ("type", JStr "title")]);
                  ("Link", JObj [("id", JStr "notion://link"); ("type", JStr "url")])]
                 (JObj [("id", JStr "notion://link"); ("type", JStr "url")]));
    reflexivity.
Defined.



(** ** Runs of the handlers and of the helper retrievals *)

(** A short name is listed as it is; two names that share their first 64
    characters are listed under the same name. *)
Lemma X1_witness :
  truncateToolName "API-get-one-pager" = "API-get-one-pager"
  /\ truncateToolName (name_of_64 ++ "-by-id") = name_of_64
  /\ truncateToolName (name_of_64 ++ "-by-name")
     = truncateToolName (name_of_64 ++ "-by-id").
Proof.
  split.
  - apply (proj1 (proj2 (proj2 (X1_truncateToolName_keeps_first_64
                                  "API-get-one-pager")))).
    apply Nat.leb_le. reflexivity.
  - apply (proj2 (proj2 (proj2 (proj2 (X1_truncateToolName_keeps_first_64
                                         (name_of_64 ++ "-by-id")))))
             name_of_64 "-by-id" "-by-name");
      reflexivity.
Defined.

(** The test page, given to the cache as the answer of
    [API-retrieve-a-page]. *)
Lemma X4_witness :
  pageCache_get
    (snd (updateCacheFromResponse "API-retrieve-a-page" the_page proxy0))
    (JStr "test-page-id") = the_page.
Proof.
  apply (proj1 (X4_updateCacheFromResponse_stores_by_own_id
                  (js_entries the_page) "test-page-id" proxy0 eq_refl
                  ltac:(discriminate))).
  reflexivity.
Defined.

(** A tool that is not in the table of the server. *)
Lemma X5_witness :
  callToolHandler (mk_env lookup healthy) 10
    (handleOnePagerRequest (mk_env lookup healthy) 10 (request None None))
    "API-delete-a-block" (JObj [("block_id", JStr "block-1")]) proxy0
  = (Ret (mkToolResult
            (Some (JObj [("status", JStr "error");
                         ("message",
                          JStr "Method API-delete-a-block not found.");
                         ("code", JNum 404)]))), proxy0).
Proof.
  apply (proj1 (proj2 (X5_callToolHandler_never_rejects (mk_env lookup healthy)
                         10 (handleOnePagerRequest (mk_env lookup healthy) 10
                               (request None None))
                         "API-delete-a-block"
                         (JObj [("block_id", JStr "block-1")]) proxy0))).
  - discriminate.
  - reflexivity.
Defined.

(** The database of the workspace, retrieved through the plain tool. *)
Lemma X6_witness :
  fst (callToolHandler (mk_env lookup healthy) 10
         (handleOnePagerRequest (mk_env lookup healthy) 10 (request None None))
         "API-retrieve-a-database" (JObj [("database_id", JStr "db-1")]) proxy0)
  = Ret (mkToolResult (Some the_database))
  /\ calls (snd (callToolHandler (mk_env lookup healthy) 10
                   (handleOnePagerRequest (mk_env lookup healthy) 10
                      (request None None))
                   "API-retrieve-a-database"
                   (JObj [("database_id", JStr "db-1")]) proxy0))
     = [mkCall op_database (JObj [("database_id", JStr "db-1")])].
Proof.
  destruct (X6_callToolHandler_passes_the_answer_on (mk_env lookup healthy) 10
              (handleOnePagerRequest (mk_env lookup healthy) 10
                 (request None None))
              "API-retrieve-a-database" (JObj [("database_id", JStr "db-1")])
              proxy0 op_database (Resolved (mkResponse 200 the_database)) 1
              ltac:(discriminate) ltac:(discriminate) eq_refl eq_refl)
    as (Calls & _ & Body & _).
  split; [exact Body | exact Calls].
Defined.

(** The test page fetched through the plain tool, and then asked for
    through the one-pager. *)
Lemma X7_witness :
  let env := mk_env lookup healthy in
  let s1 := snd (callToolHandler env 10
                   (handleOnePagerRequest env 10 (request None None))
                   "API-retrieve-a-page" (JObj [("page_id", JStr "test-page-id")])
                   proxy0) in
  pageCache_get s1 (JStr "test-page-id") = the_page
  /\ page_calls "test-page-id"
       (calls (snd (handleOnePagerRequest env 10 (request None None) s1)))
     = page_calls "test-page-id" (calls s1).
Proof.
  cbv zeta.
  apply (X7_tool_call_feeds_the_one_pager_cache (mk_env lookup healthy) 10 10
           (handleOnePagerRequest (mk_env lookup healthy) 10 (request None None))
           (JObj [("page_id", JStr "test-page-id")]) proxy0 op_page
           (mkResponse 200 the_page) 1 (js_entries the_page)
           (request None None));
    try reflexivity.
  discriminate.
Defined.

(** The earlier handler, with a table that finds nothing, and with a
    remote side that rejects every request with an error body that has a
    [status] of its own. *)
Lemma X8_witness :
  fst (Part000.callToolHandler (mk_env lookup_nothing healthy) 10
         "API-retrieve-a-page" (JObj [("page_id", JStr "test-page-id")]) proxy0)
  = Throw (new_Error (Part000.not_found_message "API-retrieve-a-page"))
  /\ prop (body_of
             (fst (Part000.callToolHandler (mk_env lookup always_refused) 10
                     "API-retrieve-a-page"
                     (JObj [("page_id", JStr "test-page-id")]) proxy0)))
          "status" = JNum 400.
Proof.
  split.
  - rewrite (proj1 (X8_earlier_handler_throws_and_spreads_error_data
                      (mk_env lookup_nothing healthy) 10 "API-retrieve-a-page"
                      (JObj [("page_id", JStr "test-page-id")]) proxy0) eq_refl).
    reflexivity.
  - destruct (proj2 (proj2 (X8_earlier_handler_throws_and_spreads_error_data
                              (mk_env lookup always_refused) 10
                              "API-retrieve-a-page"
                              (JObj [("page_id", JStr "test-page-id")]) proxy0))
                op_page "Bad request" 400 (js_entries refused_body) 1
                ltac:(discriminate) eq_refl eq_refl eq_refl)
      as (Run & _ & Status).
    rewrite Run. cbn [body_of text].
    apply (Status (JNum 400)); [reflexivity | | discriminate].
    repeat constructor; cbn; intuition discriminate.
Defined.

(** A document with a server, and a document whose list of servers is
    empty. *)
Lemma X9_witness :
  constructor_baseUrl spec_with_server = Ret (JStr "https://api.notion.com")
  /\ constructor_baseUrl spec_with_no_server
     = Throw (PlainError "TypeError"
                "Cannot read properties of undefined (reading 'url')").
Proof.
  split.
  - apply (proj2 (proj2 (X9_constructor_needs_a_base_url
                           (js_entries spec_with_server)))
             [("url", JStr "https://api.notion.com")] []).
    reflexivity.
  - apply (proj1 (proj2 (X9_constructor_needs_a_base_url
                           (js_entries spec_with_no_server)))).
    reflexivity.
Defined.

(** The round for the second page of the listing of three pages. *)
Lemma X10_witness :
  exists s',
    pagination_loop (mk_env lookup three_pages) 5 op_children children_params
      (JArr [blk "a1"; blk "a2"]) (JStr "cursor-2") [] proxy0
    = pagination_loop (mk_env lookup three_pages) 0 op_children children_params
        (JArr ([blk "a1"; blk "a2"]
                 ++ List.concat (repeat [blk "b1"; blk "b2"] 5)))
        (JStr "cursor-3") [] s'
    /\ List.length (calls s') = 5%nat.
Proof.
  destruct (X10_round_fetches_and_appends_a_page_five_times
              (mk_env lookup three_pages) op_children children_params
              [blk "a1"; blk "a2"] (JStr "cursor-2")
              (JObj [("object", JStr "list");
                     ("results", JArr [blk "b1"; blk "b2"]);
                     ("next_cursor", JStr "cursor-3");
                     ("has_more", JBool true);
                     ("type", JStr "block")])
              [blk "b1"; blk "b2"] 0 proxy0 eq_refl (fun w => eq_refl) eq_refl)
    as (s' & Run & Log & _).
  exists s'. split; [exact Run|]. rewrite Log. reflexivity.
Defined.

(** The listing of the test page, which has one page. *)
Lemma X11_witness :
  handleBlockChildrenParallel (mk_env lookup healthy) 10 op_children
    children_params proxy0
  = (Ret (mkToolResult
            (Some (JObj [("object", JStr "list");
                         ("results", JArr the_blocks);
                         ("next_cursor", JNull);
                         ("has_more", JBool false);
                         ("type", JStr "block")]))),
     called proxy0 op_children children_params 1).
Proof.
  apply (proj2 (proj2 (X11_first_page_decides (mk_env lookup healthy) 10
                         op_children children_params proxy0
                         (mkResponse 200
                            (JObj [("object", JStr "list");
                                   ("results", JArr the_blocks);
                                   ("next_cursor", JNull);
                                   ("has_more", JBool false);
                                   ("type", JStr "block")]))
                         1 eq_refl)));
    reflexivity.
Defined.

(** A listing that never ends, waited for through 20 requests. *)
Lemma X13_witness :
  fst (handleBlockChildrenParallel (mk_env lookup never_ends) 20 op_children
         children_params proxy0) = Hang
  /\ List.length
       (calls (snd (handleBlockChildrenParallel (mk_env lookup never_ends) 20
                      op_children children_params proxy0)))
     = 21%nat.
Proof.
  apply (X13_merge_has_no_page_limit (mk_env lookup never_ends) op_children
           children_params 20 proxy0).
  intros params w.
  exists (mkResponse 200
            (JObj [("object", JStr "list");
                   ("results", JArr [blk "x"]);
                   ("next_cursor", JStr "more");
                   ("has_more", JBool true);
                   ("type", JStr "block")])), [blk "x"].
  repeat split; reflexivity.
Defined.

(** The database of the workspace: retrieved, and a remote side that
    rejects the request. *)
Lemma X14_witness :
  retrieveDatabase (mk_env lookup healthy) (JStr "db-1")
    (options_of (request None None)) proxy0
  = (Ret the_database,
     snd (databaseCache_set (JStr "db-1") the_database
            (called proxy0 op_database (JObj [("database_id", JStr "db-1")]) 1)))
  /\ fst (retrieveDatabase (mk_env lookup always_fails) (JStr "db-1")
            (options_of (request None None)) proxy0)
     = Ret (JObj [("id", JStr "db-1");
                  ("error", JStr "Failed to retrieve database")]).
Proof.
  split.
  - apply (proj2 (proj2 (X14_retrieveDatabase_contains_failures
                           (mk_env lookup healthy) (JStr "db-1")
                           (options_of (request None None)) proxy0)
                    (or_intror eq_refl))
             op_database (Resolved (mkResponse 200 the_database)) 1);
      reflexivity.
  - rewrite (proj2 (proj2 (X14_retrieveDatabase_contains_failures
                             (mk_env lookup always_fails) (JStr "db-1")
                             (options_of (request None None)) proxy0)
                      (or_intror eq_refl))
               op_database
               (Rejected (HttpClientError "Service unavailable" 503 JNull)) 1
               eq_refl eq_refl).
    reflexivity.
Defined.

(** The database of the workspace, retrieved twice. *)
Lemma X15_witness :
  let env := mk_env lookup healthy in
  let options := options_of (request None None) in
  let s1 := snd (retrieveDatabase env (JStr "db-1") options proxy0) in
  retrieveDatabase env (JStr "db-1") options s1 = (Ret the_database, s1)
  /\ List.length (calls s1) = 1%nat.
Proof.
  cbv zeta. split.
  - apply (proj2 (X15_retrieveDatabase_serves_from_cache (mk_env lookup healthy)
                    (JStr "db-1") (options_of (request None None))
                    (options_of (request None None)) proxy0 op_database
                    (mkResponse 200 the_database) 1
                    (or_intror eq_refl) eq_refl eq_refl eq_refl eq_refl)).
  - reflexivity.
Defined.

(** The comments of the test page, and a remote side that rejects the
    request. *)
Lemma X16_witness :
  fst (retrieveComments (mk_env lookup healthy) (JStr "test-page-id")
         (options_of (request None None)) proxy0) = Ret the_comments
  /\ fst (retrieveComments (mk_env lookup always_fails) (JStr "test-page-id")
            (options_of (request None None)) proxy0)
     = Ret (JObj [("results", JArr [])]).
Proof.
  split.
  - destruct (proj2 (proj2 (X16_retrieveComments_always_asks_and_never_throws
                              (mk_env lookup healthy) (JStr "test-page-id")
                              (options_of (request None None)) proxy0))
                op_comment (Resolved (mkResponse 200 the_comments)) 1
                eq_refl eq_refl) as (_ & _ & _ & Listing).
    apply (Listing [JObj [("object", JStr "comment"); ("id", JStr "comment-1")]]);
      [reflexivity | reflexivity |].
    repeat constructor.
  - destruct (proj2 (proj2 (X16_retrieveComments_always_asks_and_never_throws
                              (mk_env lookup always_fails) (JStr "test-page-id")
                              (options_of (request None None)) proxy0))
                op_comment
                (Rejected (HttpClientError "Service unavailable" 503 JNull)) 1
                eq_refl eq_refl) as (_ & Failed).
    exact Failed.
Defined.

(** The basic information of the test page, fetched and then served from
    the cache. *)
Lemma X17_witness :
  let env := mk_env lookup healthy in
  let options := options_of (request None None) in
  let s1 := snd (retrievePageBasicInfo env (JStr "test-page-id") options proxy0) in
  retrievePageBasicInfo env (JStr "test-page-id") options s1
  = (Ret (JObj [("id", JStr "test-page-id");
                ("title", JObj [("id", JStr "title"); ("type", JStr "title")]);
                ("icon", JUndef);
                ("cover", JUndef);
                ("url", JStr "https://www.notion.so/test-page-id");
                ("fromCache", JBool true)]), s1).
Proof.
  cbv zeta.
  apply (proj2 (proj2 (X17_retrievePageBasicInfo_fresh_then_cached
                         (mk_env lookup healthy)
                         (JStr "test-page-id") (options_of (request None None))
                         (options_of (request None None)) proxy0 op_page
                         (mkResponse 200 the_page) 1
                         (or_intror eq_refl) eq_refl eq_refl eq_refl eq_refl
                         eq_refl))).
Defined.

(** The basic information of a page that cannot be retrieved. *)
Lemma X18_witness :
  retrievePageBasicInfo (mk_env lookup page_unavailable) (JStr "test-page-id")
    (options_of (request None None)) proxy0
  = (Ret (JObj [("id", JStr "test-page-id");
                ("error", JStr "Service unavailable")]),
     called proxy0 op_page (JObj [("page_id", JStr "test-page-id")]) 1).
Proof.
  destruct (proj2 (X18_retrievePageBasicInfo_failures
                     (mk_env lookup page_unavailable) (JStr "test-page-id")
                     (options_of (request None None)) proxy0
                     (or_intror eq_refl))
              op_page
              (Rejected (HttpClientError "Service unavailable" 503 JNull)) 1
              eq_refl eq_refl) as (_ & Rejection & _).
  apply (Rejection (HttpClientError "Service unavailable" 503 JNull)).
  reflexivity.
Defined.

(** The title property of the test page, enriched twice. *)
Lemma X19_witness :
  let env := mk_env lookup healthy in
  let options := options_of (request None None) in
  let s1 := snd (property_task env 0 "test-page-id" options 0 "title"
                   (JStr "title") page_cached) in
  prop (prop (prop (heap_get s1 0) "properties") "title") "details"
  = the_title_item
  /\ calls (snd (property_task env 0 "test-page-id" options 0 "title"
                   (JStr "title") s1)) = calls s1
  /\ List.length (calls s1) = 2%nat.
Proof.
  cbv zeta.
  destruct (X19_property_is_fetched_once_then_cached (mk_env lookup healthy) 0
              "test-page-id" (options_of (request None None))
              (options_of (request None None)) 0 "title" "title" page_cached
              op_property (mkResponse 200 the_title_item) 2
              (or_intror eq_refl) eq_refl eq_refl eq_refl eq_refl eq_refl eq_refl)
    as (_ & Details & _ & Again).
  split; [rewrite Details; reflexivity|].
  split; [rewrite Again; reflexivity | reflexivity].
Defined.

(** The title property of the test page, with a remote side that rejects
    every request. *)
Lemma X20_witness :
  let env := mk_env lookup always_fails in
  let s1 := snd (property_task env 0 "test-page-id"
                   (options_of (request None None)) 0 "title" (JStr "title")
                   page_cached) in
  prop (prop (prop (prop (heap_get s1 0) "properties") "title") "details") "error"
  = JObj [("status", JNum 503); ("message", JStr "<json>")]
  /\ propertyCache s1 = [].
Proof.
  cbv zeta.
  destruct (proj2 (proj2 (X20_property_failure_is_a_stub_and_is_not_cached
                            (mk_env lookup always_fails) 0 "test-page-id"
                            (options_of (request None None)) 0 "title" "title"
                            page_cached op_property
                            (Rejected (HttpClientError "Service unavailable"
                                         503 JNull)) 2
                            (or_intror eq_refl) eq_refl eq_refl eq_refl eq_refl))
              (HttpClientError "Service unavailable" 503 JNull) eq_refl
              ltac:(discriminate)) as (Run & Cache).
  split; [rewrite Run; reflexivity | exact Cache].
Defined.

(** The test page, expanded from the cache. *)
Lemma X22_witness :
  exists node s',
    expand_page (mk_env lookup healthy) 10 0 "test-page-id"
      (options_of (request None None)) 0 page_cached = (Ret node, s')
    /\ prop node "detailed_properties"
       = JObj (js_entries (prop node "properties"))
    /\ prop (prop (prop node "properties") "title") "details" = the_title_item.
Proof.
  destruct (expand_page (mk_env lookup healthy) 10 0 "test-page-id"
              (options_of (request None None)) 0 page_cached)
    as [[node|e| |] s'] eqn:T; try (vm_compute in T; discriminate).
  exists node, s'. split; [reflexivity|].
  destruct (X22_properties_carry_the_details_too (mk_env lookup healthy) 10 0
              "test-page-id" (options_of (request None None)) 0 page_cached s'
              node T) as (Stored & Same).
  - vm_compute in T. inversion T. reflexivity.
  - vm_compute in T. inversion T. discriminate.
  - split; [exact Same|].
    vm_compute in T. inversion T. reflexivity.
Defined.

(** The test page, first with [skipCache = true], then without. *)
Lemma X25_witness :
  let env := mk_env lookup healthy in
  let s1 := snd (handleOnePagerRequest env 10 (request None (Some true)) proxy0) in
  let s2 := snd (handleOnePagerRequest env 10 (request None None) s1) in
  cache_has (pageCache s1) (JStr "test-page-id") = true
  /\ page_calls "test-page-id" (calls s2) = page_calls "test-page-id" (calls s1).
Proof.
  cbv zeta.
  apply (X25_skipCache_still_fills_the_cache (mk_env lookup healthy) 10 10
           (request None (Some true)) (request None None) proxy0 op_page
           (mkResponse 200 the_page) 1);
    reflexivity.
Defined.

(** The children of a block at the depth limit, and with a remote side
    that answers every request with status 404. *)
Lemma X26_witness :
  retrieveBlocksRecursively (mk_env lookup healthy) 10 (JStr "block-1")
    (options_of (request None None)) 5 proxy0
  = (Ret [JObj [("note", JStr "Maximum recursion depth reached")]], proxy0)
  /\ retrieveBlocksRecursively (mk_env lookup answers_404) 10 (JStr "block-1")
       (options_of (request None None)) 1 proxy0
     = (Ret [],
        called proxy0 op_children
          (JObj [("block_id", JStr "block-1"); ("page_size", JNum 100)]) 1).
Proof.
  split.
  - apply (proj1 (proj2 (X26_retrieveBlocksRecursively_contains_failures
                           (mk_env lookup healthy) 10 (JStr "block-1")
                           (options_of (request None None)) 5 proxy0))).
    vm_compute. discriminate.
  - apply (proj2 (proj2 (proj2 (X26_retrieveBlocksRecursively_contains_failures
                                  (mk_env lookup answers_404) 10 (JStr "block-1")
                                  (options_of (request None None)) 1 proxy0)))
             op_children (mkResponse 404 not_found_body) 1
             (js_entries not_found_body));
      try reflexivity.
    discriminate.
Defined.

(** The three blocks of the test page with a batch size of -1. *)
Lemma X28_witness :
  let env := mk_env lookup healthy in
  let options := options_of (request None None) in
  let task := block_task env (fun id => retrieveBlocks env 3 10 id options 2)
                options 1 in
  fst (batch_loop task 3 the_blocks (-1) 0 [] proxy0) = Diverge.
Proof.
  cbv zeta.
  destruct (spawn_all
              (block_task (mk_env lookup healthy)
                 (fun id => retrieveBlocks (mk_env lookup healthy) 3 10 id
                              (options_of (request None None)) 2)
                 (options_of (request None None)) 1)
              (js_slice the_blocks 0 (-1)) proxy0) as [[rs|e| |] s1] eqn:Sp;
    try (vm_compute in Sp; discriminate).
  destruct (Promise_all rs) as [vs|e| |] eqn:Pa;
    try (vm_compute in Sp; inversion Sp; subst rs; vm_compute in Pa;
         discriminate).
  exact (f_equal fst
           (X28_negative_batch_size_never_ends
              (block_task (mk_env lookup healthy)
                 (fun id => retrieveBlocks (mk_env lookup healthy) 3 10 id
                              (options_of (request None None)) 2)
                 (options_of (request None None)) 1)
              the_blocks (-1) proxy0 s1 rs vs
              ltac:(discriminate) ltac:(reflexivity) Sp Pa)).
Defined.
